(** * realm-cli: the [app diff] and [secrets delete] commands

    A shallow embedding of the command handlers of
    [internal/commands/app] and [internal/commands/secrets] and of the
    command runner of [internal/cli].  The handlers talk to collaborators
    (the local project loader, the Realm client, the terminal); those are
    an interface here, a record of operations over an abstract world, and
    every call is recorded with its outcome in a chronological trace. *)

From Stdlib Require Import Ascii.
From stdpp Require Import base option list strings gmap pretty.

Open Scope string_scope.
Open Scope list_scope.

(** ** Go errors *)

(** The error values the commands build or pass along. *)
Inductive error : Type :=
| errorString (msg : string)              (* errors.New, fmt.Errorf without %w *)
| wrapError (msg : string) (err : error)  (* fmt.Errorf with %w *)
| suppressUsageError (err : error).       (* cli.suppressUsageError{error} *)

Fixpoint Error (e : error) : string :=
  match e with
  | errorString msg => msg
  | wrapError msg _ => msg
  | suppressUsageError err => Error err
  end.

(** errors.Unwrap: only the %w wrapper exposes its cause. *)
Definition Unwrap (e : error) : option error :=
  match e with
  | wrapError _ err => Some err
  | _ => None
  end.

Definition newline : string := String (Ascii.ascii_of_nat 10) "".

(** strings.Join *)
Definition Join (elems : list string) (sep : string) : string :=
  String.concat sep elems.

(** ** The data model of the diff engine *)

(** Modelled from the spec: FileNode, declared in the missing package
    [local] (3). *)
Record FileNode : Type := mkFileNode {
  relativePath : string;
  content : string;
  isDirectory : bool
}.

(** Modelled from the spec: ConfigTree, one side of the configuration:
    its nodes, each identified by its path (3). *)
Abbreviation ConfigTree := (list FileNode).

Abbreviation hash := string (only parsing).

(** Modelled from the spec: DependencySnapshot, declared in the missing
    package [realm] (3). *)
Record DependencySnapshot : Type := mkDependencySnapshot {
  present : bool;
  digest : option hash
}.

(** Modelled from the spec: HostingAsset, declared in the missing
    package [realm] (3). *)
Record HostingAsset : Type := mkHostingAsset {
  assetPath : string;
  assetDigest : hash;
  assetSize : nat;
  attributes : gmap string string
}.

(** Modelled from the spec: the facets, in presentation order (3). *)
Inductive Facet : Type := Config | Dependency | Hosting.

(** Modelled from the spec: the tags of a diff entry (3). *)
Inductive DiffKind : Type := Added | Removed | Changed.

(** Modelled from the spec: DiffEntry, declared with the missing diff
    types of packages [local] and [realm] (3). *)
Record DiffEntry : Type := mkDiffEntry {
  kind : DiffKind;
  path : string;
  facet : Facet;
  detail : string
}.

Definition DiffKind_String (k : DiffKind) : string :=
  match k with
  | Added => "Added"
  | Removed => "Removed"
  | Changed => "Changed"
  end.

(** Modelled from the spec: the text of an entry, missing with the diff
    types; one line per entry (6), here the kind, the path and, when
    there is one, the detail in brackets. *)
Definition DiffEntry_String (e : DiffEntry) : string :=
  DiffKind_String (kind e) +:+ " " +:+ path e +:+
  (if String.eqb (detail e) "" then "" else " (" +:+ detail e +:+ ")").

(** Modelled from the spec: the [Strings()] method of the dependency and
    hosting diffs, missing with their types. *)
Definition Strings (d : list DiffEntry) : list string :=
  DiffEntry_String <$> d.

(** ** Package [local] *)
Module local.

(** local.App, declared outside the files at hand: the handlers read
    [RootDir] and [AppData]. *)
Record App : Type := mkApp {
  RootDir : string;
  AppData : ConfigTree
}.

(** local.Hosting, declared outside the files at hand: the hosting root
    found under the app directory. *)
Record Hosting : Type := mkHosting {
  HostingRootDir : string
}.

Abbreviation HostingDiffs := (list DiffEntry).

End local.

(** ** Package [realm] *)
Module realm.

(** realm.App, realm.AppFilter and realm.Secret, declared outside the
    files at hand: the fields the handlers read or set. *)
Record App : Type := mkApp {
  GroupID : string;
  ID : string
}.

Record AppFilter : Type := mkAppFilter {
  FilterGroupID : string;
  FilterApp : string
}.

Abbreviation DependenciesDiff := (list DiffEntry).

Record Secret : Type := mkSecret {
  SecretID : string;
  SecretName : string
}.

End realm.

(** ** Package [terminal] *)
Module terminal.

(** A cell of a table row, [interface{}] in the source. *)
Inductive cell : Type :=
| CellBool (b : bool)
| CellString (s : string).

Abbreviation row := (gmap string cell).

(** The logs the handlers and the runner build. *)
Inductive Log : Type :=
| NewTextLog (message : string)
| NewTableLog (message : string) (headers : list string) (rows : list row)
| NewErrorLog (err : error).

End terminal.

(** ** Package [telemetry] *)
Module telemetry.

(** The events the runner tracks; the error event carries the error. *)
Inductive EventType : Type :=
| EventTypeCommandStart
| EventTypeCommandComplete
| EventTypeCommandError (err : error).

End telemetry.

(** ** Package [user] *)
Module user.

(** user.Profile, declared outside the files at hand: what the handlers
    ask of it. *)
Record Profile : Type := mkProfile {
  WorkingDirectory : string;
  HostingAssetCachePath : string
}.

End user.

(** ** Calls to the collaborators *)

Abbreviation res A := (error + A)%type (only parsing).

(** What a handler does to the outside, in the order it does it; a call
    carries its arguments and what it returned. *)
Inductive event : Type :=
| EvLoadApp (localPath : string) (r : res local.App)
| EvResolveApp (filter : realm.AppFilter) (r : res realm.App)
| EvDiff (groupID appID : string) (appData : ConfigTree) (r : res (list string))
| EvPrepareDependencies (app : local.App) (r : res string)
| EvDiffDependencies (groupID appID uploadPath : string) (r : res realm.DependenciesDiff)
| EvFindAppHosting (rootDir : string) (r : res local.Hosting)
| EvHostingAssets (groupID appID : string) (r : res (list HostingAsset))
| EvHostingDiffs (hosting : local.Hosting) (cachePath appID : string)
    (appAssets : list HostingAsset) (r : res local.HostingDiffs)
| EvSecrets (groupID appID : string) (r : res (list realm.Secret))
| EvResolveSecrets (inputs : list string) (secrets : list realm.Secret)
    (r : res (list realm.Secret))
| EvDeleteSecret (groupID appID secretID : string) (r : option error)
| EvTrackEvent (e : telemetry.EventType)
| EvPrint (log : terminal.Log)
| EvRemove (name : string).

Definition res_error {A} (r : res A) : option error :=
  match r with
  | inl e => Some e
  | inr _ => None
  end.

(** The error of a failed call, if the event is one. *)
Definition event_error (ev : event) : option error :=
  match ev with
  | EvLoadApp _ r => res_error r
  | EvResolveApp _ r => res_error r
  | EvDiff _ _ _ r => res_error r
  | EvPrepareDependencies _ r => res_error r
  | EvDiffDependencies _ _ _ r => res_error r
  | EvFindAppHosting _ r => res_error r
  | EvHostingAssets _ _ r => res_error r
  | EvHostingDiffs _ _ _ _ r => res_error r
  | EvSecrets _ _ r => res_error r
  | EvResolveSecrets _ _ r => res_error r
  | EvDeleteSecret _ _ _ r => r
  | EvTrackEvent _ | EvPrint _ | EvRemove _ => None
  end.

Definition is_remove (ev : event) : bool :=
  match ev with
  | EvRemove _ => true
  | _ => false
  end.

(** The calls of the dependency facet, of the hosting facet (the asset
    cache is only reached through [hosting.Diffs], which is handed its
    path), and of the remote service. *)
Definition is_dependency_call (ev : event) : bool :=
  match ev with
  | EvPrepareDependencies _ _ | EvDiffDependencies _ _ _ _ => true
  | _ => false
  end.

Definition is_hosting_call (ev : event) : bool :=
  match ev with
  | EvFindAppHosting _ _ | EvHostingAssets _ _ _ | EvHostingDiffs _ _ _ _ _ => true
  | _ => false
  end.

Definition is_cache_call (ev : event) : bool :=
  match ev with
  | EvHostingDiffs _ _ _ _ _ => true
  | _ => false
  end.

Definition is_remote_call (ev : event) : bool :=
  match ev with
  | EvResolveApp _ _ | EvDiff _ _ _ _ | EvDiffDependencies _ _ _ _
  | EvHostingAssets _ _ _ | EvSecrets _ _ _ | EvDeleteSecret _ _ _ _ => true
  | _ => false
  end.

(** ** Package [cli]: the collaborators and the handler monad *)
Module cli.

(** The operations a handler reaches through [local], [cli.Clients] and
    [terminal.UI], over a world [W] of everything outside the process. *)
Record Clients (W : Type) : Type := mkClients {
  LoadApp : string → W → res local.App * W;
  ResolveApp : realm.AppFilter → W → res realm.App * W;
  Diff : string → string → ConfigTree → W → res (list string) * W;
  PrepareDependencies : local.App → W → res string * W;
  DiffDependencies : string → string → string → W → res realm.DependenciesDiff * W;
  FindAppHosting : string → W → res local.Hosting * W;
  HostingAssets : string → string → W → res (list HostingAsset) * W;
  HostingDiffs : local.Hosting → string → string → list HostingAsset → W →
                 res local.HostingDiffs * W;
  Secrets : string → string → W → res (list realm.Secret) * W;
  resolveSecrets : list string → list realm.Secret → W → res (list realm.Secret) * W;
  DeleteSecret : string → string → string → W → option error * W;
  TrackEvent : telemetry.EventType → W → W;
  Print : terminal.Log → W → W;
  Remove : string → W → W
}.

Arguments LoadApp {W}.
Arguments ResolveApp {W}.
Arguments Diff {W}.
Arguments PrepareDependencies {W}.
Arguments DiffDependencies {W}.
Arguments FindAppHosting {W}.
Arguments HostingAssets {W}.
Arguments HostingDiffs {W}.
Arguments Secrets {W}.
Arguments resolveSecrets {W}.
Arguments DeleteSecret {W}.
Arguments TrackEvent {W}.
Arguments Print {W}.
Arguments Remove {W}.

Section Monad.
Context {W : Type}.

(** A handler step: from the world and the trace so far to an error or
    a value, the new world and the extended trace. *)
Definition M (A : Type) : Type := W * list event → res A * (W * list event).

Definition ret {A} (a : A) : M A := λ s, (inr a, s).

Definition throw {A} (e : error) : M A := λ s, (inl e, s).

(** [x, err := c; if err != nil { return err }; k x] *)
Definition bind {A B} (c : M A) (k : A → M B) : M B :=
  λ s, match c s with
       | (inl e, s') => (inl e, s')
       | (inr a, s') => k a s'
       end.

(** A fallible call: run it on the world and record it. *)
Definition call {A} (op : W → res A * W) (ev : res A → event) : M A :=
  λ '(w, tr), let '(r, w') := op w in (r, (w', tr ++ [ev r])).

(** A call whose error, if any, is a value like any other. *)
Definition call_total {A} (op : W → A * W) (ev : A → event) : M A :=
  λ '(w, tr), let '(a, w') := op w in (inr a, (w', tr ++ [ev a])).

(** An effect with no result the handler looks at. *)
Definition effect (op : W → W) (ev : event) : M unit :=
  λ '(w, tr), (inr tt, (op w, tr ++ [ev])).

(** [defer cleanup] followed by [body]: the cleanup runs when the
    function returns, whichever way. *)
Definition defer {A} (cleanup : M unit) (body : M A) : M A :=
  λ s, let '(r, s') := body s in (r, (cleanup s').2).

(** [err := c; if err != nil { ... }]: the error is looked at, not
    returned. *)
Definition attempt {A} (c : M A) : M (res A) :=
  λ s, let '(r, s') := c s in (inr r, s').

(** Running a handler from a world: the returned error ([None] is
    nil), the final world and the trace. *)
Definition run (c : M unit) (w : W) : option error * W * list event :=
  let '(r, (w', tr)) := c (w, []) in (res_error r, w', tr).

End Monad.

Global Instance M_ret {W} : MRet (@M W) := @ret W.
Global Instance M_bind {W} : MBind (@M W) := λ A B k c, bind c k.

End cli.

(** ** Go's [sort.SliceStable] *)

(** A stable sort: elements that [less] does not order keep their order.
    Written as the insertion sort the library runs on short slices; on a
    strict weak order every stable sort gives this result. *)
Fixpoint insertStable {A} (less : A → A → bool) (x : A) (sorted : list A) : list A :=
  match sorted with
  | [] => [x]
  | y :: rest =>
      if less y x then y :: insertStable less x rest else x :: y :: rest
  end.

Definition SliceStable {A} (less : A → A → bool) (x : list A) : list A :=
  foldr (insertStable less) [] x.


Import cli.

(** ** Package [cli]: the command runner *)
Module runner.
Section Build.
Context {W : Type}.

(** The name a command goes by in messages: its Display, or its Use
    when the Display is left blank. *)
Definition displayOf (Display Use : string) : string :=
  if String.eqb Display "" then Use else Display.

(** fmt.Errorf("%s failed: %w", display, err) *)
Definition Errorf_failed (display : string) (err : error) : error :=
  wrapError (display +:+ " failed: " +:+ Error err) err.

(** The [RunE] closure that [commandFactory.Build] gives Cobra: the
    handler runs between the telemetry events, and its error comes
    back wrapped. *)
Definition RunE (clients : Clients W) (display : string)
    (Handler : M (W:=W) unit) : M unit :=
  effect (TrackEvent clients telemetry.EventTypeCommandStart)
         (EvTrackEvent telemetry.EventTypeCommandStart);;
  r ← attempt Handler;
  match r with
  | inl err =>
      effect (TrackEvent clients (telemetry.EventTypeCommandError err))
             (EvTrackEvent (telemetry.EventTypeCommandError err));;
      throw (suppressUsageError (Errorf_failed display err))
  | inr _ =>
      effect (TrackEvent clients telemetry.EventTypeCommandComplete)
             (EvTrackEvent telemetry.EventTypeCommandComplete);;
      ret tt
  end.

End Build.
End runner.

(** ** Package [app]: the [app diff] command *)
Module app.

Record diffInputs : Type := mkDiffInputs {
  LocalPath : string;
  RemoteApp : string;
  Project : string;
  IncludeDependencies : bool;
  IncludeHosting : bool
}.

Record CommandDiff : Type := mkCommandDiff {
  inputs : diffInputs
}.

(** CommandMetaDiff *)
Definition Use : string := "diff".
Definition Display : string := "app diff".

Definition identicalMessage : string :=
  "Deployed app is identical to proposed version".

Definition changesMessage (diffs : list string) : string :=
  "The following reflects the proposed changes to your Realm app" +:+ newline
  +:+ Join diffs newline.

(** fmt.Errorf("no app directory found at %s", localPath) *)
Definition errNoAppDirectory (localPath : string) : error :=
  errorString ("no app directory found at " +:+ localPath).

Section Handler.
Context {W : Type}.
Variable clients : Clients W.
Variable profile : user.Profile.

(** The end of the handler: the report. *)
Definition report (diffs : list string) : M (W:=W) unit :=
  if decide (length diffs = 0) then
    effect (Print clients (terminal.NewTextLog identicalMessage))
           (EvPrint (terminal.NewTextLog identicalMessage));;
    ret tt
  else
    effect (Print clients (terminal.NewTextLog (changesMessage diffs)))
           (EvPrint (terminal.NewTextLog (changesMessage diffs)));;
    ret tt.

(** [if cmd.inputs.IncludeHosting { ... }] and what follows it. *)
Definition hostingAndReport (i : diffInputs) (app : local.App)
    (appToDiff : realm.App) (diffs : list string) : M (W:=W) unit :=
  if IncludeHosting i then
    hosting ← call (FindAppHosting clients (local.RootDir app))
                   (EvFindAppHosting (local.RootDir app));
    appAssets ← call (HostingAssets clients (realm.GroupID appToDiff) (realm.ID appToDiff))
                     (EvHostingAssets (realm.GroupID appToDiff) (realm.ID appToDiff));
    hostingDiffs ← call (HostingDiffs clients hosting (user.HostingAssetCachePath profile)
                           (realm.ID appToDiff) appAssets)
                        (EvHostingDiffs hosting (user.HostingAssetCachePath profile)
                           (realm.ID appToDiff) appAssets);
    report (diffs ++ Strings hostingDiffs)
  else
    report diffs.

(** [CommandDiff.Handler] *)
Definition Handler (cmd : CommandDiff) : M (W:=W) unit :=
  let i := inputs cmd in
  app ← call (LoadApp clients (LocalPath i)) (EvLoadApp (LocalPath i));
  if String.eqb (local.RootDir app) "" then
    throw (errNoAppDirectory (LocalPath i))
  else
    let filter := realm.mkAppFilter (Project i) (RemoteApp i) in
    appToDiff ← call (ResolveApp clients filter) (EvResolveApp filter);
    diffs ← call (Diff clients (realm.GroupID appToDiff) (realm.ID appToDiff) (local.AppData app))
                 (EvDiff (realm.GroupID appToDiff) (realm.ID appToDiff) (local.AppData app));
    if IncludeDependencies i then
      uploadPath ← call (PrepareDependencies clients app) (EvPrepareDependencies app);
      defer (effect (Remove clients uploadPath) (EvRemove uploadPath))
        (dependenciesDiff ← call (DiffDependencies clients (realm.GroupID appToDiff)
                                    (realm.ID appToDiff) uploadPath)
                                 (EvDiffDependencies (realm.GroupID appToDiff)
                                    (realm.ID appToDiff) uploadPath);
         hostingAndReport i app appToDiff (diffs ++ Strings dependenciesDiff))
    else
      hostingAndReport i app appToDiff diffs.

End Handler.
End app.

(** ** Package [secrets]: the [secrets delete] command *)
Module secrets.

Record deleteInputs : Type := mkDeleteInputs {
  Project : string;
  App : string;
  secrets : list string
}.

(** ProjectInputs.Filter *)
Definition Filter (i : deleteInputs) : realm.AppFilter :=
  realm.mkAppFilter (Project i) (App i).

Record CommandDelete : Type := mkCommandDelete {
  inputs : deleteInputs
}.

Record secretOutput : Type := mkSecretOutput {
  secret : realm.Secret;
  err : option error
}.

(** The comparison given to [sort.SliceStable]:
    [outputs[i].err != nil && outputs[j].err == nil]. *)
Definition failedFirst (oi oj : secretOutput) : bool :=
  bool_decide (err oi ≠ None) && bool_decide (err oj = None).

Section Handler.
Context {W : Type}.
Variable clients : Clients W.
(** The table helpers and header names of the package, declared
    outside the command's file. *)
Variables headerDeleted headerDetails : string.
Variable tableHeaders : list string → list string.
Variable tableRows :
  list secretOutput → (secretOutput → terminal.row → terminal.row) →
  list terminal.row.

(** [tableRowDelete] *)
Definition tableRowDelete (output : secretOutput) (row : terminal.row) : terminal.row :=
  match err output with
  | Some e =>
      <[headerDeleted := terminal.CellBool false]>
        (<[headerDetails := terminal.CellString (Error e)]> row)
  | None => <[headerDeleted := terminal.CellBool true]> row
  end.

(** The loop over the selection: one [DeleteSecret] each, whatever
    the ones before returned. *)
Fixpoint deleteSelected (target : realm.App) (selected : list realm.Secret)
    : M (W:=W) (list secretOutput) :=
  match selected with
  | [] => ret []
  | s :: rest =>
      e ← call_total (DeleteSecret clients (realm.GroupID target) (realm.ID target)
                        (realm.SecretID s))
                     (EvDeleteSecret (realm.GroupID target) (realm.ID target)
                        (realm.SecretID s));
      outputs ← deleteSelected target rest;
      ret (mkSecretOutput s e :: outputs)
  end.

Definition deletedMessage (n : nat) : string :=
  "Deleted " +:+ pretty n +:+ " secret(s)".

(** [CommandDelete.Handler] *)
Definition Handler (cmd : CommandDelete) : M (W:=W) unit :=
  target ← call (ResolveApp clients (Filter (inputs cmd)))
                (EvResolveApp (Filter (inputs cmd)));
  found ← call (Secrets clients (realm.GroupID target) (realm.ID target))
               (EvSecrets (realm.GroupID target) (realm.ID target));
  selected ← call (resolveSecrets clients (secrets (inputs cmd)) found)
                  (EvResolveSecrets (secrets (inputs cmd)) found);
  if decide (length selected = 0) then
    effect (Print clients (terminal.NewTextLog "No secrets to delete"))
           (EvPrint (terminal.NewTextLog "No secrets to delete"));;
    ret tt
  else
    outputs ← deleteSelected target selected;
    let sorted := SliceStable failedFirst outputs in
    let log :=
      terminal.NewTableLog (deletedMessage (length sorted))
        (tableHeaders [headerDeleted; headerDetails])
        (tableRows sorted tableRowDelete) in
    effect (Print clients log) (EvPrint log);;
    ret tt.

End Handler.
End secrets.

(** ** Reading a trace *)

(** The logs printed, in order. *)
Definition printed (tr : list event) : list terminal.Log :=
  omap (λ ev, match ev with EvPrint l => Some l | _ => None end) tr.

(** The entries each facet's diff call returned, as the handler takes
    them: the configuration diff returns its lines, the two others are
    rendered by [Strings()]. *)
Definition facet_entries (f : Facet) (tr : list event) : list string :=
  mjoin (omap (λ ev,
    match f, ev with
    | Config, EvDiff _ _ _ (inr diffs) => Some diffs
    | Dependency, EvDiffDependencies _ _ _ (inr d) => Some (Strings d)
    | Hosting, EvHostingDiffs _ _ _ _ (inr d) => Some (Strings d)
    | _, _ => None
    end) tr).

(** What the handler prints for a sequence of entries. *)
Definition reportLog (diffs : list string) : terminal.Log :=
  match diffs with
  | [] => terminal.NewTextLog app.identicalMessage
  | _ => terminal.NewTextLog (app.changesMessage diffs)
  end.

(** The secrets the handler tried to delete, in order. *)
Definition deletions (tr : list event) : list (string * string * string * option error) :=
  omap (λ ev, match ev with
              | EvDeleteSecret g a s r => Some (g, a, s, r)
              | _ => None
              end) tr.

(** The facet whose diff a call computes, for the three diff calls. *)
Definition facet_of_call (ev : event) : option Facet :=
  match ev with
  | EvDiff _ _ _ _ => Some Config
  | EvDiffDependencies _ _ _ _ => Some Dependency
  | EvHostingDiffs _ _ _ _ _ => Some Hosting
  | _ => None
  end.

(** The facets requested by the flags, in presentation order. *)
Definition requested_facets (i : app.diffInputs) : list Facet :=
  [Config] ++ (if app.IncludeDependencies i then [Dependency] else [])
           ++ (if app.IncludeHosting i then [Hosting] else []).

(** Two sets of collaborators that answer alike on the calls of the
    configuration facet and print alike. *)
Definition same_config_facet {W} (c1 c2 : Clients W) : Prop :=
  (∀ p w, LoadApp c1 p w = LoadApp c2 p w) ∧
  (∀ f w, ResolveApp c1 f w = ResolveApp c2 f w) ∧
  (∀ g a d w, Diff c1 g a d w = Diff c2 g a d w) ∧
  (∀ l w, Print c1 l w = Print c2 l w).

(** The call that produced an output of the delete loop. *)
Definition deleteEvent (target : realm.App) (o : secrets.secretOutput) : event :=
  EvDeleteSecret (realm.GroupID target) (realm.ID target)
    (realm.SecretID (secrets.secret o)) (secrets.err o).


(** ** The diff engine *)

(** The diff algorithms and the asset cache live in packages [local] and
    [realm], whose files are missing; every definition of this module
    follows the specification instead: sections 3 (data), 4 (the three
    facet algorithms), 6 (the cache interface) and 7 (errors). *)
Module engine.

(** Modelled from the spec: path normalization, missing with package
    [local]; separators are normalized before paths are compared and the
    comparison stays case-sensitive (4.1). *)
Fixpoint normalizePath (p : string) : string :=
  match p with
  | EmptyString => EmptyString
  | String c rest =>
      String (if Ascii.eqb c "\"%char then "/"%char else c) (normalizePath rest)
  end.

(** Modelled from the spec: the ordering of a facet's entries, missing
    with the diff types; entries are stably sorted by path (3). *)
Definition sortByPath (entries : list DiffEntry) : list DiffEntry :=
  SliceStable (λ a b, String.ltb (path a) (path b)) entries.

(** *** Comparing two listings by path *)
Section Compare.
Context {A : Type}.
Variable key : A → string.
(** The detail of the change between two items with the same path,
    if they differ. *)
Variable changed : A → A → option string.
Variable f : Facet.

(** Modelled from the spec: the lookup of a path in one side of a
    comparison, missing with the diff algorithms. *)
Definition lookupPath (p : string) (items : list A) : option A :=
  List.find (λ y, bool_decide (key y = p)) items.

(** Modelled from the spec: the entry of a local item, missing with the
    diff algorithms; Added when the path is only local, Changed when both
    sides have it and differ, nothing when they agree (4.1, 4.3). *)
Definition entriesOfLocal (remote : list A) (l : A) : list DiffEntry :=
  match lookupPath (key l) remote with
  | None => [mkDiffEntry Added (key l) f ""]
  | Some r =>
      match changed l r with
      | Some d => [mkDiffEntry Changed (key l) f d]
      | None => []
      end
  end.

(** Modelled from the spec: the entry of a remote item, missing with the
    diff algorithms; Removed when the path is only remote (4.1, 4.3). *)
Definition entriesOfRemote (locals : list A) (r : A) : list DiffEntry :=
  match lookupPath (key r) locals with
  | None => [mkDiffEntry Removed (key r) f ""]
  | Some _ => []
  end.

(** Modelled from the spec: the comparison shared by the configuration
    and hosting diffs, missing with them. *)
Definition compareListings (locals remote : list A) : list DiffEntry :=
  sortByPath (flat_map (entriesOfLocal remote) locals ++
              flat_map (entriesOfRemote locals) remote).
End Compare.

(** *** Configuration Diff Algorithm (4.1) *)

(** Modelled from the spec: the identity of a node, its normalized
    relative path (3, 4.1). *)
Definition nodePath (n : FileNode) : string := normalizePath (relativePath n).

(** Modelled from the spec: the nodes that are diffed; directory nodes
    are not diffed on their own (4.1). *)
Definition files (t : ConfigTree) : list FileNode :=
  filter (λ n, isDirectory n = false) t.

(** Modelled from the spec: the byte-exact comparison of content (4.1). *)
Definition contentChanged (l r : FileNode) : option string :=
  if decide (content l = content r) then None else Some "".

(** Modelled from the spec: the Configuration Diff Algorithm behind
    [clients.Realm.Diff], missing with package [realm] (4.1). *)
Definition configDiff (localTree remoteTree : ConfigTree) : list DiffEntry :=
  compareListings nodePath contentChanged Config (files localTree) (files remoteTree).

(** *** Dependency Diff Algorithm (4.2) *)

(** Modelled from the spec: the path under which the one dependency
    entry is reported (8, last scenario). *)
Definition dependencyPath : string := "dependency-archive".

(** Modelled from the spec: the Dependency Diff Algorithm behind
    [clients.Realm.DiffDependencies], missing with package [realm]
    (4.2). *)
Definition dependencyDiff (l r : DependencySnapshot) : list DiffEntry :=
  match present l, present r with
  | false, false => []
  | true, false => [mkDiffEntry Added dependencyPath Dependency ""]
  | false, true => [mkDiffEntry Removed dependencyPath Dependency ""]
  | true, true =>
      if decide (digest l = digest r) then []
      else [mkDiffEntry Changed dependencyPath Dependency ""]
  end.

(** *** Asset cache (3, 6, 7) *)

(** The modification signature of a file: size and modification time. *)
Abbreviation signature := (nat * nat)%type (only parsing).

(** Modelled from the spec: AssetCacheEntry, missing with package
    [local]; the entry keeps the signature it was recorded under, which
    [put] is given (3, 6). *)
Record AssetCacheEntry : Type := mkAssetCacheEntry {
  entryAppID : string;
  entryPath : string;
  entryDigest : hash;
  entrySignature : signature;
  lastSeen : nat
}.

(** Modelled from the spec: CacheError, the store being unreadable or
    unwritable (7). *)
Inductive CacheError : Type := CacheUnreadable | CacheUnwritable.

(** Modelled from the spec: the persisted cache store, missing with
    package [local]: its entries keyed by (appID, path), or the failure
    every access to it meets (3, 7). *)
Inductive CacheStore : Type :=
| Available (entries : gmap (string * string) AssetCacheEntry)
| Unavailable (err : CacheError).

(** Modelled from the spec: [get(appID, path)] of the Asset Cache
    interface (6). *)
Definition cacheGet (s : CacheStore) (appID p : string)
    : CacheError + option AssetCacheEntry :=
  match s with
  | Available entries => inr (entries !! (appID, p))
  | Unavailable err => inl err
  end.

(** Modelled from the spec: [put(appID, path, digest, signature)] of the
    Asset Cache interface, insert or replace (4.3, 6). *)
Definition cachePut (s : CacheStore) (appID p : string) (d : hash)
    (sig : signature) (now : nat) : CacheError + CacheStore :=
  match s with
  | Available entries =>
      inr (Available (<[(appID, p) := mkAssetCacheEntry appID p d sig now]> entries))
  | Unavailable err => inl err
  end.

(** *** Hosting Diff Algorithm (4.3) *)

(** Modelled from the spec: a file under the hosting root, missing with
    package [local]: a FileNode with the modification time its signature
    needs (3, glossary). *)
Record HostingFile : Type := mkHostingFile {
  node : FileNode;
  mtime : nat
}.

(** Modelled from the spec: the path that identifies a hosting file. *)
Definition filePath (f : HostingFile) : string := nodePath (node f).

(** Modelled from the spec: the modification signature, size plus
    modification time (3, glossary). *)
Definition fileSignature (f : HostingFile) : signature :=
  (String.length (content (node f)), mtime f).

(** Modelled from the spec: the files of a hosting listing, directories
    left out. *)
Definition hostingFiles (l : list HostingFile) : list HostingFile :=
  filter (λ f, isDirectory (node f) = false) l.

Section Hosting.
(** The content hasher. *)
Variable hashContent : string → hash.
(** The attributes a local file is deployed with (content type and
    the like). *)
Variable attributesOf : FileNode → gmap string string.

(** The state threaded through the files: the store and the paths
    hashed so far, which count the hashing work. *)
Definition hashing : Type := CacheStore * list string.

(** Modelled from the spec: the consultation of the cache, missing with
    [hosting.Diffs]: the digest of an entry for (appID, path) whose
    recorded signature is the file's.  A missing entry, a stale one and a
    failing store all give none (4.3, 7). *)
Definition cachedDigest (appID : string) (store : CacheStore) (f : HostingFile)
    : option hash :=
  match cacheGet store appID (filePath f) with
  | inr (Some e) =>
      if decide (entrySignature e = fileSignature f) then Some (entryDigest e)
      else None
  | inr None => None
  | inl _ => None
  end.

(** Modelled from the spec: the entry a fresh hash of the file
    records (4.3). *)
Definition freshEntry (appID : string) (now : nat) (f : HostingFile) : AssetCacheEntry :=
  mkAssetCacheEntry appID (filePath f) (hashContent (content (node f)))
    (fileSignature f) now.

(** Modelled from the spec: the update of the cache after a hash, insert
    or replace; a store that fails is left as it is and the failure
    ignored (4.3, 7). *)
Definition refreshed (appID : string) (now : nat) (f : HostingFile)
    (store : CacheStore) : CacheStore :=
  match cachePut store appID (filePath f) (hashContent (content (node f)))
          (fileSignature f) now with
  | inr s => s
  | inl _ => store
  end.

(** Modelled from the spec: hashing a file and recording its digest
    (4.3). *)
Definition rehash (appID : string) (now : nat) (f : HostingFile)
    (st : hashing) : hash * hashing :=
  (hashContent (content (node f)),
   (refreshed appID now f st.1, st.2 ++ [filePath f])).

(** Modelled from the spec: the digest of a local file, the cached one
    when there is a valid one, and then no hashing is done, a fresh one
    otherwise (4.3). *)
Definition localDigest (appID : string) (now : nat) (f : HostingFile)
    (st : hashing) : hash * hashing :=
  match cachedDigest appID st.1 f with
  | Some d => (d, st)
  | None => rehash appID now f st
  end.

(** The files a run over [l] from [store] hashes: those without a valid
    entry. *)
Definition uncached (appID : string) (store : CacheStore) (l : list HostingFile)
    : list HostingFile :=
  filter (λ g, cachedDigest appID store g = None) l.

(** The digest a run uses for a file, given the store it starts from. *)
Definition digestOf (appID : string) (store : CacheStore) (f : HostingFile) : hash :=
  default (hashContent (content (node f))) (cachedDigest appID store f).

(** Modelled from the spec: the local side of a hosting asset, derived
    from the file and its digest (3). *)
Definition assetOf (f : HostingFile) (d : hash) : HostingAsset :=
  mkHostingAsset (filePath f) d (String.length (content (node f)))
                 (attributesOf (node f)).

(** Modelled from the spec: the pass over the local files that derives
    their assets through the cache, missing with [hosting.Diffs] (4.3). *)
Fixpoint localAssets (appID : string) (now : nat) (l : list HostingFile)
    (st : hashing) : list HostingAsset * hashing :=
  match l with
  | [] => ([], st)
  | f :: rest =>
      let '(d, st1) := localDigest appID now f st in
      let '(assets, st2) := localAssets appID now rest st1 in
      (assetOf f d :: assets, st2)
  end.

(** Modelled from the spec: the path that identifies an asset of the
    manifest. *)
Definition remotePath (a : HostingAsset) : string := normalizePath (assetPath a).

(** Modelled from the spec: the change between two assets with the same
    path, of content when the digests differ, of attributes when only
    those do (4.3). *)
Definition assetChanged (l r : HostingAsset) : option string :=
  if decide (assetDigest l = assetDigest r) then
    if decide (attributes l = attributes r) then None else Some "attributes"
  else Some "content".

(** Modelled from the spec: the Hosting Diff Algorithm behind
    [hosting.Diffs], missing with package [local]; it gives the entries,
    the store after the run and the paths that were hashed (4.3). *)
Definition hostingDiffs (appID : string) (now : nat) (l : list HostingFile)
    (manifest : list HostingAsset) (store : CacheStore)
    : list DiffEntry * CacheStore * list string :=
  let '(assets, (store', hashed)) :=
    localAssets appID now (hostingFiles l) (store, []) in
  (compareListings remotePath assetChanged Hosting assets manifest, store', hashed).

(** The manifest a remote holds when it serves exactly these files. *)
Definition manifestOf (l : list HostingFile) : list HostingAsset :=
  (λ f, assetOf f (hashContent (content (node f)))) <$> hostingFiles l.

(** Modelled from the spec: the validity invariant of the cache entries
    (3): an entry whose recorded signature is the file's holds the
    file's digest. *)
Definition coherent (appID : string) (l : list HostingFile) (store : CacheStore) : Prop :=
  ∀ f e, f ∈ hostingFiles l →
    cacheGet store appID (filePath f) = inr (Some e) →
    entrySignature e = fileSignature f →
    entryDigest e = hashContent (content (node f)).

End Hosting.

(** Modelled from the spec: paths are unique within a tree (3). *)
Definition uniquePaths (t : ConfigTree) : Prop := NoDup (nodePath <$> files t).

(** Modelled from the spec: the relative path identifies a file within
    its snapshot (3). *)
Definition uniqueHostingPaths (l : list HostingFile) : Prop :=
  NoDup (filePath <$> hostingFiles l).

End engine.

(** ** The collaborators of the specification *)

(** The loader, the remote accessor and the cache behind the calls of
    the handlers are missing; the world of this module holds what each
    interface of section 6 of the specification answers, and [clients]
    answers the handler's calls from it with the algorithms of
    [engine]. *)
Module world.
Import engine.

(** Modelled from the spec: the state behind the Local Snapshot Loader,
    the Remote Snapshot Accessor and the Asset Cache, all missing (6).
    A failure of the local filesystem, of the service or of the archive
    build is the error stored in place of the answer (7). *)
Record World : Type := mkWorld {
  localApp : error + local.App;                   (* loadConfigTree *)
  remoteApp : error + realm.App;                  (* the app the filter resolves to *)
  remoteConfig : error + ConfigTree;              (* fetchRemoteConfig *)
  localArchive : error + option (string * string);
                             (* prepareDependencyArchive: path and bytes *)
  remoteDependency : error + DependencySnapshot;  (* fetchDependencySnapshot *)
  localHosting : error + list HostingFile;        (* loadHostingFiles *)
  remoteManifest : error + list HostingAsset;     (* fetchHostingManifest *)
  cacheStore : CacheStore;                        (* the persisted asset cache *)
  hashed : list string;                           (* the paths hashed so far *)
  clock : nat;
  remoteSecrets : error + list realm.Secret;
  protectedSecrets : list string                  (* ids the service refuses to delete *)
}.

Definition setCache (w : World) (s : CacheStore) (h : list string) : World :=
  mkWorld (localApp w) (remoteApp w) (remoteConfig w) (localArchive w)
    (remoteDependency w) (localHosting w) (remoteManifest w) s
    (hashed w ++ h) (clock w) (remoteSecrets w) (protectedSecrets w).

(** The same world over another cache store. *)
Definition withStore (w : World) (s : CacheStore) : World :=
  mkWorld (localApp w) (remoteApp w) (remoteConfig w) (localArchive w)
    (remoteDependency w) (localHosting w) (remoteManifest w) s
    (hashed w) (clock w) (remoteSecrets w) (protectedSecrets w).

Definition setSecrets (w : World) (l : list realm.Secret) : World :=
  mkWorld (localApp w) (remoteApp w) (remoteConfig w) (localArchive w)
    (remoteDependency w) (localHosting w) (remoteManifest w) (cacheStore w)
    (hashed w) (clock w) (inr l) (protectedSecrets w).

Section Clients.
Variable hashContent : string → hash.
Variable attributesOf : FileNode → gmap string string.

(** Modelled from the spec: the local dependency snapshot, the digest
    of the archive prepared at [uploadPath], absent when there is none
    (4.2). *)
Definition localDependency (w : World) (uploadPath : string) : DependencySnapshot :=
  match localArchive w with
  | inr (Some (p, bytes)) =>
      if decide (p = uploadPath) then mkDependencySnapshot true (Some (hashContent bytes))
      else mkDependencySnapshot false None
  | _ => mkDependencySnapshot false None
  end.

(** Modelled from the spec: [clients.Realm.Diff], missing with package
    [realm]: the remote configuration is fetched and the configuration
    diff rendered (4.1, 6). *)
Definition specDiff (appData : ConfigTree) (w : World) : (error + list string) * World :=
  match remoteConfig w with
  | inl e => (inl e, w)
  | inr remote => (inr (Strings (configDiff appData remote)), w)
  end.

(** Modelled from the spec: [local.PrepareDependencies], missing with
    package [local]: prepareDependencyArchive (6). *)
Definition specPrepareDependencies (w : World) : (error + string) * World :=
  match localArchive w with
  | inl e => (inl e, w)
  | inr (Some (p, _)) => (inr p, w)
  | inr None => (inr "", w)
  end.

(** Modelled from the spec: [clients.Realm.DiffDependencies], missing
    with package [realm]: the remote snapshot is fetched and compared
    with the local one (4.2, 6). *)
Definition specDiffDependencies (uploadPath : string) (w : World)
    : (error + list DiffEntry) * World :=
  match remoteDependency w with
  | inl e => (inl e, w)
  | inr remote => (inr (dependencyDiff (localDependency w uploadPath) remote), w)
  end.

(** Modelled from the spec: [local.FindAppHosting], missing with
    package [local]: loadHostingFiles (6). *)
Definition specFindAppHosting (rootDir : string) (w : World)
    : (error + local.Hosting) * World :=
  match localHosting w with
  | inl e => (inl e, w)
  | inr _ => (inr (local.mkHosting (rootDir +:+ "/hosting")), w)
  end.

(** Modelled from the spec: [hosting.Diffs], missing with package
    [local]: the hosting diff over the local files, the manifest and the
    cache.  A cache failure is not among its errors (4.3, 7). *)
Definition specHostingDiffs (appID : string) (appAssets : list HostingAsset)
    (w : World) : (error + list DiffEntry) * World :=
  match localHosting w with
  | inl e => (inl e, w)
  | inr l =>
      let '(entries, store', h) :=
        hostingDiffs hashContent attributesOf appID (clock w) l appAssets
          (cacheStore w) in
      (inr entries, setCache w store' h)
  end.

(** A secrets service to run the delete command against: it refuses
    the protected ids and deletes the others. *)
Definition specDeleteSecret (secretID : string) (w : World) : option error * World :=
  if bool_decide (secretID ∈ protectedSecrets w) then
    (Some (errorString ("failed to delete secret " +:+ secretID)), w)
  else
    match remoteSecrets w with
    | inl e => (Some e, w)
    | inr l =>
        (None, setSecrets w (filter (λ s, realm.SecretID s ≠ secretID) l))
    end.

(** Selecting by id or name; everything when nothing is asked for. *)
Definition specResolveSecrets (asked : list string) (found : list realm.Secret)
    : list realm.Secret :=
  match asked with
  | [] => found
  | _ => filter (λ s, realm.SecretID s ∈ asked ∨ realm.SecretName s ∈ asked) found
  end.

(** Modelled from the spec: the collaborators of the handlers, missing
    with packages [local], [realm] and [terminal] (6). *)
Definition clients : Clients World := {|
  LoadApp := λ _ w, (localApp w, w);
  ResolveApp := λ _ w, (remoteApp w, w);
  Diff := λ _ _ appData w, specDiff appData w;
  PrepareDependencies := λ _ w, specPrepareDependencies w;
  DiffDependencies := λ _ _ uploadPath w, specDiffDependencies uploadPath w;
  FindAppHosting := λ rootDir w, specFindAppHosting rootDir w;
  HostingAssets := λ _ _ w, (remoteManifest w, w);
  HostingDiffs := λ _ _ appID appAssets w, specHostingDiffs appID appAssets w;
  Secrets := λ _ _ w, (remoteSecrets w, w);
  resolveSecrets := λ asked found w, (inr (specResolveSecrets asked found), w);
  DeleteSecret := λ _ _ secretID w, specDeleteSecret secretID w;
  TrackEvent := λ _ w, w;
  Print := λ _ w, w;
  Remove := λ _ w, w
|}.

(** *** One snapshot on both sides *)

(** Modelled from the spec: a snapshot, the state of an application in
    the three facets, as the local side holds it (glossary). *)
Record Snapshot : Type := mkSnapshot {
  rootDir : string;
  config : ConfigTree;
  archive : option (string * string);
  hosting : list HostingFile
}.

(** The path under which the archive of a snapshot is prepared. *)
Definition preparedPath (S : Snapshot) : string :=
  match archive S with
  | Some (p, _) => p
  | None => ""
  end.

(** Modelled from the spec: the dependency snapshot of an archive
    (3). *)
Definition dependencyOf (a : option (string * string)) : DependencySnapshot :=
  match a with
  | Some (_, bytes) => mkDependencySnapshot true (Some (hashContent bytes))
  | None => mkDependencySnapshot false None
  end.

(** Modelled from the spec: the world in which the local directory
    holds [l] and the deployed application is [r] (6). *)
Definition between (l r : Snapshot) (target : realm.App) (store : CacheStore)
    (now : nat) : World := {|
  localApp := inr (local.mkApp (rootDir l) (config l));
  remoteApp := inr target;
  remoteConfig := inr (config r);
  localArchive := inr (archive l);
  remoteDependency := inr (dependencyOf (archive r));
  localHosting := inr (hosting l);
  remoteManifest := inr (manifestOf hashContent attributesOf (hosting r));
  cacheStore := store;
  hashed := [];
  clock := now;
  remoteSecrets := inr [];
  protectedSecrets := []
|}.

End Clients.
End world.

(** ** A sample project *)

(** Concrete data to run the handlers on: a stand-in hasher, a local
    directory, a deployed application and a secrets service. *)
Module sample.
Import engine world.

Definition hashContent (bytes : string) : hash := "sha:" +:+ bytes.

Definition attributesOf (n : FileNode) : gmap string string :=
  {[ "content-type" := "application/octet-stream" ]}.

Definition target : realm.App := realm.mkApp "group-1" "app-1".

Definition profile : user.Profile :=
  user.mkProfile "/home/dev" "/home/dev/.cache/hosting-assets".

Definition aJson : FileNode := mkFileNode "a.json" "{}" false.
Definition bJson : FileNode := mkFileNode "b.json" "{}" false.
Definition functionsDir : FileNode := mkFileNode "functions" "" true.

Definition imgPng : HostingFile :=
  mkHostingFile (mkFileNode "img.png" "PNG-1" false) 7.
Definition imgPngEdited : HostingFile :=
  mkHostingFile (mkFileNode "img.png" "PNG-22" false) 9.
Definition indexHtml : HostingFile :=
  mkHostingFile (mkFileNode "index.html" "<html/>" false) 3.

Definition localSide : Snapshot :=
  mkSnapshot "/home/dev/app" [aJson; functionsDir]
    (Some ("/tmp/deps.zip", "D2")) [imgPng; indexHtml].

Definition remoteSide : Snapshot :=
  mkSnapshot "/home/dev/app" [aJson; bJson]
    (Some ("/tmp/deps.zip", "D3")) [imgPng].

(** The local directory after the image was edited. *)
Definition localEdited : Snapshot :=
  mkSnapshot "/home/dev/app" [aJson; functionsDir]
    (Some ("/tmp/deps.zip", "D2")) [imgPngEdited; indexHtml].

Definition emptyStore : CacheStore := Available ∅.

(** What a run over [imgPng] and [indexHtml] at time 1 records. *)
Definition recorded : gmap (string * string) AssetCacheEntry :=
  <[("app-1", "img.png") := mkAssetCacheEntry "app-1" "img.png" "sha:PNG-1" (5, 7) 1]>
    (<[("app-1", "index.html") :=
         mkAssetCacheEntry "app-1" "index.html" "sha:<html/>" (7, 3) 1]> ∅).

Definition clients : Clients World := world.clients hashContent attributesOf.

(** The local directory against a deployed application that differs
    in every facet. *)
Definition differing : World :=
  between hashContent attributesOf localSide remoteSide target emptyStore 1.

(** The local directory against its own deployment. *)
Definition deployed : World :=
  between hashContent attributesOf localSide localSide target emptyStore 1.

(** The edited directory against its deployment before the edit, at
    time 2. *)
Definition edited : World :=
  between hashContent attributesOf localEdited localSide target emptyStore 2.

(** The same, with the service down for the dependency snapshot. *)
Definition serviceDown : World :=
  mkWorld (localApp differing) (remoteApp differing) (remoteConfig differing)
    (localArchive differing) (inl (errorString "service unavailable"))
    (localHosting differing) (remoteManifest differing) (cacheStore differing)
    [] 1 (inr []) [].

(** No app directory at the local path. *)
Definition noApp : World :=
  mkWorld (inr (local.mkApp "" [])) (remoteApp differing) (remoteConfig differing)
    (localArchive differing) (remoteDependency differing)
    (localHosting differing) (remoteManifest differing) (cacheStore differing)
    [] 1 (inr []) [].

Definition diffCommand (dependencies hosting : bool) : app.CommandDiff :=
  app.mkCommandDiff
    (app.mkDiffInputs "/home/dev/app" "app-1" "group-1" dependencies hosting).

(** Collaborators that differ from [clients] outside the configuration
    facet: the dependency and hosting calls all fail. *)
Definition brokenFacets : Clients World := {|
  LoadApp := LoadApp clients;
  ResolveApp := ResolveApp clients;
  Diff := Diff clients;
  PrepareDependencies := λ _ w, (inl (errorString "build failed"), w);
  DiffDependencies := λ _ _ _ w, (inl (errorString "service unavailable"), w);
  FindAppHosting := λ _ w, (inl (errorString "unreadable"), w);
  HostingAssets := λ _ _ w, (inl (errorString "service unavailable"), w);
  HostingDiffs := λ _ _ _ _ w, (inl (errorString "unreadable"), w);
  Secrets := Secrets clients;
  resolveSecrets := resolveSecrets clients;
  DeleteSecret := DeleteSecret clients;
  TrackEvent := TrackEvent clients;
  Print := Print clients;
  Remove := Remove clients
|}.

(** Three secrets, the second of which the service will not delete. *)
Definition apiKey : realm.Secret := realm.mkSecret "s1" "api-key".
Definition dbPassword : realm.Secret := realm.mkSecret "s2" "db-password".
Definition token : realm.Secret := realm.mkSecret "s3" "token".

Definition withSecrets : World :=
  mkWorld (localApp differing) (remoteApp differing) (remoteConfig differing)
    (localArchive differing) (remoteDependency differing)
    (localHosting differing) (remoteManifest differing) (cacheStore differing)
    [] 1 (inr [apiKey; dbPassword; token]) ["s1"; "s3"].

Definition deleteCommand (asked : list string) : secrets.CommandDelete :=
  secrets.mkCommandDelete (secrets.mkDeleteInputs "group-1" "app-1" asked).

End sample.

(** ** The rest of the commands and the command factory *)

(** What follows covers the code around the two handlers: the
    [app describe] handler and the resolution of the [app diff] inputs
    (package [app]), and the command factory of package [cli].  These
    reach further collaborators (the prompt, the profile file, the
    streams of the process), mutate the object they are methods of and
    may end the process, so they run in a second monad: the state is the
    receiver with the world, and a step either is done or has exited. *)
Module proc.

(** [*os.File]: the three standard streams and the files opened by
    name. *)
Inductive File : Type := Stdin | Stdout | Stderr | Opened (name : string).

(** terminal.UIConfig, declared outside the files at hand: the fields
    the factory binds flags to. *)
Record UIConfig : Type := mkUIConfig {
  DisableColors : bool;
  OutputFormat : string;
  OutputTarget : string
}.

(** What [terminal.NewUI] is given; the streams are pointers. *)
Record UI : Type := NewUI {
  uiConfig : UIConfig;
  uiIn : option File;
  uiOut : option File;
  uiErr : option File
}.

(** What happens outside, beyond the calls of the handlers.  [D] is the
    type of an app description. *)
Inductive xevent (D : Type) : Type :=
| XHandler (ev : event)
| XLoadAppConfig (path : string) (r : error + local.App)
| XAskOne (message : string) (r : option error) (answer : string)
| XAppDescription (groupID appID : string) (r : error + D)
| XPrintJSON (message : string) (data : D)
| XProfileLoad (r : option error)
| XProfileSave (r : option error)
| XOpenFile (name : string) (r : error + File)
| XCloseFile (f : File)
| XNewObjectID (id : string)
| XSetStreams (i o e : option File)
| XPrintln (s : string)
| XUIPrint (ui : UI) (log : terminal.Log) (r : option error)
| XFatal (err : error)
| XExit (code : nat).

Arguments XHandler {D}.
Arguments XLoadAppConfig {D}.
Arguments XAskOne {D}.
Arguments XAppDescription {D}.
Arguments XPrintJSON {D}.
Arguments XProfileLoad {D}.
Arguments XProfileSave {D}.
Arguments XOpenFile {D}.
Arguments XCloseFile {D}.
Arguments XNewObjectID {D}.
Arguments XSetStreams {D}.
Arguments XPrintln {D}.
Arguments XUIPrint {D}.
Arguments XFatal {D}.
Arguments XExit {D}.

(** A step is done with a value, or the process has exited. *)
Inductive outcome (A : Type) : Type :=
| Done (a : A)
| Exited (code : nat).

Arguments Done {A}.
Arguments Exited {A}.

(** The further collaborators, over the world [W]; [Profile] is the
    profile of the old factory. *)
Record Host (W D Profile : Type) : Type := mkHost {
  LoadAppConfig : string → W → (error + local.App) * W;
  (* ui.AskOne(&value, prompt): the error and what the value is after *)
  AskOne : string → string → W → (option error * string) * W;
  AppDescription : string → string → W → (error + D) * W;
  PrintJSON : string → D → W → W;
  (* profile.Load(): the error and the profile after *)
  ProfileLoad : Profile → W → (option error * Profile) * W;
  ProfileSave : Profile → W → option error * W;
  OpenFile : string → W → (error + File) * W;
  CloseFile : File → W → W;
  NewObjectID : W → string * W;
  Println : string → W → W;
  UIPrint : UI → terminal.Log → W → option error * W;
  LogFatal : error → W → W;
  SetStreams : option File → option File → option File → W → W
}.

Arguments LoadAppConfig {W D Profile}.
Arguments AskOne {W D Profile}.
Arguments AppDescription {W D Profile}.
Arguments PrintJSON {W D Profile}.
Arguments ProfileLoad {W D Profile}.
Arguments ProfileSave {W D Profile}.
Arguments OpenFile {W D Profile}.
Arguments CloseFile {W D Profile}.
Arguments NewObjectID {W D Profile}.
Arguments Println {W D Profile}.
Arguments UIPrint {W D Profile}.
Arguments LogFatal {W D Profile}.
Arguments SetStreams {W D Profile}.

Section Monad.
Context {F W D : Type}.

(** A step of a method of [F]: from the receiver, the world and the
    trace so far. *)
Definition P (A : Type) : Type :=
  (F * W) * list (xevent D) → outcome A * ((F * W) * list (xevent D)).

Definition pret {A} (a : A) : P A := λ s, (Done a, s).

Definition pbind {A B} (c : P A) (k : A → P B) : P B :=
  λ s, match c s with
       | (Done a, s') => k a s'
       | (Exited code, s') => (Exited code, s')
       end.

(** The receiver, read and written. *)
Definition receiver : P F := λ s, (Done s.1.1, s).

Definition assign (f : F) : P unit := λ '((_, w), tr), (Done tt, ((f, w), tr)).

(** A call of a collaborator, recorded with what it returned. *)
Definition pcall {A} (op : W → A * W) (ev : A → xevent D) : P A :=
  λ '((f, w), tr), let '(a, w') := op w in (Done a, ((f, w'), tr ++ [ev a])).

Definition peffect (op : W → W) (ev : xevent D) : P unit :=
  λ '((f, w), tr), (Done tt, ((f, op w), tr ++ [ev])).

(** os.Exit *)
Definition Exit {A} (code : nat) : P A :=
  λ '(s, tr), (Exited code, (s, tr ++ [XExit code])).

(** A command handler run from here: its events are passed on as they
    are. *)
Definition handler {A} (c : cli.M (W:=W) A) : P (error + A) :=
  λ '((f, w), tr),
    let '(r, (w', tr')) := c (w, []) in
    (Done r, ((f, w'), tr ++ (XHandler <$> tr'))).

(** Running a method on a receiver in a world. *)
Definition prun {A} (c : P A) (f : F) (w : W)
    : outcome A * F * W * list (xevent D) :=
  let '(r, ((f', w'), tr)) := c ((f, w), []) in (r, f', w', tr).

End Monad.

Global Instance P_ret {F W D} : MRet (@P F W D) := @pret F W D.
Global Instance P_bind {F W D} : MBind (@P F W D) := λ A B k c, pbind c k.

End proc.

Import proc.

(** ** Package [app]: the [app describe] command *)
Module describe.

(** describeInputs: the project inputs it embeds, with the filter they
    give. *)
Record describeInputs : Type := mkDescribeInputs {
  Project : string;
  App : string
}.

(** ProjectInputs.Filter *)
Definition Filter (i : describeInputs) : realm.AppFilter :=
  realm.mkAppFilter (Project i) (App i).

Record CommandDescribe : Type := mkCommandDescribe {
  inputs : describeInputs
}.

Section Handler.
Context {W D Profile : Type}.
Variable clients : Clients W.
Variable host : Host W D Profile.

(** [CommandDescribe.Handler] *)
Definition Handler (cmd : CommandDescribe) : P (F:=unit) (W:=W) (D:=D) (option error) :=
  r ← pcall (ResolveApp clients (Filter (inputs cmd)))
            (λ r, XHandler (EvResolveApp (Filter (inputs cmd)) r));
  match r with
  | inl err => mret (Some err)
  | inr app =>
      d ← pcall (AppDescription host (realm.GroupID app) (realm.ID app))
                (XAppDescription (realm.GroupID app) (realm.ID app));
      match d with
      | inl err => mret (Some err)
      | inr appDesc =>
          peffect (PrintJSON host "App description" appDesc)
                  (XPrintJSON "App description" appDesc);;
          mret None
      end
  end.

End Handler.
End describe.

(** ** Package [app]: resolving the inputs of [app diff] *)
Module diff.

Definition setLocalPath (p : string) (i : app.diffInputs) : app.diffInputs :=
  app.mkDiffInputs p (app.RemoteApp i) (app.Project i)
    (app.IncludeDependencies i) (app.IncludeHosting i).

Definition setRemoteApp (a : string) (i : app.diffInputs) : app.diffInputs :=
  app.mkDiffInputs (app.LocalPath i) a (app.Project i)
    (app.IncludeDependencies i) (app.IncludeHosting i).

Definition promptLocalPath : string := "App filepath (local)".

Section Resolve.
Context {W D Profile : Type}.
Variable host : Host W D Profile.
(** [local.App.Option], declared outside the files at hand. *)
Variable Option : local.App → string.

(** The end of [Resolve], once an app config is loaded. *)
Definition settle (app : local.App) : P (F:=app.diffInputs) (W:=W) (D:=D) (option error) :=
  i ← receiver;
  (if negb (String.eqb (local.RootDir app) "")
   then assign (setLocalPath (local.RootDir app) i)
   else mret tt);;
  i ← receiver;
  (if String.eqb (app.RemoteApp i) ""
   then assign (setRemoteApp (Option app) i)
   else mret tt);;
  mret None.

(** [diffInputs.Resolve]; the receiver is the inputs. *)
Definition Resolve (profile : user.Profile)
    : P (F:=app.diffInputs) (W:=W) (D:=D) (option error) :=
  i ← receiver;
  let searchPath :=
    if String.eqb (app.LocalPath i) "" then user.WorkingDirectory profile
    else app.LocalPath i in
  r ← pcall (LoadAppConfig host searchPath) (XLoadAppConfig searchPath);
  match r with
  | inl err => mret (Some err)
  | inr app =>
      if String.eqb (app.LocalPath i) "" && String.eqb (local.RootDir app) "" then
        a ← pcall (AskOne host (app.LocalPath i) promptLocalPath)
                  (λ a, XAskOne promptLocalPath a.1 a.2);
        assign (setLocalPath a.2 i);;
        match a.1 with
        | Some err => mret (Some err)
        | None =>
            i ← receiver;
            r ← pcall (LoadAppConfig host (app.LocalPath i))
                      (XLoadAppConfig (app.LocalPath i));
            match r with
            | inl err => mret (Some err)
            | inr app => settle app
            end
        end
      else settle app
  end.

End Resolve.
End diff.

(** ** Package [cli]: the command factory *)
Module factory.

(** CommandConfig and Config; [Mode] is telemetry.Mode. *)
Record CommandConfig (Mode : Type) : Type := mkCommandConfig {
  RealmBaseURL : string;
  TelemetryMode : Mode
}.

Arguments mkCommandConfig {Mode}.
Arguments RealmBaseURL {Mode}.
Arguments TelemetryMode {Mode}.

Record Config (Mode : Type) : Type := mkConfig {
  commandConfig : CommandConfig Mode;
  uiConfig : UIConfig
}.

Arguments mkConfig {Mode}.
Arguments commandConfig {Mode}.
Arguments uiConfig {Mode}.

(** What [telemetry.NewService] is given. *)
Record Service (Mode : Type) : Type := NewService {
  serviceMode : Mode;
  servicePublicAPIKey : string;
  serviceExecutionID : string;
  serviceCommand : string
}.

Arguments NewService {Mode}.
Arguments serviceMode {Mode}.
Arguments servicePublicAPIKey {Mode}.
Arguments serviceExecutionID {Mode}.
Arguments serviceCommand {Mode}.

(** commandFactory; a nil pointer or interface is [None].  The error
    logger is the one of [LogFatal]. *)
Record commandFactory (Profile Mode : Type) : Type := mkCommandFactory {
  config : Config Mode;
  profile : Profile;
  ui : option UI;
  inReader : option File;
  outWriter : option File;
  errWriter : option File;
  telemetryService : option (Service Mode)
}.

Arguments mkCommandFactory {Profile Mode}.
Arguments config {Profile Mode}.
Arguments profile {Profile Mode}.
Arguments ui {Profile Mode}.
Arguments inReader {Profile Mode}.
Arguments outWriter {Profile Mode}.
Arguments errWriter {Profile Mode}.
Arguments telemetryService {Profile Mode}.

(** A Command with the capabilities it may implement besides its
    handler (CommandPreparer, CommandResponder, CommandFlagger); a
    capability it lacks is [None].  [FlagSet] is pflag's. *)
Record Command (W Profile Mode FlagSet : Type) : Type := mkCommand {
  commandHandler : Profile → option UI → list string → cli.M (W:=W) unit;
  commandSetup : option (Profile → option UI → CommandConfig Mode → cli.M (W:=W) unit);
  commandFeedback : option (Profile → option UI → cli.M (W:=W) unit);
  commandRegisterFlags : option (FlagSet → FlagSet)
}.

Arguments mkCommand {W Profile Mode FlagSet}.
Arguments commandHandler {W Profile Mode FlagSet}.
Arguments commandSetup {W Profile Mode FlagSet}.
Arguments commandFeedback {W Profile Mode FlagSet}.
Arguments commandRegisterFlags {W Profile Mode FlagSet}.

Record CommandDefinition (W Profile Mode FlagSet : Type) : Type := mkCommandDefinition {
  command : Command W Profile Mode FlagSet;
  Description : string;
  Help : string;
  Use : string;
  Display : string;
  Aliases : list string
}.

Arguments mkCommandDefinition {W Profile Mode FlagSet}.
Arguments command {W Profile Mode FlagSet}.
Arguments Description {W Profile Mode FlagSet}.
Arguments Help {W Profile Mode FlagSet}.
Arguments Use {W Profile Mode FlagSet}.
Arguments Display {W Profile Mode FlagSet}.
Arguments Aliases {W Profile Mode FlagSet}.

Section Factory.
Context {W D Profile Mode FlagSet : Type}.
Context `{EqDecision Mode}.
Variable clients : Clients W.
Variable host : Host W D Profile.
(** telemetry.ModeNil and the accessors of the profile, declared
    outside the files at hand. *)
Variable ModeNil : Mode.
Variable GetTelemetryMode : Profile → Mode.
Variable SetTelemetryMode : Mode → Profile → Profile.
Variable PublicAPIKey : Profile → string.
(** The flags of a fresh Cobra command. *)
Variable newFlagSet : FlagSet.

Local Abbreviation Factory := (commandFactory Profile Mode).
Local Abbreviation Step := (P (F:=Factory) (W:=W) (D:=D)).

Definition setProfile (p : Profile) (f : Factory) : Factory :=
  mkCommandFactory (config f) p (ui f) (inReader f) (outWriter f) (errWriter f)
    (telemetryService f).

Definition setUI (u : option UI) (f : Factory) : Factory :=
  mkCommandFactory (config f) (profile f) u (inReader f) (outWriter f) (errWriter f)
    (telemetryService f).

Definition setInReader (r : option File) (f : Factory) : Factory :=
  mkCommandFactory (config f) (profile f) (ui f) r (outWriter f) (errWriter f)
    (telemetryService f).

Definition setOutWriter (o : option File) (f : Factory) : Factory :=
  mkCommandFactory (config f) (profile f) (ui f) (inReader f) o (errWriter f)
    (telemetryService f).

Definition setErrWriter (e : option File) (f : Factory) : Factory :=
  mkCommandFactory (config f) (profile f) (ui f) (inReader f) (outWriter f) e
    (telemetryService f).

Definition setTelemetryService (s : option (Service Mode)) (f : Factory) : Factory :=
  mkCommandFactory (config f) (profile f) (ui f) (inReader f) (outWriter f)
    (errWriter f) s.

(** errLogger.Fatal: the error is logged and the process exits with 1. *)
Definition Fatal {A} (err : error) : Step A :=
  λ '((f, w), tr), (Exited 1, ((f, LogFatal host err w), tr ++ [XFatal err])).

(** [commandFactory.Setup] *)
Definition Setup : Step unit :=
  f ← receiver;
  l ← pcall (ProfileLoad host (profile f)) (λ l, XProfileLoad l.1);
  assign (setProfile l.2 f);;
  match l.1 with
  | Some err => Fatal err
  | None =>
      let filepath := OutputTarget (uiConfig (config f)) in
      if negb (String.eqb filepath "") then
        o ← pcall (OpenFile host filepath) (XOpenFile filepath);
        match o with
        | inl err =>
            Fatal (wrapError ("failed to open target file: " +:+ Error err) err)
        | inr file =>
            f ← receiver;
            assign (setOutWriter (Some file) f)
        end
      else mret tt
  end.

(** [commandFactory.Close]; closing a nil file does nothing. *)
Definition Close : Step unit :=
  f ← receiver;
  if negb (String.eqb (OutputTarget (uiConfig (config f))) "") then
    match outWriter f with
    | Some file => peffect (CloseFile host file) (XCloseFile file)
    | None => mret tt
    end
  else mret tt.

(** [commandFactory.ensureUI] *)
Definition ensureUI : Step unit :=
  f ← receiver;
  (if inReader f is None then assign (setInReader (Some Stdin) f) else mret tt);;
  f ← receiver;
  (if outWriter f is None then assign (setOutWriter (Some Stdout) f) else mret tt);;
  f ← receiver;
  (if errWriter f is None then
     if negb (String.eqb (OutputTarget (uiConfig (config f))) "")
     then assign (setErrWriter (outWriter f) f)
     else assign (setErrWriter (Some Stderr) f)
   else mret tt);;
  f ← receiver;
  (if ui f is None then
     assign (setUI (Some (NewUI (uiConfig (config f)) (inReader f) (outWriter f)
                            (errWriter f))) f)
   else mret tt).

(** [commandFactory.configureTelemetry] *)
Definition configureTelemetry (commandName : string) : Step (option error) :=
  f ← receiver;
  let existingTelemetryMode := GetTelemetryMode (profile f) in
  let telemetryMode :=
    if decide (TelemetryMode (commandConfig (config f)) = ModeNil)
    then existingTelemetryMode
    else TelemetryMode (commandConfig (config f)) in
  saved ← (if decide (telemetryMode = existingTelemetryMode) then mret None
           else
             assign (setProfile (SetTelemetryMode telemetryMode (profile f)) f);;
             f ← receiver;
             pcall (ProfileSave host (profile f)) XProfileSave);
  match saved with
  | Some err => mret (Some err)
  | None =>
      f ← receiver;
      id ← pcall (NewObjectID host) XNewObjectID;
      assign (setTelemetryService
                (Some (NewService telemetryMode (PublicAPIKey (profile f)) id
                         commandName)) f);;
      mret None
  end.

(** The Cobra command [Build] fills in. *)
Record cobraCommand : Type := mkCobraCommand {
  cobraUse : string;
  cobraShort : string;
  cobraLong : string;
  cobraAliases : list string;
  RunE : list string → Step (option error);
  PersistentPreRun : list string → Step unit;
  PreRunE : option (list string → Step (option error));
  PostRunE : option (list string → Step (option error));
  Flags : FlagSet
}.

(** A handler of the command run from a closure, its nil or error. *)
Definition invoke (c : cli.M (W:=W) unit) : Step (option error) :=
  r ← handler c; mret (res_error r).

(** [commandFactory.Build] *)
Definition Build (provider : unit → CommandDefinition W Profile Mode FlagSet)
    : Step cobraCommand :=
  let definition := provider tt in
  let display := runner.displayOf (Display definition) (Use definition) in
  e ← configureTelemetry display;
  match e with
  | Some err => Fatal err
  | None =>
      mret {|
        cobraUse := Use definition;
        cobraShort := Description definition;
        cobraLong := Help definition;
        cobraAliases := Aliases definition;
        RunE := λ a,
          f ← receiver;
          invoke (runner.RunE clients display
                    (commandHandler (command definition) (profile f) (ui f) a));
        PersistentPreRun := λ a,
          ensureUI;;
          f ← receiver;
          (* cmd.SetIn, cmd.SetOut and cmd.SetErr, as one step *)
          peffect (SetStreams host (inReader f) (outWriter f) (errWriter f))
                  (XSetStreams (inReader f) (outWriter f) (errWriter f));
        PreRunE :=
          match commandSetup (command definition) with
          | Some setup => Some (λ a,
              f ← receiver;
              e ← invoke (setup (profile f) (ui f) (commandConfig (config f)));
              match e with
              | Some err =>
                  mret (Some (wrapError (display +:+ " setup failed: " +:+ Error err) err))
              | None => mret None
              end)
          | None => None
          end;
        PostRunE :=
          match commandFeedback (command definition) with
          | Some feedback => Some (λ a,
              f ← receiver;
              e ← invoke (feedback (profile f) (ui f));
              match e with
              | Some err =>
                  mret (Some (suppressUsageError
                    (wrapError (display +:+ " completed, but displaying results failed: "
                                +:+ Error err) err)))
              | None => mret None
              end)
          | None => None
          end;
        Flags :=
          match commandRegisterFlags (command definition) with
          | Some register => register newFlagSet
          | None => newFlagSet
          end
      |}
  end.

(** The test [_, ok := err.(suppressUsageError)]. *)
Definition isSuppressUsageError (err : error) : bool :=
  match err with
  | suppressUsageError _ => true
  | _ => false
  end.

(** [commandFactory.Run], over what [cmd.Execute()] does and the usage
    text of the command. *)
Definition Run (Execute : Step (option error)) (UsageString : string) : Step unit :=
  e ← Execute;
  match e with
  | None => mret tt
  | Some err =>
      (if isSuppressUsageError err then mret tt
       else peffect (Println host UsageString) (XPrintln UsageString));;
      f ← receiver;
      match ui f with
      | None => Fatal err
      | Some u =>
          printErr ← pcall (UIPrint host u (terminal.NewErrorLog err))
                           (XUIPrint u (terminal.NewErrorLog err));
          match printErr with
          | Some _ => Fatal err
          | None => Exit 1
          end
      end
  end.

End Factory.
End factory.

(** ** Reading a trace, continued *)

(** The paths handed to os.Remove and the upload paths
    [PrepareDependencies] returned, in order. *)
Definition removed (tr : list event) : list string :=
  omap (λ ev, match ev with EvRemove p => Some p | _ => None end) tr.

Definition prepared (tr : list event) : list string :=
  omap (λ ev, match ev with
              | EvPrepareDependencies _ (inr p) => Some p
              | _ => None
              end) tr.

(** The calls of a trace, the deferred removals left out. *)
Definition calls (tr : list event) : list event :=
  List.filter (λ ev, negb (is_remove ev)) tr.

(** The group and app a call to the Realm service is about. *)
Definition addressed (ev : event) : option (string * string) :=
  match ev with
  | EvDiff g a _ _ | EvDiffDependencies g a _ _ | EvHostingAssets g a _
  | EvSecrets g a _ | EvDeleteSecret g a _ _ => Some (g, a)
  | _ => None
  end.

(** The same for the further collaborators: the paths searched for an
    app configuration, the prompts shown, the profiles saved, the files
    opened and closed, the usage texts printed, the errors logged as
    fatal and the logs given to the UI, in order. *)
Section ProcessTrace.
Context {D : Type}.

Definition loads (tr : list (xevent D)) : list string :=
  omap (λ ev, match ev with XLoadAppConfig p _ => Some p | _ => None end) tr.

Definition loaded (tr : list (xevent D)) : list local.App :=
  omap (λ ev, match ev with XLoadAppConfig _ (inr a) => Some a | _ => None end) tr.

Definition prompts (tr : list (xevent D)) : list string :=
  omap (λ ev, match ev with XAskOne m _ _ => Some m | _ => None end) tr.

Definition saves (tr : list (xevent D)) : list (option error) :=
  omap (λ ev, match ev with XProfileSave r => Some r | _ => None end) tr.

Definition opens (tr : list (xevent D)) : list string :=
  omap (λ ev, match ev with XOpenFile n _ => Some n | _ => None end) tr.

Definition opened (tr : list (xevent D)) : list File :=
  omap (λ ev, match ev with XOpenFile _ (inr f) => Some f | _ => None end) tr.

Definition closed (tr : list (xevent D)) : list File :=
  omap (λ ev, match ev with XCloseFile f => Some f | _ => None end) tr.

Definition usages (tr : list (xevent D)) : list string :=
  omap (λ ev, match ev with XPrintln s => Some s | _ => None end) tr.

Definition fatals (tr : list (xevent D)) : list error :=
  omap (λ ev, match ev with XFatal e => Some e | _ => None end) tr.

Definition shown (tr : list (xevent D)) : list (UI * terminal.Log) :=
  omap (λ ev, match ev with XUIPrint u l _ => Some (u, l) | _ => None end) tr.

Definition exits (tr : list (xevent D)) : list nat :=
  omap (λ ev, match ev with XExit c => Some c | _ => None end) tr.

(** The events of the command handlers run on the way. *)
Definition handled (tr : list (xevent D)) : list event :=
  omap (λ ev, match ev with XHandler e => Some e | _ => None end) tr.

End ProcessTrace.

(** ** Scripted collaborators *)

(** Collaborators that answer from a script, to run the commands on. *)
Module script.

Definition project : local.App :=
  local.mkApp "/home/dev/app" [mkFileNode "config.json" "{}" false].

Definition target : realm.App := realm.mkApp "group-1" "app-1".

Definition apiKey : realm.Secret := realm.mkSecret "s1" "api-key".
Definition token : realm.Secret := realm.mkSecret "s2" "token".

Definition unavailable : error := errorString "service unavailable".

(** The Realm service answers, or is down for the dependencies and
    the secrets. *)
Definition clients (down : bool) : Clients unit := {|
  LoadApp := λ _ w, (inr project, w);
  ResolveApp := λ _ w, (inr target, w);
  Diff := λ _ _ _ w, (inr ["Changed config.json"], w);
  PrepareDependencies := λ _ w, (inr "/tmp/upload.zip", w);
  DiffDependencies := λ _ _ _ w, (if down then inl unavailable else inr [], w);
  FindAppHosting := λ _ w, (inr (local.mkHosting "/home/dev/app/hosting"), w);
  HostingAssets := λ _ _ w, (inr [], w);
  HostingDiffs := λ _ _ _ _ w, (inr [], w);
  Secrets := λ _ _ w, (if down then inl unavailable else inr [apiKey; token], w);
  resolveSecrets := λ _ found w, (inr found, w);
  DeleteSecret := λ _ _ _ w, (None, w);
  TrackEvent := λ _ w, w;
  Print := λ _ w, w;
  Remove := λ _ w, w
|}.

Definition profile : user.Profile :=
  user.mkProfile "/home/dev" "/home/dev/.cache/hosting-assets".

Definition diffCommand : app.CommandDiff :=
  app.mkCommandDiff (app.mkDiffInputs "/home/dev/app" "app-1" "group-1" true true).

Definition deleteCommand : secrets.CommandDelete :=
  secrets.mkCommandDelete (secrets.mkDeleteInputs "group-1" "app-1" []).

(** The profile of the old factory: its telemetry mode and API key. *)
Record Profile : Type := mkProfile {
  telemetryMode : string;
  publicAPIKey : string
}.

Definition setTelemetryMode (m : string) (p : Profile) : Profile :=
  mkProfile m (publicAPIKey p).

(** The machine: an app at /home/dev/app and nowhere else, a user who
    types [answer] when asked, and a disk that is writable or not. *)
Definition host (answer : string) (writable : bool) : Host unit string Profile := {|
  LoadAppConfig := λ p w,
    (if String.eqb p "/home/dev/app" then inr project else inr (local.mkApp "" []), w);
  AskOne := λ _ _ w, ((None, answer), w);
  AppDescription := λ _ a w, (inr ("description of " +:+ a), w);
  PrintJSON := λ _ _ w, w;
  ProfileLoad := λ p w, ((None, p), w);
  ProfileSave := λ _ w,
    (if writable then None else Some (errorString "read-only file system"), w);
  OpenFile := λ n w,
    (if writable then inr (Opened n) else inl (errorString "permission denied"), w);
  CloseFile := λ _ w, w;
  NewObjectID := λ w, ("5f0e8b2c", w);
  Println := λ _ w, w;
  UIPrint := λ _ _ w, (None, w);
  LogFatal := λ _ w, w;
  SetStreams := λ _ _ _ w, w
|}.

Definition factoryOf (mode target : string)
    : factory.commandFactory Profile string :=
  factory.mkCommandFactory
    (factory.mkConfig (factory.mkCommandConfig "https://realm.example" mode)
       (mkUIConfig false "" target))
    (mkProfile "on" "public-key") None None None None None.

(** A command that prints the API key of the profile, or fails; it
    prepares itself and registers a flag. *)
Definition whoami (fails : bool)
    : factory.Command unit Profile string (list string) :=
  factory.mkCommand
    (λ p _ _,
       if fails then throw unavailable
       else effect (Print (clients false) (terminal.NewTextLog (publicAPIKey p)))
                   (EvPrint (terminal.NewTextLog (publicAPIKey p))))
    (Some (λ _ _ _, if fails then throw unavailable else ret tt))
    None
    (Some (λ fs, "verbose" :: fs)).

Definition whoamiDefinition (fails : bool)
    : factory.CommandDefinition unit Profile string (list string) :=
  factory.mkCommandDefinition (whoami fails) "Display the current user"
    "Displays the API key of the profile in use" "whoami" "" [].

Definition Build (fails : bool) :=
  factory.Build (clients false) (host "" true) "" telemetryMode setTelemetryMode
    publicAPIKey [] (λ _, whoamiDefinition fails).

End script.

(** * Properties of the handlers *)

(** ** Stepping through a handler *)

Ltac unfold_monad :=
  unfold run, mbind, M_bind, bind, call, call_total, effect, defer, attempt,
    throw, ret in *.

(** Case analysis on the next call of a collaborator in the goal. *)
Ltac destruct_call :=
  match goal with
  | |- context [LoadApp ?c ?p ?w] =>
      destruct (LoadApp c p w) as [[?e|?app] ?w] eqn:?
  | |- context [ResolveApp ?c ?f ?w] =>
      destruct (ResolveApp c f w) as [[?e|?target] ?w] eqn:?
  | |- context [Diff ?c ?g ?a ?d ?w] =>
      destruct (Diff c g a d w) as [[?e|?cfg] ?w] eqn:?
  | |- context [PrepareDependencies ?c ?a ?w] =>
      destruct (PrepareDependencies c a w) as [[?e|?upload] ?w] eqn:?
  | |- context [DiffDependencies ?c ?g ?a ?p ?w] =>
      destruct (DiffDependencies c g a p w) as [[?e|?dd] ?w] eqn:?
  | |- context [FindAppHosting ?c ?d ?w] =>
      destruct (FindAppHosting c d w) as [[?e|?hosting] ?w] eqn:?
  | |- context [HostingAssets ?c ?g ?a ?w] =>
      destruct (HostingAssets c g a w) as [[?e|?assets] ?w] eqn:?
  | |- context [HostingDiffs ?c ?h ?p ?a ?l ?w] =>
      destruct (HostingDiffs c h p a l w) as [[?e|?hd] ?w] eqn:?
  | |- context [Secrets ?c ?g ?a ?w] =>
      destruct (Secrets c g a w) as [[?e|?secrets] ?w] eqn:?
  | |- context [resolveSecrets ?c ?i ?l ?w] =>
      destruct (resolveSecrets c i l w) as [[?e|?selected] ?w] eqn:?
  end; simpl.

Ltac destruct_rootdir :=
  match goal with
  | |- context [String.eqb (local.RootDir ?a) ""] =>
      destruct (String.eqb (local.RootDir a) "") eqn:?
  end; simpl.

Ltac destruct_report :=
  match goal with
  | |- context [decide (length ?l = 0)] =>
      destruct (decide (length l = 0)) as [?Hlen|?Hlen];
      [apply length_zero_iff_nil in Hlen|]
  end; simpl.

(** All the ways through [CommandDiff.Handler], one goal each. *)
Ltac handler_cases :=
  unfold app.Handler, app.hostingAndReport, app.report; unfold_monad; simpl;
  repeat first [destruct_call | destruct_rootdir | destruct_report].

Section HandlerProofs.
Context {W : Type}.
Implicit Types (clients : Clients W) (profile : user.Profile)
  (cmd : app.CommandDiff) (w : W) (tr : list event).

Lemma reportLog_changes diffs :
  diffs ≠ [] → reportLog diffs = terminal.NewTextLog (app.changesMessage diffs).
Proof. by destruct diffs. Qed.

(** The handler only ever extends the trace it is given. *)
Lemma Handler_from clients profile cmd w tr0 :
  app.Handler clients profile cmd (w, tr0) =
  let '(r, (w', tr)) := app.Handler clients profile cmd (w, []) in
  (r, (w', tr0 ++ tr)).
Proof.
  destruct cmd as [[lp ra pj [] []]]; handler_cases;
    rewrite <- ?app_assoc; reflexivity.
Qed.

(** What a run that returns nil printed and which diffs it asked for. *)
Lemma Handler_nil_report clients profile cmd w w' tr :
  run (app.Handler clients profile cmd) w = (None, w', tr) →
  printed tr = [reportLog (facet_entries Config tr ++ facet_entries Dependency tr
                           ++ facet_entries Hosting tr)] ∧
  omap facet_of_call tr = requested_facets (app.inputs cmd).
Proof.
  destruct cmd as [[lp ra pj [] []]]; revert w' tr; handler_cases;
    intros w' tr [= <- <-]; unfold facet_entries; simpl;
    rewrite <- ?app_assoc in *; simpl; rewrite ?app_nil_r in *;
    (split; [|reflexivity]);
    match goal with
    | H : ?l = [] |- _ = [reportLog ?l] => by rewrite H
    | |- [terminal.NewTextLog (app.changesMessage ?l)] = [reportLog ?l] =>
        rewrite reportLog_changes; [done | by intros E; rewrite E in *]
    end.
Qed.

(** A run that returns an error printed nothing; the error is the one
    of the last call, or the handler's own when the app has no root
    directory. *)
Lemma Handler_error_inv clients profile cmd w e w' tr :
  run (app.Handler clients profile cmd) w = (Some e, w', tr) →
  printed tr = [] ∧
  ((∃ pre ev post, tr = pre ++ ev :: post ∧ event_error ev = Some e ∧
      Forall (λ x, event_error x = None) pre ∧
      Forall (λ x, is_remove x = true) post) ∨
   (∃ a, tr = [EvLoadApp (app.LocalPath (app.inputs cmd)) (inr a)] ∧
      local.RootDir a = "" ∧
      e = app.errNoAppDirectory (app.LocalPath (app.inputs cmd)))).
Proof.
  destruct cmd as [[lp ra pj [] []]]; revert w' tr; handler_cases;
    intros w' tr [= <- <- <-]; (split; [done|]);
    first
      [ right; eexists; split; [done|]; split; [by apply String.eqb_eq|done]
      | left;
        match goal with
        | |- ∃ pre ev post, ?l = _ ∧ _ =>
            first
              [ exists (removelast l), (List.last l (EvRemove "")), [];
                split; [reflexivity|];
                split; [reflexivity|]; split; [repeat constructor|constructor]
              | exists (removelast (removelast l)),
                  (List.last (removelast l) (EvRemove "")),
                  [List.last l (EvRemove "")];
                split; [reflexivity|];
                split; [reflexivity|];
                split; [repeat constructor|repeat constructor] ]
        end ].
Qed.

Lemma Handler_nil_no_failure clients profile cmd w w' tr :
  run (app.Handler clients profile cmd) w = (None, w', tr) →
  Forall (λ x, event_error x = None) tr.
Proof.
  destruct cmd as [[lp ra pj [] []]]; revert w' tr; handler_cases;
    intros w' tr [= <- <-]; repeat constructor.
Qed.

Lemma is_remove_no_error ev : is_remove ev = true → event_error ev = None.
Proof. by destruct ev. Qed.

(** A failed call decides the run: it is the last call, its error is
    the handler's, and nothing was printed. *)
Lemma Handler_failed_call clients profile cmd w r w' tr ev e :
  run (app.Handler clients profile cmd) w = (r, w', tr) →
  ev ∈ tr → event_error ev = Some e →
  r = Some e ∧ printed tr = [] ∧
  ∃ pre post, tr = pre ++ ev :: post ∧
    Forall (λ x, event_error x = None) pre ∧
    Forall (λ x, is_remove x = true) post.
Proof.
  intros Hrun Hin Hev. destruct r as [e'|].
  - apply Handler_error_inv in Hrun
      as [Hp [(pre & ev' & post & -> & He' & Hpre & Hpost)|(a & -> & _ & _)]].
    + assert (ev = ev') as ->.
      { apply elem_of_app in Hin as [Hin|Hin].
        - rewrite Forall_forall in Hpre. specialize (Hpre _ Hin). congruence.
        - apply elem_of_cons in Hin as [->|Hin]; [done|].
          rewrite Forall_forall in Hpost. specialize (Hpost _ Hin).
          apply is_remove_no_error in Hpost. congruence. }
      split; [congruence|]. split; [done|]. by exists pre, post.
    + apply list_elem_of_singleton in Hin as ->. done.
  - apply Handler_nil_no_failure in Hrun. rewrite Forall_forall in Hrun.
    specialize (Hrun _ Hin). congruence.
Qed.

(** The runner around any handler. *)
Lemma RunE_run clients display (H : M (W:=W) unit) w :
  run (runner.RunE clients display H) w =
  match H (TrackEvent clients telemetry.EventTypeCommandStart w,
           [EvTrackEvent telemetry.EventTypeCommandStart]) with
  | (inl err, (w1, tr1)) =>
      (Some (suppressUsageError (runner.Errorf_failed display err)),
       TrackEvent clients (telemetry.EventTypeCommandError err) w1,
       tr1 ++ [EvTrackEvent (telemetry.EventTypeCommandError err)])
  | (inr _, (w1, tr1)) =>
      (None, TrackEvent clients telemetry.EventTypeCommandComplete w1,
       tr1 ++ [EvTrackEvent telemetry.EventTypeCommandComplete])
  end.
Proof.
  unfold runner.RunE; unfold_monad; simpl.
  by destruct (H _) as [[err|[]] [w1 tr1]].
Qed.

Lemma printed_cons ev tr :
  printed (ev :: tr) =
  match ev with
  | EvPrint l => l :: printed tr
  | _ => printed tr
  end.
Proof. by destruct ev. Qed.

Lemma printed_app tr1 tr2 : printed (tr1 ++ tr2) = printed tr1 ++ printed tr2.
Proof. unfold printed. apply omap_app. Qed.

End HandlerProofs.

(** ** The [app diff] handler *)

Section DiffHandler.
Context {W : Type}.
Implicit Types (clients : Clients W) (profile : user.Profile)
  (cmd : app.CommandDiff) (w : W) (tr : list event).

(** C1. A diff that completes prints the report of one sequence: the
    entries the configuration diff returned, then those of the
    dependency diff, then those of the hosting diff, each in the order
    its call returned them.  The diff calls made are exactly those of
    the requested facets, in the order Config, Dependency, Hosting, and
    a facet that was not requested contributes nothing. *)
Theorem diff_entries_in_facet_order clients profile cmd w w' tr :
  run (app.Handler clients profile cmd) w = (None, w', tr) →
  printed tr =
    [reportLog (facet_entries Config tr ++ facet_entries Dependency tr
                ++ facet_entries Hosting tr)] ∧
  omap facet_of_call tr = requested_facets (app.inputs cmd) ∧
  (app.IncludeDependencies (app.inputs cmd) = false → facet_entries Dependency tr = []) ∧
  (app.IncludeHosting (app.inputs cmd) = false → facet_entries Hosting tr = []).
Proof.
  intros Hrun. destruct (Handler_nil_report _ _ _ _ _ _ Hrun) as [Hp Hf].
  split; [done|]. split; [done|].
  clear Hp Hf. revert w' tr Hrun.
  destruct cmd as [[lp ra pj d h]]; simpl. intros w' tr Hrun.
  split; intros ->; revert w' tr Hrun;
    [destruct h|destruct d]; handler_cases;
    by intros w' tr [= <- <-].
Qed.

(** C2. When a step of the diff fails, whichever it is (loading the
    local app, resolving the remote app, a remote diff, preparing the
    dependency archive, finding or diffing the hosting files), the
    handler returns that very error, the failed call is the last one it
    makes (only the deferred removal of the archive follows) and
    nothing is printed.  Run by the command runner, the failure comes
    back as the handler's error wrapped by %w under the message
    "app diff failed: ...", again with nothing printed. *)
Theorem diff_failure_aborts clients profile cmd w ev e :
  (∀ r w' tr,
     run (app.Handler clients profile cmd) w = (r, w', tr) →
     ev ∈ tr → event_error ev = Some e →
     r = Some e ∧ printed tr = [] ∧
     ∃ pre post, tr = pre ++ ev :: post ∧
       Forall (λ x, event_error x = None) pre ∧
       Forall (λ x, is_remove x = true) post) ∧
  (∀ r w' tr,
     run (runner.RunE clients (runner.displayOf app.Display app.Use)
            (app.Handler clients profile cmd)) w
       = (r, w', tr) →
     ev ∈ tr → event_error ev = Some e →
     ∃ err, r = Some (suppressUsageError err) ∧ Unwrap err = Some e ∧
       Error err = "app diff failed: " +:+ Error e ∧ printed tr = []).
Proof.
  split; [intros r w' tr; apply Handler_failed_call|].
  intros r w' tr. rewrite RunE_run, Handler_from.
  destruct (app.Handler clients profile cmd (_, [])) as [rh [wh trh]] eqn:Hh.
  assert (run (app.Handler clients profile cmd)
            (TrackEvent clients telemetry.EventTypeCommandStart w)
          = (res_error rh, wh, trh)) as Hrun
    by (unfold run; by rewrite Hh).
  intros Heq Hin Hev.
  assert (ev ∈ trh) as Hin'.
  { destruct rh as [err|[]]; injection Heq as <- <- <-;
      apply elem_of_cons in Hin as [->|Hin]; try done;
      apply elem_of_app in Hin as [Hin|Hin]; try done;
      apply list_elem_of_singleton in Hin; by subst. }
  destruct (Handler_failed_call _ _ _ _ _ _ _ _ _ Hrun Hin' Hev) as (Hr & Hp & _).
  destruct rh as [err|[]]; [|done]. injection Hr as ->.
  injection Heq as <- <- <-.
  exists (runner.Errorf_failed (runner.displayOf app.Display app.Use) e).
  repeat split. by rewrite printed_cons, !printed_app, Hp.
Qed.

(** C4. With neither dependencies nor hosting included, the handler
    makes no call of the dependency facet (no archive is prepared, none
    removed, no dependency diff), none of the hosting facet (no hosting
    files looked for, no manifest fetched) and never hands out the
    asset cache; and the whole run, result, world and trace, is the
    same under any collaborators that answer alike on the
    configuration facet. *)
Theorem diff_config_only clients profile cmd w r w' tr :
  app.IncludeDependencies (app.inputs cmd) = false →
  app.IncludeHosting (app.inputs cmd) = false →
  run (app.Handler clients profile cmd) w = (r, w', tr) →
  Forall (λ ev, is_dependency_call ev = false ∧ is_hosting_call ev = false ∧
                is_cache_call ev = false ∧ is_remove ev = false) tr ∧
  ∀ (clients' : Clients W) profile',
    same_config_facet clients clients' →
    run (app.Handler clients' profile' cmd) w = (r, w', tr).
Proof.
  destruct cmd as [[lp ra pj d h]]; simpl. intros -> ->. split.
  - revert r w' tr H. handler_cases; intros r w' tr [= <- <- <-];
      repeat constructor.
  - intros clients' profile' (HL & HR & HD & HP). rewrite <- H. clear H.
    unfold app.Handler, app.hostingAndReport, app.report; unfold_monad; simpl.
    rewrite <- HL. destruct (LoadApp clients lp w) as [[e|a] w1]; simpl; [done|].
    destruct (String.eqb _ _); simpl; [done|].
    rewrite <- HR. destruct (ResolveApp clients _ w1) as [[e|t] w2]; simpl; [done|].
    rewrite <- HD. destruct (Diff clients _ _ _ w2) as [[e|cfg] w3]; simpl; [done|].
    destruct (decide _); simpl; by rewrite <- HP.
Qed.

(** C5. A diff that completes with no entry from any requested facet
    prints the single message "Deployed app is identical to proposed
    version" and nothing else. *)
Theorem diff_empty_report clients profile cmd w w' tr :
  run (app.Handler clients profile cmd) w = (None, w', tr) →
  facet_entries Config tr ++ facet_entries Dependency tr
    ++ facet_entries Hosting tr = [] →
  printed tr = [terminal.NewTextLog "Deployed app is identical to proposed version"].
Proof.
  intros Hrun Hnil.
  destruct (Handler_nil_report _ _ _ _ _ _ Hrun) as [-> _]. by rewrite Hnil.
Qed.

(** C9. When the local app loads but has no root directory, the
    handler returns "no app directory found at <path>" having made no
    other call: the remote service is not contacted and nothing is
    printed. *)
Theorem diff_no_app_directory clients profile cmd w a w1 :
  LoadApp clients (app.LocalPath (app.inputs cmd)) w = (inr a, w1) →
  local.RootDir a = "" →
  run (app.Handler clients profile cmd) w =
    (Some (errorString ("no app directory found at " +:+ app.LocalPath (app.inputs cmd))),
     w1, [EvLoadApp (app.LocalPath (app.inputs cmd)) (inr a)]) ∧
  ∀ r w' tr, run (app.Handler clients profile cmd) w = (r, w', tr) →
    Forall (λ ev, is_remote_call ev = false) tr ∧ printed tr = [] ∧
    facet_entries Config tr ++ facet_entries Dependency tr
      ++ facet_entries Hosting tr = [].
Proof.
  intros HL Hroot.
  assert (run (app.Handler clients profile cmd) w =
    (Some (errorString ("no app directory found at " +:+ app.LocalPath (app.inputs cmd))),
     w1, [EvLoadApp (app.LocalPath (app.inputs cmd)) (inr a)])) as Hrun.
  { unfold app.Handler; unfold_monad; simpl. rewrite HL; simpl.
    by rewrite Hroot. }
  split; [done|]. intros r w' tr. rewrite Hrun. intros [= <- <- <-].
  repeat constructor.
Qed.

End DiffHandler.

(** ** The handler on the sample project *)

(** All three facets differ: one line each, in facet order. *)
Example sample_diff_report :
  printed (run (app.Handler sample.clients sample.profile (sample.diffCommand true true))
               sample.differing).2
  = [terminal.NewTextLog
       (app.changesMessage
          ["Removed b.json"; "Changed dependency-archive"; "Added index.html"])].
Proof. vm_compute. reflexivity. Qed.

Lemma diff_entries_in_facet_order_witness :
  let tr := (run (app.Handler sample.clients sample.profile (sample.diffCommand true true))
                 sample.differing).2 in
  printed tr =
    [reportLog (facet_entries Config tr ++ facet_entries Dependency tr
                ++ facet_entries Hosting tr)] ∧
  omap facet_of_call tr = [Config; Dependency; Hosting] ∧
  (true = false → facet_entries Dependency tr = []) ∧
  (true = false → facet_entries Hosting tr = []).
Proof.
  apply (diff_entries_in_facet_order sample.clients sample.profile
           (sample.diffCommand true true) sample.differing
           (run (app.Handler sample.clients sample.profile (sample.diffCommand true true))
                sample.differing).1.2).
  vm_compute. reflexivity.
Defined.

Lemma diff_failure_aborts_witness :
  let failed := EvDiffDependencies "group-1" "app-1" "/tmp/deps.zip"
                  (inl (errorString "service unavailable")) in
  let handler := app.Handler sample.clients sample.profile (sample.diffCommand true true) in
  let command := runner.RunE sample.clients (runner.displayOf app.Display app.Use)
                   handler in
  ((run handler sample.serviceDown).1.1 = Some (errorString "service unavailable") ∧
   printed (run handler sample.serviceDown).2 = [] ∧
   ∃ pre post, (run handler sample.serviceDown).2 = pre ++ failed :: post ∧
     Forall (λ x, event_error x = None) pre ∧
     Forall (λ x, is_remove x = true) post) ∧
  (∃ err, (run command sample.serviceDown).1.1 = Some (suppressUsageError err) ∧
     Unwrap err = Some (errorString "service unavailable") ∧
     Error err = "app diff failed: service unavailable" ∧
     printed (run command sample.serviceDown).2 = []).
Proof.
  intros failed handler command.
  destruct (diff_failure_aborts sample.clients sample.profile
              (sample.diffCommand true true) sample.serviceDown failed
              (errorString "service unavailable")) as [Hhandler Hrunner].
  split.
  - apply (Hhandler _ (run handler sample.serviceDown).1.2 _).
    + vm_compute. reflexivity.
    + vm_compute. repeat first [apply list_elem_of_here | apply list_elem_of_further].
    + reflexivity.
  - apply (Hrunner _ (run command sample.serviceDown).1.2 _).
    + vm_compute. reflexivity.
    + vm_compute. repeat first [apply list_elem_of_here | apply list_elem_of_further].
    + reflexivity.
Defined.

Lemma diff_config_only_witness :
  let configOnly := run (app.Handler sample.clients sample.profile
                           (sample.diffCommand false false)) sample.differing in
  Forall (λ ev, is_dependency_call ev = false ∧ is_hosting_call ev = false ∧
                is_cache_call ev = false ∧ is_remove ev = false) configOnly.2 ∧
  run (app.Handler sample.brokenFacets sample.profile (sample.diffCommand false false))
      sample.differing = configOnly ∧
  world.cacheStore configOnly.1.2 = sample.emptyStore ∧
  world.hashed configOnly.1.2 = [].
Proof.
  intros configOnly.
  destruct (diff_config_only sample.clients sample.profile
              (sample.diffCommand false false) sample.differing
              configOnly.1.1 configOnly.1.2 configOnly.2) as [Hcalls Hsame].
  - reflexivity.
  - reflexivity.
  - vm_compute. reflexivity.
  - split; [exact Hcalls|].
    rewrite (Hsame sample.brokenFacets sample.profile).
    + vm_compute. repeat split.
    + repeat split.
Defined.

Lemma diff_empty_report_witness :
  printed (run (app.Handler sample.clients sample.profile (sample.diffCommand true true))
               sample.deployed).2
  = [terminal.NewTextLog "Deployed app is identical to proposed version"].
Proof.
  apply (diff_empty_report sample.clients sample.profile (sample.diffCommand true true)
           sample.deployed
           (run (app.Handler sample.clients sample.profile (sample.diffCommand true true))
                sample.deployed).1.2).
  - vm_compute. reflexivity.
  - vm_compute. reflexivity.
Defined.

Lemma diff_no_app_directory_witness :
  run (app.Handler sample.clients sample.profile (sample.diffCommand true true)) sample.noApp
  = (Some (errorString "no app directory found at /home/dev/app"), sample.noApp,
     [EvLoadApp "/home/dev/app" (inr (local.mkApp "" []))]).
Proof.
  apply (diff_no_app_directory sample.clients sample.profile (sample.diffCommand true true)
           sample.noApp (local.mkApp "" []) sample.noApp).
  - reflexivity.
  - reflexivity.
Defined.

(** ** The [secrets delete] handler *)

Section SliceStable.
Context {A : Type}.

Lemma insertStable_elem_of (less : A → A → bool) x y l :
  y ∈ insertStable less x l ↔ y = x ∨ y ∈ l.
Proof.
  induction l as [|z l IH]; simpl.
  - rewrite list_elem_of_singleton, elem_of_nil. tauto.
  - destruct (less z x); rewrite !elem_of_cons, ?IH; tauto.
Qed.

(** Sorting keeps the elements. *)
Lemma SliceStable_elem_of (less : A → A → bool) y l :
  y ∈ SliceStable less l ↔ y ∈ l.
Proof.
  induction l as [|x l IH]; simpl; [done|].
  rewrite insertStable_elem_of, IH, elem_of_cons. tauto.
Qed.

Lemma SliceStable_length (less : A → A → bool) l :
  length (SliceStable less l) = length l.
Proof.
  induction l as [|x l IH]; simpl; [done|]. rewrite <- IH.
  generalize (SliceStable less l). intros s.
  induction s as [|z s IHs]; simpl; [done|].
  destruct (less z x); simpl; by rewrite ?IHs.
Qed.

End SliceStable.

Section SecretsProofs.
Context {W : Type}.
Variable clients : Clients W.
Variables headerDeleted headerDetails : string.
Variable tableHeaders : list string → list string.
Variable tableRows :
  list secrets.secretOutput →
  (secrets.secretOutput → terminal.row → terminal.row) → list terminal.row.

(** Inserting an output into failures followed by successes: a failure
    goes to the very front, a success to the front of the successes. *)
Lemma insertStable_failedFirst o (fs ds : list secrets.secretOutput) :
  Forall (λ x, secrets.err x ≠ None) fs →
  Forall (λ x, secrets.err x = None) ds →
  insertStable secrets.failedFirst o (fs ++ ds) =
  if decide (secrets.err o ≠ None) then o :: fs ++ ds else fs ++ o :: ds.
Proof.
  intros Hfs Hds. induction Hfs as [|f fs Hf Hfs IH]; simpl.
  - destruct Hds as [|d ds Hd Hds]; simpl.
    + by destruct (decide _).
    + unfold secrets.failedFirst at 1.
      rewrite (bool_decide_eq_false_2 (secrets.err d ≠ None)) by (by intros ?).
      simpl. by destruct (decide _).
  - unfold secrets.failedFirst at 1.
    rewrite (bool_decide_eq_true_2 (secrets.err f ≠ None)) by done. simpl.
    destruct (decide (secrets.err o ≠ None)) as [Ho|Ho].
    + by rewrite (bool_decide_eq_false_2 (secrets.err o = None)).
    + rewrite (bool_decide_eq_true_2 (secrets.err o = None)).
      * by rewrite IH.
      * by destruct (secrets.err o); [destruct Ho|].
Qed.

(** The sort of the handler is the stable partition: the failed
    deletions in their order, then the successful ones in theirs. *)
Lemma SliceStable_failedFirst (outputs : list secrets.secretOutput) :
  SliceStable secrets.failedFirst outputs =
  filter (λ o, secrets.err o ≠ None) outputs ++
  filter (λ o, secrets.err o = None) outputs.
Proof.
  induction outputs as [|o outputs IH]; simpl; [done|].
  rewrite IH, insertStable_failedFirst.
  - rewrite !filter_cons.
    destruct (decide (secrets.err o ≠ None)) as [Ho|Ho];
      destruct (decide (secrets.err o = None)) as [Ho'|Ho']; done.
  - apply Forall_forall. intros x Hx. by apply list_elem_of_filter in Hx as [? _].
  - apply Forall_forall. intros x Hx. by apply list_elem_of_filter in Hx as [? _].
Qed.

(** The loop never stops early: it returns one output per selected
    secret and makes one call per secret, in the order of the selection. *)
Lemma deleteSelected_all target selected w tr0 :
  ∃ outputs w',
    secrets.deleteSelected clients target selected (w, tr0) =
      (inr outputs, (w', tr0 ++ (deleteEvent target <$> outputs))) ∧
    secrets.secret <$> outputs = selected.
Proof.
  revert w tr0. induction selected as [|s rest IH]; intros w tr0; simpl.
  - exists [], w. unfold_monad. simpl. by rewrite app_nil_r.
  - unfold_monad.
    destruct (DeleteSecret clients _ _ _ w) as [e w1] eqn:Hd.
    destruct (IH w1 (tr0 ++ [deleteEvent target (secrets.mkSecretOutput s e)]))
      as (outputs & w' & Hrun & <-).
    exists (secrets.mkSecretOutput s e :: outputs), w'.
    unfold deleteEvent in *. simpl in *. by rewrite Hrun, <- app_assoc.
Qed.

Lemma deletions_app tr1 tr2 : deletions (tr1 ++ tr2) = deletions tr1 ++ deletions tr2.
Proof. unfold deletions. apply omap_app. Qed.

Lemma deletions_cons ev tr :
  deletions (ev :: tr) =
  match ev with
  | EvDeleteSecret g a s r => (g, a, s, r) :: deletions tr
  | _ => deletions tr
  end.
Proof. by destruct ev. Qed.

Lemma deletions_deleteEvents target outputs :
  deletions (deleteEvent target <$> outputs) =
  (λ o, (realm.GroupID target, realm.ID target,
         realm.SecretID (secrets.secret o), secrets.err o)) <$> outputs.
Proof.
  induction outputs as [|o l IH]; [done|].
  rewrite !fmap_cons, <- IH. reflexivity.
Qed.

Lemma printed_deleteEvents target outputs :
  printed (deleteEvent target <$> outputs) = [].
Proof. by induction outputs as [|o l IH]. Qed.

(** C10. Once the app, its secrets and the selection are resolved, the
    handler returns nil.  On an empty selection it prints "No secrets to
    delete" and deletes nothing.  Otherwise it calls DeleteSecret once
    for every selected secret, in the order of the selection and
    whatever the earlier calls returned, and prints one table whose rows
    are built from the outputs stably sorted: every failed deletion, in
    selection order, before every successful one, in selection order. *)
Theorem secrets_delete_attempts_all cmd w target w1 found w2 selected w3 :
  ResolveApp clients (secrets.Filter (secrets.inputs cmd)) w = (inr target, w1) →
  Secrets clients (realm.GroupID target) (realm.ID target) w1 = (inr found, w2) →
  resolveSecrets clients (secrets.secrets (secrets.inputs cmd)) found w2
    = (inr selected, w3) →
  ∃ w' tr,
    run (secrets.Handler clients headerDeleted headerDetails tableHeaders tableRows cmd) w
      = (None, w', tr) ∧
    (selected = [] →
       printed tr = [terminal.NewTextLog "No secrets to delete"] ∧ deletions tr = []) ∧
    (selected ≠ [] →
       ∃ outputs,
         secrets.secret <$> outputs = selected ∧
         deletions tr =
           (λ o, (realm.GroupID target, realm.ID target,
                  realm.SecretID (secrets.secret o), secrets.err o)) <$> outputs ∧
         printed tr =
           [terminal.NewTableLog
              ("Deleted " +:+ pretty (length selected) +:+ " secret(s)")
              (tableHeaders [headerDeleted; headerDetails])
              (tableRows
                 (filter (λ o, secrets.err o ≠ None) outputs ++
                  filter (λ o, secrets.err o = None) outputs)
                 (secrets.tableRowDelete headerDeleted headerDetails))]).
Proof.
  intros HR HS HSel. unfold secrets.Handler; unfold_monad; simpl.
  rewrite HR; simpl. rewrite HS; simpl. rewrite HSel; simpl.
  destruct (decide (length selected = 0)) as [Hlen|Hlen]; simpl.
  - apply length_zero_iff_nil in Hlen as ->.
    eexists _, _. split; [reflexivity|].
    split; [by intros _|by intros []].
  - match goal with
    | |- context [secrets.deleteSelected clients target selected (?w0, ?t0)] =>
        destruct (deleteSelected_all target selected w0 t0)
          as (outputs & w' & Hrun & Hsec)
    end.
    rewrite Hrun; simpl.
    eexists _, _. split; [reflexivity|]. split.
    + intros ->. by destruct Hlen.
    + intros _. exists outputs. split; [done|]. split.
      * rewrite !deletions_cons, deletions_app, deletions_deleteEvents.
        apply app_nil_r.
      * rewrite !printed_cons, printed_app, printed_deleteEvents, printed_cons.
        simpl.
        rewrite SliceStable_length, SliceStable_failedFirst.
        rewrite <- Hsec, length_fmap. done.
Qed.

End SecretsProofs.

Lemma secrets_delete_attempts_all_witness :
  let handler := secrets.Handler sample.clients "Deleted" "Details" id
                   (λ outputs f, (λ o, f o ∅) <$> outputs) (sample.deleteCommand []) in
  (run handler sample.withSecrets).1.1 = None ∧
  deletions (run handler sample.withSecrets).2 =
    [("group-1", "app-1", "s1", Some (errorString "failed to delete secret s1"));
     ("group-1", "app-1", "s2", None);
     ("group-1", "app-1", "s3", Some (errorString "failed to delete secret s3"))] ∧
  printed (run handler sample.withSecrets).2 =
    [terminal.NewTableLog "Deleted 3 secret(s)" ["Deleted"; "Details"]
       [ {[ "Deleted" := terminal.CellBool false;
            "Details" := terminal.CellString "failed to delete secret s1" ]};
         {[ "Deleted" := terminal.CellBool false;
            "Details" := terminal.CellString "failed to delete secret s3" ]};
         {[ "Deleted" := terminal.CellBool true ]} ]].
Proof.
  intros handler.
  destruct (secrets_delete_attempts_all sample.clients "Deleted" "Details" id
              (λ outputs f, (λ o, f o ∅) <$> outputs) (sample.deleteCommand [])
              sample.withSecrets sample.target sample.withSecrets
              [sample.apiKey; sample.dbPassword; sample.token] sample.withSecrets
              [sample.apiKey; sample.dbPassword; sample.token] sample.withSecrets)
    as (w' & tr & Hrun & _ & Hsome).
  - reflexivity.
  - reflexivity.
  - reflexivity.
  - destruct Hsome as (outputs & _ & _ & _); [done|].
    vm_compute. done.
Defined.

(** ** The dependency facet *)

Section DependencyProofs.
Context {W : Type}.

(** The dependency entries of a run are those of its one successful
    dependency diff, if there was one. *)
Lemma Handler_dependency_entries (clients : Clients W) profile cmd w r w' tr :
  run (app.Handler clients profile cmd) w = (r, w', tr) →
  facet_entries Dependency tr = [] ∨
  ∃ g a p w0 w1 d,
    DiffDependencies clients g a p w0 = (inr d, w1) ∧
    facet_entries Dependency tr = Strings d.
Proof.
  destruct cmd as [[lp ra pj [] []]]; revert r w' tr; handler_cases;
    intros r w' tr [= <- <- <-]; unfold facet_entries; simpl;
    first [by left | right; rewrite ?app_nil_r; eauto 10].
Qed.

End DependencyProofs.

Lemma dependencyDiff_length (l r : DependencySnapshot) :
  (length (engine.dependencyDiff l r) ≤ 1)%nat.
Proof.
  unfold engine.dependencyDiff.
  destruct (present l), (present r); simpl; try lia.
  destruct (decide _); simpl; lia.
Qed.

Lemma world_dependency_entries hashContent attributesOf profile cmd w res w' tr :
  run (app.Handler (world.clients hashContent attributesOf) profile cmd) w
    = (res, w', tr) →
  (length (facet_entries Dependency tr) ≤ 1)%nat.
Proof.
  intros Hrun.
  destruct (Handler_dependency_entries _ _ _ _ _ _ _ Hrun)
    as [->|(g & ap & p & w0 & w1 & d & Hd & ->)]; simpl; [lia|].
  simpl in Hd. unfold world.specDiffDependencies in Hd.
  destruct (world.remoteDependency w0) as [e|remote]; [done|].
  injection Hd as <- _. unfold Strings. rewrite length_fmap.
  apply dependencyDiff_length.
Qed.

(** C7. The dependency diff emits at most one entry: none when both
    archives are absent or both are present with the same digest, Added
    when only the local one is present, Removed when only the remote one
    is, Changed when both are present and their digests differ.  So a
    run of the handler against these collaborators has at most one
    dependency line. *)
Theorem dependency_diff_cases (l r : DependencySnapshot) :
  (length (engine.dependencyDiff l r) ≤ 1)%nat ∧
  (engine.dependencyDiff l r = [] ↔
     (present l = false ∧ present r = false) ∨
     (present l = true ∧ present r = true ∧ digest l = digest r)) ∧
  (present l = true → present r = false →
     engine.dependencyDiff l r = [mkDiffEntry Added "dependency-archive" Dependency ""]) ∧
  (present l = false → present r = true →
     engine.dependencyDiff l r = [mkDiffEntry Removed "dependency-archive" Dependency ""]) ∧
  (present l = true → present r = true → digest l ≠ digest r →
     engine.dependencyDiff l r = [mkDiffEntry Changed "dependency-archive" Dependency ""]) ∧
  (∀ hashContent attributesOf profile cmd w res w' tr,
     run (app.Handler (world.clients hashContent attributesOf) profile cmd) w
       = (res, w', tr) →
     (length (facet_entries Dependency tr) ≤ 1)%nat).
Proof.
  split; [apply dependencyDiff_length|].
  split; [|split; [|split; [|split; [|exact world_dependency_entries]]]];
    unfold engine.dependencyDiff; destruct l as [[] dl], r as [[] dr]; simpl;
    try (destruct (decide (dl = dr))); intuition congruence.
Qed.

Lemma dependency_diff_cases_witness :
  let d2 := mkDependencySnapshot true (Some "D2") in
  let d3 := mkDependencySnapshot true (Some "D3") in
  let none := mkDependencySnapshot false None in
  engine.dependencyDiff d2 none = [mkDiffEntry Added "dependency-archive" Dependency ""] ∧
  engine.dependencyDiff none d3 = [mkDiffEntry Removed "dependency-archive" Dependency ""] ∧
  engine.dependencyDiff d2 d3 = [mkDiffEntry Changed "dependency-archive" Dependency ""] ∧
  (length (facet_entries Dependency
            (run (app.Handler sample.clients sample.profile (sample.diffCommand true true))
                 sample.differing).2) ≤ 1)%nat.
Proof.
  intros d2 d3 none.
  destruct (dependency_diff_cases d2 none) as (_ & _ & Hadded & _).
  destruct (dependency_diff_cases none d3) as (_ & _ & _ & Hremoved & _).
  destruct (dependency_diff_cases d2 d3) as (_ & _ & _ & _ & Hchanged & Hrun).
  split; [by apply Hadded|]. split; [by apply Hremoved|].
  split; [by apply Hchanged|].
  apply (Hrun sample.hashContent sample.attributesOf sample.profile
           (sample.diffCommand true true) sample.differing
           (run (app.Handler sample.clients sample.profile (sample.diffCommand true true))
                sample.differing).1.1
           (run (app.Handler sample.clients sample.profile (sample.diffCommand true true))
                sample.differing).1.2).
  vm_compute. reflexivity.
Defined.

(** ** The scenarios of the specification *)

(** Local tree {a.json}, remote tree {a.json, b.json}: one entry,
    Removed b.json. *)
Example scenario_removed :
  engine.configDiff [sample.aJson] [sample.aJson; sample.bJson]
  = [mkDiffEntry Removed "b.json" Config ""].
Proof. vm_compute. reflexivity. Qed.

(** Swapping the sides relabels the entry Added, same path and facet. *)
Example scenario_added :
  engine.configDiff [sample.aJson; sample.bJson] [sample.aJson]
  = [mkDiffEntry Added "b.json" Config ""].
Proof. vm_compute. reflexivity. Qed.

(** Local path syntax and remote path syntax compare equal. *)
Example scenario_separators :
  engine.configDiff [mkFileNode "functions\f\config.json" "{}" false]
                    [mkFileNode "functions/f/config.json" "{}" false]
  = [].
Proof. vm_compute. reflexivity. Qed.

(** A cached digest for an unchanged img.png that the manifest lists
    with the same digest: no entry and no hashing. *)
Example scenario_cached :
  engine.hostingDiffs sample.hashContent sample.attributesOf "app-1" 2
    [sample.imgPng]
    (engine.manifestOf sample.hashContent sample.attributesOf [sample.imgPng])
    (engine.Available sample.recorded)
  = ([], engine.Available sample.recorded, []).
Proof. vm_compute. reflexivity. Qed.

(** The dependency archive present on both sides with different
    digests: Changed dependency-archive. *)
Example scenario_dependency :
  Strings (engine.dependencyDiff (mkDependencySnapshot true (Some "D2"))
                                 (mkDependencySnapshot true (Some "D3")))
  = ["Changed dependency-archive"].
Proof. vm_compute. reflexivity. Qed.

(** Same digest and other attributes: Changed, detail attributes. *)
Example scenario_attributes :
  engine.compareListings engine.remotePath engine.assetChanged Hosting
    [mkHostingAsset "img.png" "D1" 5 {[ "content-type" := "image/png" ]}]
    [mkHostingAsset "img.png" "D1" 5 {[ "content-type" := "text/plain" ]}]
  = [mkDiffEntry Changed "img.png" Hosting "attributes"].
Proof. vm_compute. reflexivity. Qed.

(** ** The engine: comparing listings *)

Section CompareProofs.
Import engine.
Context {A : Type}.
Variable key : A → string.
Variable changed : A → A → option string.
Variable f : Facet.

(** Where paths are unique, looking up the path of an item finds it. *)
Lemma lookupPath_unique items x :
  NoDup (key <$> items) → x ∈ items → lookupPath key (key x) items = Some x.
Proof.
  unfold lookupPath. induction items as [|y items IH]; simpl.
  - intros _ H. by apply elem_of_nil in H.
  - rewrite NoDup_cons. intros [Hy Hnd] Hin.
    destruct (bool_decide_reflect (key y = key x)) as [Heq|Hne].
    + apply elem_of_cons in Hin as [->|Hin]; [done|].
      destruct Hy. rewrite Heq. by apply list_elem_of_fmap_2.
    + apply elem_of_cons in Hin as [->|Hin]; [done|]. by apply IH.
Qed.

Lemma sortByPath_elem_of e entries : e ∈ sortByPath entries ↔ e ∈ entries.
Proof. apply SliceStable_elem_of. Qed.

(** What a local item contributes is among the entries. *)
Lemma compareListings_local locals remote l e :
  l ∈ locals → e ∈ entriesOfLocal key changed f remote l →
  e ∈ compareListings key changed f locals remote.
Proof.
  intros Hl He. unfold compareListings.
  rewrite sortByPath_elem_of, elem_of_app. left.
  apply list_elem_of_In, in_flat_map. exists l. by rewrite <- !list_elem_of_In.
Qed.

Lemma flat_map_nil {B} (g : A → list B) (l : list A) :
  (∀ x, x ∈ l → g x = []) → flat_map g l = [].
Proof.
  induction l as [|x l IH]; simpl; [done|]. intros H.
  rewrite (H x) by apply list_elem_of_here. simpl.
  apply IH. intros y Hy. apply H. by apply list_elem_of_further.
Qed.

(** A listing compared with itself has no entry, provided its paths are
    unique and an item does not differ from itself. *)
Lemma compareListings_refl items :
  NoDup (key <$> items) → (∀ x, changed x x = None) →
  compareListings key changed f items items = [].
Proof.
  intros Hnd Hsame. unfold compareListings.
  rewrite !flat_map_nil; [done| |].
  - intros x Hx. unfold entriesOfRemote. by rewrite lookupPath_unique.
  - intros x Hx. unfold entriesOfLocal. by rewrite lookupPath_unique, Hsame.
Qed.

End CompareProofs.

(** ** The engine: digests and the cache *)

Section PathsAndEntries.
Import engine.

Lemma normalizePath_idemp p : normalizePath (normalizePath p) = normalizePath p.
Proof.
  induction p as [|c p IH]; simpl; [done|]. rewrite IH. f_equal.
  destruct (Ascii.eqb c "\") eqn:E; [done|]. by rewrite E.
Qed.

Lemma cachedDigest_Some appID c g d :
  cachedDigest appID (Available c) g = Some d ↔
  ∃ e, c !! (appID, filePath g) = Some e ∧
       entrySignature e = fileSignature g ∧ entryDigest e = d.
Proof.
  unfold cachedDigest. simpl. destruct (c !! (appID, filePath g)) as [e|].
  - destruct (decide (entrySignature e = fileSignature g)) as [Hsig|Hsig]; split.
    + intros [= <-]. eauto.
    + by intros (e' & [= <-] & _ & <-).
    + done.
    + by intros (e' & [= <-] & ? & _).
  - split; [done|]. by intros (e' & ? & _).
Qed.

Lemma cachedDigest_None appID c g :
  cachedDigest appID (Available c) g = None ↔
  c !! (appID, filePath g) = None ∨
  ∃ e, c !! (appID, filePath g) = Some e ∧ entrySignature e ≠ fileSignature g.
Proof.
  unfold cachedDigest. simpl. destruct (c !! (appID, filePath g)) as [e|].
  - destruct (decide (entrySignature e = fileSignature g)) as [Hsig|Hsig]; split.
    + done.
    + intros [?|(e' & [= <-] & ?)]; done.
    + intros _. right. eauto.
    + done.
  - split; [by left|done].
Qed.

End PathsAndEntries.

Section HostingProofs.
Import engine.
Variable hashContent : string → hash.
Variable attributesOf : FileNode → gmap string string.

Local Abbreviation localAssets := (localAssets hashContent attributesOf).
Local Abbreviation hostingDiffs := (hostingDiffs hashContent attributesOf).
Local Abbreviation assetOf := (assetOf attributesOf).
Local Abbreviation digestOf := (digestOf hashContent).
Local Abbreviation freshEntry := (freshEntry hashContent).
Local Abbreviation refreshed := (refreshed hashContent).
Local Abbreviation coherent := (coherent hashContent).
Local Abbreviation manifestOf := (manifestOf hashContent attributesOf).

Lemma remotePath_assetOf g d : remotePath (assetOf g d) = filePath g.
Proof. unfold remotePath, filePath, nodePath. simpl. apply normalizePath_idemp. Qed.

(** Recording another path's digest does not touch what the cache says
    of this file. *)
Lemma cachedDigest_refreshed_ne appID now g1 g2 store :
  filePath g1 ≠ filePath g2 →
  cachedDigest appID (refreshed appID now g1 store) g2 = cachedDigest appID store g2.
Proof.
  intros Hne. destruct store as [c|err]; [|done].
  unfold cachedDigest. simpl. rewrite lookup_insert_ne; [done|]. congruence.
Qed.

(** One pass over files with unique paths, from a store that says of
    them what [store0] says: each file gets the cached digest if there
    is a valid one and a fresh one otherwise; exactly the files without a
    valid entry are hashed, in order, and exactly their entries are
    replaced. *)
Lemma localAssets_from appID now store0 l store h :
  NoDup (filePath <$> l) →
  (∀ g, g ∈ l → cachedDigest appID store g = cachedDigest appID store0 g) →
  ∃ store',
    localAssets appID now l (store, h) =
      ((λ g, assetOf g (digestOf appID store0 g)) <$> l,
       (store', h ++ (filePath <$> uncached appID store0 l))) ∧
    (∀ err, store = Unavailable err → store' = store) ∧
    (∀ c, store = Available c → ∃ c', store' = Available c' ∧
       (∀ g, g ∈ uncached appID store0 l →
          c' !! (appID, filePath g) = Some (freshEntry appID now g)) ∧
       (∀ k, (∀ g, g ∈ uncached appID store0 l → k ≠ (appID, filePath g)) →
          c' !! k = c !! k)).
Proof.
  revert store h. induction l as [|g l IH]; intros store h Hnd Hsame.
  - exists store. simpl. rewrite app_nil_r. split; [done|]. split; [done|].
    intros c ->. exists c. split; [done|]. split; [|done].
    intros g Hg. by apply elem_of_nil in Hg.
  - rewrite fmap_cons in Hnd. apply NoDup_cons in Hnd as [Hg Hnd].
    assert (∀ g', g' ∈ l → filePath g ≠ filePath g') as Hne.
    { intros g' Hg' Heq. apply Hg. rewrite Heq. by apply list_elem_of_fmap_2. }
    pose proof (Hsame g (list_elem_of_here _ _)) as Hhere.
    simpl. unfold localDigest, uncached. simpl. rewrite filter_cons.
    rewrite Hhere. unfold digestOf at 1.
    destruct (cachedDigest appID store0 g) as [d|] eqn:Hc; simpl.
    + destruct (IH store h Hnd) as (store' & Hrun & Hbad & Hok).
      { intros g' Hg'. apply Hsame. by apply list_elem_of_further. }
      exists store'. by rewrite Hrun.
    + destruct (IH (refreshed appID now g store) (h ++ [filePath g]) Hnd)
        as (store' & Hrun & Hbad & Hok).
      { intros g' Hg'. rewrite cachedDigest_refreshed_ne by by apply Hne.
        apply Hsame. by apply list_elem_of_further. }
      exists store'. rewrite Hrun, <- app_assoc. split; [done|]. split.
      * intros err ->. by rewrite (Hbad err).
      * intros c ->. destruct (Hok _ eq_refl) as (c' & -> & Hfresh & Hframe).
        exists c'. split; [done|]. split.
        -- intros g' Hg'. apply elem_of_cons in Hg' as [->|Hg']; [|by apply Hfresh].
           rewrite Hframe; [apply lookup_insert_eq|].
           intros g' Hg' [= Heq]. apply list_elem_of_filter in Hg' as [_ Hg'].
           by apply (Hne g').
        -- intros k Hk. rewrite Hframe.
           ++ apply lookup_insert_ne. intros Heq.
              apply (Hk g); [apply list_elem_of_here|done].
           ++ intros g' Hg'. apply Hk. by apply list_elem_of_further.
Qed.

(** Paths identify files. *)
Lemma unique_path_inj (l : list HostingFile) g1 g2 :
  NoDup (filePath <$> l) → g1 ∈ l → g2 ∈ l → filePath g1 = filePath g2 → g1 = g2.
Proof.
  induction l as [|g l IH]; [by intros _ H%elem_of_nil|].
  rewrite fmap_cons, NoDup_cons. intros [Hg Hnd] H1 H2 Heq.
  apply elem_of_cons in H1 as [->|H1]; apply elem_of_cons in H2 as [->|H2].
  - done.
  - destruct Hg. rewrite Heq. by apply list_elem_of_fmap_2.
  - destruct Hg. rewrite <- Heq. by apply list_elem_of_fmap_2.
  - by apply IH.
Qed.

(** A run of the hosting diff over files with unique paths. *)
Lemma hostingDiffs_unique appID now l manifest store :
  uniqueHostingPaths l →
  ∃ store',
    hostingDiffs appID now l manifest store =
      (compareListings remotePath assetChanged Hosting
         ((λ g, assetOf g (digestOf appID store g)) <$> hostingFiles l) manifest,
       store', filePath <$> uncached appID store (hostingFiles l)) ∧
    (∀ err, store = Unavailable err → store' = store) ∧
    (∀ c, store = Available c → ∃ c', store' = Available c' ∧
       (∀ g, g ∈ uncached appID store (hostingFiles l) →
          c' !! (appID, filePath g) = Some (freshEntry appID now g)) ∧
       (∀ k, (∀ g, g ∈ uncached appID store (hostingFiles l) →
                k ≠ (appID, filePath g)) →
          c' !! k = c !! k)).
Proof.
  intros Hnd. unfold engine.hostingDiffs.
  destruct (localAssets_from appID now store (hostingFiles l) store [] Hnd)
    as (store' & Hrun & Hrest); [done|].
  exists store'. by rewrite Hrun.
Qed.

(** After a run every file has a valid entry. *)
Lemma hostingDiffs_leaves_valid appID now l manifest c entries store' hashed g :
  uniqueHostingPaths l →
  hostingDiffs appID now l manifest (Available c) = (entries, store', hashed) →
  g ∈ hostingFiles l →
  cachedDigest appID store' g = Some (digestOf appID (Available c) g).
Proof.
  intros Hnd Hrun Hg.
  destruct (hostingDiffs_unique appID now l manifest (Available c) Hnd)
    as (s' & Hrun' & _ & Hok).
  rewrite Hrun in Hrun'. injection Hrun' as _ -> _.
  destruct (Hok c eq_refl) as (c' & -> & Hfresh & Hframe).
  unfold engine.digestOf.
  destruct (cachedDigest appID (Available c) g) as [d|] eqn:Hc; simpl.
  - apply cachedDigest_Some in Hc as (e & He & Hsig & Hd).
    apply cachedDigest_Some. exists e. split; [|done].
    rewrite Hframe; [done|]. intros g' Hg' [= Heq].
    apply list_elem_of_filter in Hg' as [Hnone Hg'].
    assert (g = g') as <- by by apply (unique_path_inj (hostingFiles l)).
    apply cachedDigest_None in Hnone as [Hnone|(e' & He' & Hne)]; [congruence|].
    rewrite He in He'. by injection He' as <-.
  - apply cachedDigest_Some. exists (freshEntry appID now g). split; [|done].
    apply Hfresh. by apply list_elem_of_filter.
Qed.

(** With a failing store every file is hashed and the store is left
    alone; paths need not even be unique. *)
Lemma localAssets_unavailable appID now err l h :
  localAssets appID now l (Unavailable err, h) =
    ((λ g, assetOf g (hashContent (content (node g)))) <$> l,
     (Unavailable err, h ++ (filePath <$> l))).
Proof.
  revert h. induction l as [|g l IH]; intros h; simpl.
  - by rewrite app_nil_r.
  - unfold localDigest. simpl. rewrite IH. by rewrite <- app_assoc.
Qed.

(** With valid entries the digests of a run are the true ones. *)
Lemma digestOf_coherent appID l store g :
  coherent appID l store → g ∈ hostingFiles l →
  digestOf appID store g = hashContent (content (node g)).
Proof.
  intros Hco Hg. unfold engine.digestOf.
  destruct (cachedDigest appID store g) as [d|] eqn:Hc; simpl; [|done].
  unfold cachedDigest in Hc.
  destruct (cacheGet store appID (filePath g)) as [?|[e|]] eqn:Hget; try done.
  destruct (decide (entrySignature e = fileSignature g)) as [Hsig|]; [|done].
  injection Hc as <-. by apply (Hco g e).
Qed.

Lemma assets_coherent appID l store :
  coherent appID l store →
  (λ g, assetOf g (digestOf appID store g)) <$> hostingFiles l = manifestOf l.
Proof.
  intros Hco. unfold engine.manifestOf. apply list_fmap_ext.
  intros i g Hg. f_equal. apply (digestOf_coherent appID l); [done|].
  by apply list_elem_of_lookup_2 in Hg.
Qed.

Lemma assetChanged_refl a : assetChanged a a = None.
Proof. unfold assetChanged. by rewrite !decide_True. Qed.

Lemma contentChanged_refl n : contentChanged n n = None.
Proof. unfold contentChanged. by rewrite decide_True. Qed.

Lemma manifestOf_paths l : remotePath <$> manifestOf l = filePath <$> hostingFiles l.
Proof.
  unfold engine.manifestOf. rewrite <- list_fmap_compose.
  apply list_fmap_ext. intros i g _. apply remotePath_assetOf.
Qed.

(** The configuration diff of a tree with itself is empty. *)
Lemma configDiff_refl t : uniquePaths t → configDiff t t = [].
Proof.
  intros Hnd. apply compareListings_refl; [done|]. apply contentChanged_refl.
Qed.

(** The dependency diff of a snapshot with itself is empty. *)
Lemma dependencyDiff_refl d : dependencyDiff d d = [].
Proof.
  unfold dependencyDiff. destruct (present d); [|done]. by rewrite decide_True.
Qed.

(** The hosting diff of files against their own manifest is empty,
    whatever the state of the store, as long as its entries are valid. *)
Lemma hostingDiffs_refl appID now l store :
  uniqueHostingPaths l → coherent appID l store →
  (hostingDiffs appID now l (manifestOf l) store).1.1 = [].
Proof.
  intros Hnd Hco.
  destruct (hostingDiffs_unique appID now l (manifestOf l) store Hnd)
    as (s' & -> & _). simpl.
  rewrite (assets_coherent appID l store Hco).
  apply compareListings_refl; [|apply assetChanged_refl].
  by rewrite manifestOf_paths.
Qed.

End HostingProofs.

(** ** The hosting facet and its cache *)

Section HostingCache.
Import engine.
Variable hashContent : string → hash.
Variable attributesOf : FileNode → gmap string string.

Local Abbreviation hostingDiffs := (hostingDiffs hashContent attributesOf).
Local Abbreviation assetOf := (assetOf attributesOf).
Local Abbreviation digestOf := (digestOf hashContent).
Local Abbreviation freshEntry := (freshEntry hashContent).
Local Abbreviation coherent := (coherent hashContent).
Local Abbreviation manifestOf := (manifestOf hashContent attributesOf).

(** What a run reports of a local file: Added when the manifest does not
    list its path, Changed when the manifest lists it with another digest
    than the one the run uses. *)
Lemma hostingDiffs_entry appID now l manifest store entries store' hashed g :
  uniqueHostingPaths l →
  hostingDiffs appID now l manifest store = (entries, store', hashed) →
  g ∈ hostingFiles l →
  match lookupPath remotePath (filePath g) manifest with
  | None => mkDiffEntry Added (filePath g) Hosting "" ∈ entries
  | Some r =>
      assetDigest r ≠ digestOf appID store g →
      mkDiffEntry Changed (filePath g) Hosting "content" ∈ entries
  end.
Proof.
  intros Hnd Hrun Hg.
  destruct (hostingDiffs_unique hashContent attributesOf appID now l manifest store Hnd)
    as (s' & Hrun' & _).
  rewrite Hrun in Hrun'. injection Hrun' as -> _ _.
  assert (assetOf g (digestOf appID store g)
          ∈ (λ g, assetOf g (digestOf appID store g)) <$> hostingFiles l) as Hasset
    by (by apply (list_elem_of_fmap_2 (λ g, assetOf g (digestOf appID store g)))).
  destruct (lookupPath remotePath (filePath g) manifest) as [r|] eqn:Hlook.
  - intros Hne. eapply compareListings_local; [exact Hasset|].
    unfold entriesOfLocal. rewrite remotePath_assetOf, Hlook.
    unfold assetChanged. simpl. rewrite decide_False by done.
    apply list_elem_of_here.
  - eapply compareListings_local; [exact Hasset|].
    unfold entriesOfLocal. rewrite remotePath_assetOf, Hlook.
    apply list_elem_of_here.
Qed.

(** C3, as amended.  Over hosting files with unique paths and a cache
    whose entries are valid: a file whose entry for (appID, path) records
    the file's own signature is not hashed, the entry stays, and the
    cached digest is the one compared with the manifest; a file whose
    content is no longer the recorded one is hashed again and its entry
    replaced by the fresh one, and it is reported Changed when the
    manifest lists its path with a digest other than the fresh one, Added
    when the manifest does not list the path; the entries of the paths
    that were not hashed are left as they were, none is evicted; and a
    second run over the same files hashes nothing. *)
Theorem hosting_cache_reuse_and_refresh appID now l manifest c f entries store' hashed :
  uniqueHostingPaths l → coherent appID l (Available c) → f ∈ hostingFiles l →
  hostingDiffs appID now l manifest (Available c) = (entries, store', hashed) →
  (∀ e, c !! (appID, filePath f) = Some e → entrySignature e = fileSignature f →
     (filePath f ∉ hashed) ∧
     cacheGet store' appID (filePath f) = inr (Some e) ∧
     ∀ r, lookupPath remotePath (filePath f) manifest = Some r →
          assetDigest r ≠ entryDigest e →
          mkDiffEntry Changed (filePath f) Hosting "content" ∈ entries) ∧
  (∀ e, c !! (appID, filePath f) = Some e →
     entryDigest e ≠ hashContent (content (node f)) →
     filePath f ∈ hashed ∧
     cacheGet store' appID (filePath f) = inr (Some (freshEntry appID now f)) ∧
     (∀ r, lookupPath remotePath (filePath f) manifest = Some r →
           assetDigest r ≠ hashContent (content (node f)) →
           mkDiffEntry Changed (filePath f) Hosting "content" ∈ entries) ∧
     (lookupPath remotePath (filePath f) manifest = None →
      mkDiffEntry Added (filePath f) Hosting "" ∈ entries)) ∧
  (∀ a p, a ≠ appID ∨ p ∉ hashed →
     cacheGet store' a p = cacheGet (Available c) a p) ∧
  (∀ now', (hostingDiffs appID now' l manifest store').2 = []).
Proof.
  intros Hnd Hco Hf Hrun.
  pose proof (hostingDiffs_entry _ _ _ _ _ _ _ _ f Hnd Hrun Hf) as Hentry.
  destruct (hostingDiffs_unique hashContent attributesOf appID now l manifest
              (Available c) Hnd) as (s' & Hrun' & _ & Hok).
  rewrite Hrun in Hrun'. injection Hrun' as Hentries -> ->.
  destruct (Hok c eq_refl) as (c' & -> & Hfresh & Hframe).
  assert (∀ g, g ∈ uncached appID (Available c) (hostingFiles l) →
            filePath g = filePath f → g = f) as Hsame.
  { intros g Hg Heq. apply list_elem_of_filter in Hg as [_ Hg].
    by apply (unique_path_inj (hostingFiles l)). }
  split; [|split; [|split]].
  - intros e He Hsig.
    assert (cachedDigest appID (Available c) f = Some (entryDigest e)) as Hc
      by (rewrite cachedDigest_Some; eauto).
    assert (∀ g, g ∈ uncached appID (Available c) (hostingFiles l) →
              filePath g ≠ filePath f) as Hother.
    { intros g Hg Heq. rewrite (Hsame g Hg Heq) in Hg.
      apply list_elem_of_filter in Hg as [Hnone _]. congruence. }
    split; [|split].
    + intros Hin. apply list_elem_of_fmap in Hin as (g & Heq & Hg).
      by apply (Hother g).
    + simpl. rewrite Hframe; [by rewrite He|].
      intros g Hg [= Heq]. by apply (Hother g).
    + intros r Hr Hne. rewrite Hr in Hentry. apply Hentry.
      unfold engine.digestOf. by rewrite Hc.
  - intros e He Hdigest.
    assert (cachedDigest appID (Available c) f = None) as Hc.
    { rewrite cachedDigest_None. right. exists e. split; [done|].
      intros Hsig. apply Hdigest. unfold engine.coherent in Hco.
      apply (Hco f e); [done| |done].
      simpl. by rewrite He. }
    assert (f ∈ uncached appID (Available c) (hostingFiles l)) as Hunc
      by by apply list_elem_of_filter.
    assert (digestOf appID (Available c) f = hashContent (content (node f))) as Hd
      by (unfold engine.digestOf; by rewrite Hc).
    split; [by apply (list_elem_of_fmap_2 filePath)|].
    split; [simpl; by rewrite Hfresh|].
    split.
    + intros r Hr Hne. rewrite Hr in Hentry. apply Hentry. by rewrite Hd.
    + intros Hnone. by rewrite Hnone in Hentry.
  - intros a p Hap. simpl. rewrite Hframe; [done|].
    intros g Hg [= -> ->]. destruct Hap as [?|Hp]; [done|].
    apply Hp. by apply (list_elem_of_fmap_2 filePath).
  - intros now'.
    destruct (hostingDiffs_unique hashContent attributesOf appID now' l manifest
                (Available c') Hnd) as (s'' & -> & _). simpl.
    destruct (uncached appID (Available c') (hostingFiles l)) as [|g rest] eqn:Hunc;
      [done|].
    assert (g ∈ uncached appID (Available c') (hostingFiles l)) as Hg
      by (rewrite Hunc; apply list_elem_of_here).
    apply list_elem_of_filter in Hg as [Hnone Hg].
    rewrite (hostingDiffs_leaves_valid hashContent attributesOf appID now l manifest c
               _ _ _ g Hnd Hrun Hg) in Hnone.
    done.
Qed.

End HostingCache.

(** The first run over the sample files records both. *)
Example sample_first_run :
  engine.hostingDiffs sample.hashContent sample.attributesOf "app-1" 1
    [sample.imgPng; sample.indexHtml]
    (engine.manifestOf sample.hashContent sample.attributesOf
       [sample.imgPng; sample.indexHtml])
    sample.emptyStore
  = ([], engine.Available sample.recorded, ["img.png"; "index.html"]).
Proof. vm_compute. reflexivity. Qed.

(** C3, as stated, fails: a file whose content has changed and that the
    manifest does not list is hashed again and its entry replaced, but it
    is reported Added, as it was before the change, and not Changed. *)
Lemma hosting_changed_content_not_Changed :
  let run (now : nat) (l : list engine.HostingFile) (store : engine.CacheStore) :=
    engine.hostingDiffs sample.hashContent sample.attributesOf "app-1" now l [] store in
  let first := run 1 [sample.imgPng] sample.emptyStore in
  let second := run 2 [sample.imgPngEdited] first.1.2 in
  content (engine.node sample.imgPngEdited) ≠ content (engine.node sample.imgPng) ∧
  engine.cacheGet first.1.2 "app-1" "img.png"
    = inr (Some (engine.mkAssetCacheEntry "app-1" "img.png" "sha:PNG-1" (5, 7) 1)) ∧
  second.2 = ["img.png"] ∧
  engine.cacheGet second.1.2 "app-1" "img.png"
    = inr (Some (engine.mkAssetCacheEntry "app-1" "img.png" "sha:PNG-22" (6, 9) 2)) ∧
  second.1.1 = [mkDiffEntry Added "img.png" Hosting ""] ∧
  ¬ ∃ e, e ∈ second.1.1 ∧ kind e = Changed.
Proof.
  intros run first second.
  assert (second.1.1 = [mkDiffEntry Added "img.png" Hosting ""]) as Hentries
    by (vm_compute; reflexivity).
  split; [done|]. split; [vm_compute; reflexivity|].
  split; [vm_compute; reflexivity|]. split; [vm_compute; reflexivity|].
  split; [done|]. rewrite Hentries. intros (e & He & Hk).
  apply list_elem_of_singleton in He as ->. done.
Qed.

Lemma hosting_cache_reuse_and_refresh_witness :
  let manifest := engine.manifestOf sample.hashContent sample.attributesOf
                    [sample.imgPng; sample.indexHtml] in
  let second := engine.hostingDiffs sample.hashContent sample.attributesOf "app-1" 2
                  [sample.imgPngEdited; sample.indexHtml] manifest
                  (engine.Available sample.recorded) in
  ("index.html" ∉ second.2) ∧ "img.png" ∈ second.2 ∧
  mkDiffEntry Changed "img.png" Hosting "content" ∈ second.1.1 ∧
  (engine.hostingDiffs sample.hashContent sample.attributesOf "app-1" 3
     [sample.imgPngEdited; sample.indexHtml] manifest second.1.2).2 = [].
Proof.
  intros manifest second.
  assert (engine.uniqueHostingPaths [sample.imgPngEdited; sample.indexHtml]) as Hnd.
  { apply (bool_decide_unpack _). vm_compute. exact I. }
  assert (engine.coherent sample.hashContent "app-1"
            [sample.imgPngEdited; sample.indexHtml] (engine.Available sample.recorded))
    as Hco.
  { intros g e Hg Hget Hsig.
    apply elem_of_cons in Hg as [->|Hg];
      [|apply list_elem_of_singleton in Hg as ->];
      vm_compute in Hget; injection Hget as <-; [vm_compute in Hsig; done|done]. }
  assert (∀ g, g ∈ [sample.imgPngEdited; sample.indexHtml] →
            g ∈ engine.hostingFiles [sample.imgPngEdited; sample.indexHtml]) as Hfiles.
  { intros g Hg. vm_compute. exact Hg. }
  assert (engine.hostingDiffs sample.hashContent sample.attributesOf "app-1" 2
            [sample.imgPngEdited; sample.indexHtml] manifest
            (engine.Available sample.recorded)
          = (second.1.1, second.1.2, second.2)) as Hrun
    by (vm_compute; reflexivity).
  pose proof (hosting_cache_reuse_and_refresh sample.hashContent sample.attributesOf
                "app-1" 2 [sample.imgPngEdited; sample.indexHtml] manifest
                sample.recorded sample.indexHtml second.1.1 second.1.2 second.2
                Hnd Hco (Hfiles _ (list_elem_of_further _ _ _ (list_elem_of_here _ _))) Hrun)
    as (Hreuse & _ & _ & _).
  pose proof (hosting_cache_reuse_and_refresh sample.hashContent sample.attributesOf
                "app-1" 2 [sample.imgPngEdited; sample.indexHtml] manifest
                sample.recorded sample.imgPngEdited second.1.1 second.1.2 second.2
                Hnd Hco (Hfiles _ (list_elem_of_here _ _)) Hrun)
    as (_ & Hrefresh & _ & Hagain).
  destruct (Hreuse (engine.mkAssetCacheEntry "app-1" "index.html" "sha:<html/>" (7, 3) 1))
    as (Hkept & _); [vm_compute; reflexivity|vm_compute; reflexivity|].
  destruct (Hrefresh (engine.mkAssetCacheEntry "app-1" "img.png" "sha:PNG-1" (5, 7) 1))
    as (Hhashed & _ & Hreport & _); [vm_compute; reflexivity|vm_compute; intros [=]|].
  split; [exact Hkept|]. split; [exact Hhashed|]. split; [|apply Hagain].
  apply (Hreport (mkHostingAsset "img.png" "sha:PNG-1" 5
                    (sample.attributesOf (engine.node sample.imgPng)))).
  - vm_compute. reflexivity.
  - vm_compute. intros [=].
Defined.

(** ** Recovery from a cache failure *)

Section RecoveryProofs.
Import engine world.
Variable hashContent : string → hash.
Variable attributesOf : FileNode → gmap string string.

Local Abbreviation hostingDiffs := (hostingDiffs hashContent attributesOf).
Local Abbreviation coherent := (coherent hashContent).
Local Abbreviation manifestOf := (manifestOf hashContent attributesOf).
Local Abbreviation clients := (world.clients hashContent attributesOf).

(** With a failing store the run hashes every file, leaves the store
    alone and compares the true digests. *)
Lemma hostingDiffs_unavailable appID now l manifest err :
  hostingDiffs appID now l manifest (Unavailable err) =
    (compareListings remotePath assetChanged Hosting (manifestOf l) manifest,
     Unavailable err, filePath <$> hostingFiles l).
Proof.
  unfold engine.hostingDiffs. by rewrite localAssets_unavailable.
Qed.

(** With a working store of valid entries the entries are the same. *)
Lemma hostingDiffs_coherent appID now l manifest store :
  uniqueHostingPaths l → coherent appID l store →
  (hostingDiffs appID now l manifest store).1.1 =
    compareListings remotePath assetChanged Hosting (manifestOf l) manifest.
Proof.
  intros Hnd Hco.
  destruct (hostingDiffs_unique hashContent attributesOf appID now l manifest store Hnd)
    as (s' & -> & _). simpl.
  by rewrite (assets_coherent hashContent attributesOf appID l store Hco).
Qed.

(** The hosting diff of the collaborators fails only when the local
    files cannot be read; and over valid entries its answer does not
    depend on the store. *)
Lemma specHostingDiffs_store appID assets w s1 s2 :
  (∀ l, localHosting w = inr l →
     uniqueHostingPaths l ∧ coherent appID l s1 ∧ coherent appID l s2) →
  (specHostingDiffs hashContent attributesOf appID assets (withStore w s1)).1 =
  (specHostingDiffs hashContent attributesOf appID assets (withStore w s2)).1.
Proof.
  intros Hvalid. unfold specHostingDiffs. simpl.
  destruct (localHosting w) as [e|l]; [done|].
  destruct (Hvalid l eq_refl) as (Hnd & Hco1 & Hco2).
  pose proof (hostingDiffs_coherent appID (clock w) l assets s1 Hnd Hco1) as H1.
  pose proof (hostingDiffs_coherent appID (clock w) l assets s2 Hnd Hco2) as H2.
  destruct (hostingDiffs appID (clock w) l assets s1) as [[e1 t1] h1].
  destruct (hostingDiffs appID (clock w) l assets s2) as [[e2 t2] h2].
  simpl in *. congruence.
Qed.

Lemma coherent_unavailable appID l err : coherent appID l (Unavailable err).
Proof. intros g e _ Hget. done. Qed.

Local Arguments world.specHostingDiffs : simpl never.

(** Over valid entries a run of the handler returns and traces the
    same whatever the store. *)
Lemma Handler_store profile cmd w s1 s2 :
  (∀ l t, localHosting w = inr l → remoteApp w = inr t →
     uniqueHostingPaths l ∧
     coherent (realm.ID t) l s1 ∧ coherent (realm.ID t) l s2) →
  (run (app.Handler clients profile cmd) (withStore w s1)).1.1 =
  (run (app.Handler clients profile cmd) (withStore w s2)).1.1 ∧
  (run (app.Handler clients profile cmd) (withStore w s1)).2 =
  (run (app.Handler clients profile cmd) (withStore w s2)).2.
Proof.
  intros Hvalid.
  destruct cmd as [[lp ra pj dep host]].
  unfold app.Handler, app.hostingAndReport, app.report; unfold_monad; simpl.
  destruct (localApp w) as [e|a]; simpl; [done|].
  destruct (String.eqb (local.RootDir a) ""); simpl; [done|].
  destruct (remoteApp w) as [e|t] eqn:Ht; simpl; [done|].
  assert (∀ assets,
            (specHostingDiffs hashContent attributesOf (realm.ID t) assets
               (withStore w s1)).1 =
            (specHostingDiffs hashContent attributesOf (realm.ID t) assets
               (withStore w s2)).1)
    as Hsame.
  { intros assets. apply specHostingDiffs_store.
    intros l Hl. by apply Hvalid. }
  clear Hvalid.
  unfold specDiff; simpl.
  destruct (remoteConfig w) as [e|rc]; simpl; [done|].
  destruct dep, host; simpl;
    unfold specPrepareDependencies, specDiffDependencies, specFindAppHosting; simpl;
    repeat match goal with
      | |- context [match localArchive w with _ => _ end] =>
          destruct (localArchive w) as [?e|[[?p ?bytes]|]]; simpl
      | |- context [match remoteDependency w with _ => _ end] =>
          destruct (remoteDependency w) as [?e|?rd]; simpl
      | |- context [match remoteManifest w with _ => _ end] =>
          destruct (remoteManifest w) as [?e|?rm]; simpl
      | |- context [match localHosting w with _ => _ end] =>
          destruct (localHosting w) as [?e|?lh]; simpl
      end;
    try done;
    match goal with
    | |- context [specHostingDiffs hashContent attributesOf ?i ?m (withStore w s1)] =>
        specialize (Hsame m);
        destruct (specHostingDiffs hashContent attributesOf i m (withStore w s1))
          as [r1 w1];
        destruct (specHostingDiffs hashContent attributesOf i m (withStore w s2))
          as [r2 w2];
        simpl in Hsame; subst r2; destruct r1 as [e1|hd]; simpl; [done|];
        by destruct (decide _)
    | |- _ => by destruct (decide _)
    end.
Qed.

(** C8. A store that cannot be read or written does not fail the
    hosting diff: the algorithm hashes every file, leaves the store as it
    is, and reports what it reports over a working store whose entries
    are valid.  So the handler, run against these collaborators with the
    store failing, returns and traces exactly what it does with the
    store working. *)
Theorem cache_failure_recovered appID now l manifest err :
  (∃ entries,
     hostingDiffs appID now l manifest (Unavailable err)
       = (entries, Unavailable err, filePath <$> hostingFiles l) ∧
     ∀ c, uniqueHostingPaths l → coherent appID l (Available c) →
          (hostingDiffs appID now l manifest (Available c)).1.1 = entries) ∧
  (∀ profile cmd w c,
     (∀ files t, localHosting w = inr files → remoteApp w = inr t →
        uniqueHostingPaths files ∧ coherent (realm.ID t) files (Available c)) →
     let failing := run (app.Handler clients profile cmd) (withStore w (Unavailable err)) in
     let working := run (app.Handler clients profile cmd) (withStore w (Available c)) in
     failing.1.1 = working.1.1 ∧ failing.2 = working.2).
Proof.
  split.
  - eexists. split; [apply hostingDiffs_unavailable|].
    intros c Hnd Hco. by apply hostingDiffs_coherent.
  - intros profile cmd w c Hvalid. apply Handler_store.
    intros files t Hfiles Ht. destruct (Hvalid files t Hfiles Ht) as [Hnd Hco].
    split; [done|]. split; [apply coherent_unavailable|apply Hco].
Qed.

End RecoveryProofs.

Lemma sample_recorded_coherent :
  engine.coherent sample.hashContent "app-1" [sample.imgPngEdited; sample.indexHtml]
    (engine.Available sample.recorded).
Proof.
  intros g e Hg Hget Hsig.
  apply elem_of_cons in Hg as [->|Hg];
    [|apply list_elem_of_singleton in Hg as ->];
    vm_compute in Hget; injection Hget as <-; [vm_compute in Hsig; done|done].
Qed.

Lemma sample_edited_unique :
  engine.uniqueHostingPaths [sample.imgPngEdited; sample.indexHtml].
Proof. apply (bool_decide_unpack _). vm_compute. exact I. Qed.

Lemma cache_failure_recovered_witness :
  let l := [sample.imgPngEdited; sample.indexHtml] in
  let manifest := engine.manifestOf sample.hashContent sample.attributesOf
                    [sample.imgPng; sample.indexHtml] in
  let diffs := engine.hostingDiffs sample.hashContent sample.attributesOf "app-1" 2
                 l manifest in
  let handler := app.Handler sample.clients sample.profile (sample.diffCommand true true) in
  let failing := run handler (world.withStore sample.edited
                                (engine.Unavailable engine.CacheUnwritable)) in
  let working := run handler (world.withStore sample.edited
                                (engine.Available sample.recorded)) in
  (diffs (engine.Unavailable engine.CacheUnwritable)).2 = ["img.png"; "index.html"] ∧
  (diffs (engine.Available sample.recorded)).1.1
    = (diffs (engine.Unavailable engine.CacheUnwritable)).1.1 ∧
  failing.1.1 = working.1.1 ∧ failing.2 = working.2.
Proof.
  intros l manifest diffs handler failing working.
  destruct (cache_failure_recovered sample.hashContent sample.attributesOf "app-1" 2
              l manifest engine.CacheUnwritable)
    as [(entries & Hrun & Hsame) Hhandler].
  split; [by (unfold diffs; rewrite Hrun)|]. split.
  - unfold diffs. rewrite Hrun. simpl.
    apply Hsame; [apply sample_edited_unique|apply sample_recorded_coherent].
  - apply (Hhandler sample.profile (sample.diffCommand true true) sample.edited
             sample.recorded).
    intros files t [= <-] [= <-].
    split; [apply sample_edited_unique|apply sample_recorded_coherent].
Defined.

(** ** A snapshot against itself *)

Section ReflexiveProofs.
Import engine world.
Variable hashContent : string → hash.
Variable attributesOf : FileNode → gmap string string.

Local Abbreviation hostingDiffs := (hostingDiffs hashContent attributesOf).
Local Abbreviation coherent := (coherent hashContent).
Local Abbreviation manifestOf := (manifestOf hashContent attributesOf).
Local Abbreviation clients := (world.clients hashContent attributesOf).
Local Abbreviation between := (between hashContent attributesOf).


(** What the collaborators answer when both sides hold [S]. *)
Lemma specPrepareDependencies_same (S : Snapshot) target store now :
  specPrepareDependencies (between S S target store now)
    = (inr (preparedPath S), between S S target store now).
Proof.
  unfold specPrepareDependencies, preparedPath. simpl.
  by destruct (archive S) as [[p bytes]|].
Qed.

Lemma dependencyDiff_same (S : Snapshot) target store now :
  dependencyDiff
    (localDependency hashContent (between S S target store now) (preparedPath S))
    (dependencyOf hashContent (archive S)) = [].
Proof.
  unfold localDependency, preparedPath. simpl.
  destruct (archive S) as [[p bytes]|]; simpl; [|done].
  by rewrite decide_True, dependencyDiff_refl.
Qed.

Lemma specHostingDiffs_same (S : Snapshot) target store now :
  uniqueHostingPaths (hosting S) →
  coherent (realm.ID target) (hosting S) store →
  ∃ w', specHostingDiffs hashContent attributesOf (realm.ID target)
          (manifestOf (hosting S)) (between S S target store now)
        = (inr [], w').
Proof.
  intros Hnd Hco.
  pose proof (hostingDiffs_refl hashContent attributesOf (realm.ID target) now
                (hosting S) store Hnd Hco) as Hhost.
  unfold specHostingDiffs. simpl.
  destruct (hostingDiffs (realm.ID target) now (hosting S) (manifestOf (hosting S))
              store) as [[entries s'] hh].
  simpl in Hhost. subst entries. eauto.
Qed.

(** C6. Take any snapshot with an app directory, unique paths and a
    cache whose entries are valid, on both sides: whatever facets are
    asked for, the handler completes, every facet returns the empty
    sequence and the report is that the deployed app is identical. *)
Theorem diff_reflexive (S : Snapshot) target store now profile cmd :
  rootDir S ≠ "" →
  uniquePaths (config S) →
  uniqueHostingPaths (hosting S) →
  coherent (realm.ID target) (hosting S) store →
  ∃ w' tr,
    run (app.Handler clients profile cmd) (between S S target store now)
      = (None, w', tr) ∧
    facet_entries Config tr = [] ∧
    facet_entries Dependency tr = [] ∧
    facet_entries Hosting tr = [] ∧
    printed tr = [terminal.NewTextLog "Deployed app is identical to proposed version"].
Proof.
  intros Hroot Hcfg Hnd Hco.
  destruct (specHostingDiffs_same S target store now Hnd Hco) as (wh & Hhost).
  destruct cmd as [[lp ra pj dep host]].
  unfold app.Handler, app.hostingAndReport, app.report; unfold_monad; simpl.
  destruct (String.eqb_spec (rootDir S) "") as [?|_]; [done|].
  destruct dep, host; simpl;
    repeat first
      [ rewrite (configDiff_refl _ Hcfg)
      | rewrite specPrepareDependencies_same
      | rewrite dependencyDiff_same
      | rewrite Hhost
      | progress simpl ];
    eauto 10.
Qed.

End ReflexiveProofs.

Lemma diff_reflexive_witness :
  ∃ w' tr,
    run (app.Handler sample.clients sample.profile (sample.diffCommand true true))
        (world.between sample.hashContent sample.attributesOf sample.localEdited
           sample.localEdited sample.target (engine.Available sample.recorded) 2)
      = (None, w', tr) ∧
    facet_entries Config tr = [] ∧
    facet_entries Dependency tr = [] ∧
    facet_entries Hosting tr = [] ∧
    printed tr = [terminal.NewTextLog "Deployed app is identical to proposed version"].
Proof.
  apply (diff_reflexive sample.hashContent sample.attributesOf sample.localEdited
           sample.target (engine.Available sample.recorded) 2 sample.profile
           (sample.diffCommand true true)).
  - done.
  - apply (bool_decide_unpack _). vm_compute. exact I.
  - apply sample_edited_unique.
  - apply sample_recorded_coherent.
Defined.

(** * Further properties of the commands *)

(** ** The [app diff] handler: cleanup and data flow *)

Ltac split_elem H :=
  repeat (apply elem_of_cons in H as [H|H]);
  try (by apply elem_of_nil in H).

Ltac find_elem :=
  solve [repeat first [apply list_elem_of_here | apply list_elem_of_further]].

Section DiffFlow.
Context {W : Type}.
Implicit Types (clients : Clients W) (profile : user.Profile)
  (cmd : app.CommandDiff) (w : W) (tr : list event).

(** X1. The removal of the dependency upload is deferred: whatever the
    handler returns, the trace is its calls followed by one os.Remove of
    each upload path [PrepareDependencies] returned, and there is at most
    one such path.  So the upload is removed exactly when it was
    prepared, after everything else, also when a later call fails. *)
Theorem diff_upload_removed clients profile cmd w :
  let tr := (run (app.Handler clients profile cmd) w).2 in
  tr = calls tr ++ (EvRemove <$> prepared tr) ∧
  (length (prepared tr) ≤ 1)%nat.
Proof.
  destruct cmd as [[lp ra pj [] []]]; handler_cases; simpl; repeat split; lia.
Qed.

(** X2. The handler resolves the remote app with the filter made of the
    Project and RemoteApp inputs, and every call to the Realm service it
    makes (Diff, DiffDependencies, HostingAssets) is about the group and
    app that resolution returned. *)
Theorem diff_addresses_resolved_app clients profile cmd w :
  let tr := (run (app.Handler clients profile cmd) w).2 in
  let filter := realm.mkAppFilter (app.Project (app.inputs cmd))
                  (app.RemoteApp (app.inputs cmd)) in
  (∀ f r, EvResolveApp f r ∈ tr → f = filter) ∧
  ∀ ev ga, ev ∈ tr → addressed ev = Some ga →
    ∃ target, EvResolveApp filter (inr target) ∈ tr ∧
      ga = (realm.GroupID target, realm.ID target).
Proof.
  destruct cmd as [[lp ra pj [] []]]; handler_cases; simpl;
    (split; [intros f r Hin; split_elem Hin; congruence|]);
    intros ev ga Hin Hga; split_elem Hin; subst ev; simpl in Hga;
    try discriminate; injection Hga as <-;
    (eexists; split; [find_elem|reflexivity]).
Qed.


(** X4. What is compared is the app loaded from LocalPath: the
    configuration diff is given its AppData and is only asked when its
    root directory is not empty, the dependencies are prepared from that
    app, and the dependency diff is given the upload path that
    preparation returned. *)
Theorem diff_compares_loaded_app clients profile cmd w :
  let tr := (run (app.Handler clients profile cmd) w).2 in
  (∀ g a data r, EvDiff g a data r ∈ tr →
     ∃ app, EvLoadApp (app.LocalPath (app.inputs cmd)) (inr app) ∈ tr ∧
       local.RootDir app ≠ "" ∧ data = local.AppData app) ∧
  (∀ app r, EvPrepareDependencies app r ∈ tr →
     EvLoadApp (app.LocalPath (app.inputs cmd)) (inr app) ∈ tr) ∧
  (∀ g a p r, EvDiffDependencies g a p r ∈ tr →
     ∃ app, EvPrepareDependencies app (inr p) ∈ tr).
Proof.
  destruct cmd as [[lp ra pj [] []]]; handler_cases; simpl;
    (split; [|split]);
    intros;
    match goal with H : _ ∈ _ |- _ => revert H end;
    intros Hin; split_elem Hin; try discriminate;
    try (injection Hin as -> -> -> ->); try (injection Hin as -> ->);
    first [ find_elem
          | eexists; split; [find_elem|];
            split; [by apply String.eqb_neq|reflexivity]
          | eexists; find_elem ].
Qed.

End DiffFlow.

Lemma diff_addresses_resolved_app_witness :
  let tr := (run (app.Handler (script.clients false) script.profile script.diffCommand)
                 tt).2 in
  ∃ target, EvResolveApp (realm.mkAppFilter "group-1" "app-1") (inr target) ∈ tr ∧
    ("group-1", "app-1") = (realm.GroupID target, realm.ID target).
Proof.
  apply (proj2 (diff_addresses_resolved_app (script.clients false) script.profile
                  script.diffCommand tt)
           (EvHostingAssets "group-1" "app-1" (inr []))).
  - vm_compute. find_elem.
  - reflexivity.
Defined.


Lemma diff_compares_loaded_app_witness :
  let tr := (run (app.Handler (script.clients true) script.profile script.diffCommand)
                 tt).2 in
  ∃ app, EvPrepareDependencies app (inr "/tmp/upload.zip") ∈ tr.
Proof.
  apply (proj2 (proj2 (diff_compares_loaded_app (script.clients true) script.profile
                         script.diffCommand tt))
           "group-1" "app-1" "/tmp/upload.zip" (inl script.unavailable)).
  vm_compute. find_elem.
Defined.

(** ** The [secrets delete] handler: failures and the order of the report *)

Section SecretsFlow.
Context {W : Type}.
Variable clients : Clients W.
Variables headerDeleted headerDetails : string.
Variable tableHeaders : list string → list string.
Variable tableRows :
  list secrets.secretOutput →
  (secrets.secretOutput → terminal.row → terminal.row) → list terminal.row.

Local Abbreviation Handler :=
  (secrets.Handler clients headerDeleted headerDetails tableHeaders tableRows).

(** X5. The handler returns an error only when resolving the app,
    listing its secrets or resolving the selection failed: the error is
    the one of that call, unchanged, the call is the last thing the
    handler did, every call before it succeeded, nothing was deleted and
    nothing was printed. *)
Theorem secrets_delete_failure cmd w e w' tr :
  run (Handler cmd) w = (Some e, w', tr) →
  deletions tr = [] ∧ printed tr = [] ∧
  ∃ pre ev, tr = pre ++ [ev] ∧ event_error ev = Some e ∧
    Forall (λ x, event_error x = None) pre.
Proof.
  unfold secrets.Handler; unfold_monad; simpl.
  destruct (ResolveApp clients _ w) as [[e1|target] w1] eqn:HR; simpl.
  { intros [= <- <- <-]. repeat split.
    by exists [], (EvResolveApp (secrets.Filter (secrets.inputs cmd)) (inl e1)). }
  destruct (Secrets clients _ _ w1) as [[e2|found] w2] eqn:HS; simpl.
  { intros [= <- <- <-]. repeat split.
    exists [EvResolveApp (secrets.Filter (secrets.inputs cmd)) (inr target)],
      (EvSecrets (realm.GroupID target) (realm.ID target) (inl e2)).
    repeat split. by repeat constructor. }
  destruct (resolveSecrets clients _ found w2) as [[e3|selected] w3] eqn:HSel; simpl.
  { intros [= <- <- <-]. repeat split.
    exists [EvResolveApp (secrets.Filter (secrets.inputs cmd)) (inr target);
            EvSecrets (realm.GroupID target) (realm.ID target) (inr found)],
      (EvResolveSecrets (secrets.secrets (secrets.inputs cmd)) found (inl e3)).
    repeat split. by repeat constructor. }
  destruct (decide (length selected = 0)) as [Hlen|Hlen]; simpl; [done|].
  match goal with
  | |- context [secrets.deleteSelected clients target selected (?w0, ?tr0)] =>
      destruct (deleteSelected_all clients target selected w0 tr0)
        as (outputs & w4 & -> & _)
  end.
  done.
Qed.

(** X6. A run that returns nil printed one log, as the last thing it
    did: every deletion comes before the report.  Every call to the
    Realm service before it (Secrets, DeleteSecret) is about the group
    and app that resolving the inputs' filter returned. *)
Theorem secrets_delete_report_last cmd w w' tr :
  run (Handler cmd) w = (None, w', tr) →
  ∃ pre log, tr = pre ++ [EvPrint log] ∧ printed pre = [] ∧
    ∀ ev ga, ev ∈ pre → addressed ev = Some ga →
      ∃ target, EvResolveApp (secrets.Filter (secrets.inputs cmd)) (inr target) ∈ pre ∧
        ga = (realm.GroupID target, realm.ID target).
Proof.
  unfold secrets.Handler; unfold_monad; simpl.
  destruct (ResolveApp clients _ w) as [[e1|target] w1] eqn:HR; simpl; [done|].
  destruct (Secrets clients _ _ w1) as [[e2|found] w2] eqn:HS; simpl; [done|].
  destruct (resolveSecrets clients _ found w2) as [[e3|selected] w3] eqn:HSel;
    simpl; [done|].
  set (pre0 := [EvResolveApp (secrets.Filter (secrets.inputs cmd)) (inr target);
                EvSecrets (realm.GroupID target) (realm.ID target) (inr found);
                EvResolveSecrets (secrets.secrets (secrets.inputs cmd)) found
                  (inr selected)]).
  assert (∀ outputs ev ga,
    ev ∈ pre0 ++ (deleteEvent target <$> outputs) →
    addressed ev = Some ga →
    ∃ target0,
      EvResolveApp (secrets.Filter (secrets.inputs cmd)) (inr target0)
        ∈ pre0 ++ (deleteEvent target <$> outputs) ∧
      ga = (realm.GroupID target0, realm.ID target0)) as Haddr.
  { intros outputs ev ga Hin Hga. exists target. split; [by left|].
    apply elem_of_app in Hin as [Hin|Hin].
    - unfold pre0 in Hin. split_elem Hin; subst ev; simpl in Hga; congruence.
    - apply list_elem_of_fmap in Hin as (o & -> & _). simpl in Hga. congruence. }
  destruct (decide (length selected = 0)) as [Hlen|Hlen]; simpl.
  - intros [= <- <-].
    exists (pre0 ++ (deleteEvent target <$> [])), (terminal.NewTextLog "No secrets to delete").
    split; [reflexivity|]. split; [reflexivity|]. apply (Haddr []).
  - match goal with
    | |- context [secrets.deleteSelected clients target selected (?w0, ?tr0)] =>
        destruct (deleteSelected_all clients target selected w0 tr0)
          as (outputs & w4 & -> & _)
    end.
    simpl. intros [= <- <-].
    eexists (pre0 ++ (deleteEvent target <$> outputs)), _.
    split; [by rewrite <- app_assoc|]. split.
    + rewrite printed_app. simpl. apply printed_deleteEvents.
    + apply (Haddr outputs).
Qed.

(** X7. The row of an output: its Deleted cell tells whether the
    deletion returned nil, its Details cell is the text of the error when
    there is one and is left alone otherwise (the two headers being
    different), and no other cell is touched. *)
Theorem tableRowDelete_cells (output : secrets.secretOutput) (row : terminal.row) :
  headerDeleted ≠ headerDetails →
  let row' := secrets.tableRowDelete headerDeleted headerDetails output row in
  row' !! headerDeleted
    = Some (terminal.CellBool (bool_decide (secrets.err output = None))) ∧
  row' !! headerDetails
    = match secrets.err output with
      | Some e => Some (terminal.CellString (Error e))
      | None => row !! headerDetails
      end ∧
  ∀ k, k ≠ headerDeleted → k ≠ headerDetails → row' !! k = row !! k.
Proof.
  intros Hne. unfold secrets.tableRowDelete.
  destruct (secrets.err output) as [e|]; simpl.
  - rewrite lookup_insert_eq, lookup_insert_ne, lookup_insert_eq by done.
    repeat split. intros k H1 H2. by rewrite !lookup_insert_ne.
  - rewrite lookup_insert_eq, lookup_insert_ne by done.
    repeat split. intros k H1 H2. by rewrite lookup_insert_ne.
Qed.

End SecretsFlow.

Lemma secrets_delete_failure_witness :
  let tr := [EvResolveApp (realm.mkAppFilter "group-1" "app-1") (inr script.target);
             EvSecrets "group-1" "app-1" (inl script.unavailable)] in
  deletions tr = [] ∧ printed tr = [] ∧
  ∃ pre ev, tr = pre ++ [ev] ∧ event_error ev = Some script.unavailable ∧
    Forall (λ x, event_error x = None) pre.
Proof.
  apply (secrets_delete_failure (script.clients true) "Deleted" "Details" id
           (λ outputs f, (λ o, f o ∅) <$> outputs) script.deleteCommand tt
           script.unavailable tt).
  vm_compute. reflexivity.
Defined.

Lemma secrets_delete_report_last_witness :
  let tr := (run (secrets.Handler (script.clients false) "Deleted" "Details" id
                    (λ outputs f, (λ o, f o ∅) <$> outputs) script.deleteCommand) tt).2 in
  ∃ pre log, tr = pre ++ [EvPrint log] ∧ printed pre = [] ∧
    ∀ ev ga, ev ∈ pre → addressed ev = Some ga →
      ∃ target, EvResolveApp (realm.mkAppFilter "group-1" "app-1") (inr target) ∈ pre ∧
        ga = (realm.GroupID target, realm.ID target).
Proof.
  apply (secrets_delete_report_last (script.clients false) "Deleted" "Details" id
           (λ outputs f, (λ o, f o ∅) <$> outputs) script.deleteCommand tt tt).
  reflexivity.
Defined.

Lemma tableRowDelete_cells_witness :
  let row' := secrets.tableRowDelete "Deleted" "Details"
                (secrets.mkSecretOutput script.apiKey (Some script.unavailable)) ∅ in
  row' !! "Deleted" = Some (terminal.CellBool false) ∧
  row' !! "Details" = Some (terminal.CellString "service unavailable") ∧
  ∀ k, k ≠ "Deleted" → k ≠ "Details" → row' !! k = (∅ : terminal.row) !! k.
Proof.
  apply (tableRowDelete_cells "Deleted" "Details"
           (secrets.mkSecretOutput script.apiKey (Some script.unavailable)) ∅).
  discriminate.
Defined.

(** ** Stepping through a method *)

Ltac unfold_proc :=
  unfold prun, mbind, mret, P_bind, P_ret, pbind, pret, receiver, assign, pcall,
    peffect, Exit, handler in *.

Ltac destruct_host :=
  match goal with
  | |- context [LoadAppConfig ?h ?p ?x] =>
      destruct (LoadAppConfig h p x) as [[?e|?app] ?w] eqn:?
  | |- context [AskOne ?h ?c ?m ?x] =>
      destruct (AskOne h c m x) as [[[?e|] ?answer] ?w] eqn:?
  | |- context [AppDescription ?h ?g ?a ?x] =>
      destruct (AppDescription h g a x) as [[?e|?desc] ?w] eqn:?
  | |- context [ProfileLoad ?h ?p ?x] =>
      destruct (ProfileLoad h p x) as [[[?e|] ?loaded] ?w] eqn:?
  | |- context [ProfileSave ?h ?p ?x] =>
      destruct (ProfileSave h p x) as [[?e|] ?w] eqn:?
  | |- context [OpenFile ?h ?n ?x] =>
      destruct (OpenFile h n x) as [[?e|?file] ?w] eqn:?
  | |- context [NewObjectID ?h ?x] =>
      destruct (NewObjectID h x) as [?id ?w] eqn:?
  | |- context [UIPrint ?h ?u ?l ?x] =>
      destruct (UIPrint h u l x) as [[?e|] ?w] eqn:?
  end; simpl.

Ltac destruct_empty :=
  match goal with
  | |- context [String.eqb ?s ""] =>
      let E := fresh "E" in
      destruct (String.eqb s "") eqn:E;
      [apply String.eqb_eq in E|apply String.eqb_neq in E]
  end; simpl.

(** ** [CommandDescribe.Handler] *)

Section DescribeProofs.
Context {W D Profile : Type}.
Implicit Types (clients : Clients W) (host : Host W D Profile).

(** X8. [CommandDescribe.Handler] never exits the process.  When it
    returns nil it resolved the app of the inputs' filter, asked for the
    description of that very app and printed it once under "App
    description", and did nothing else.  When it returns an error, that
    is the error of the resolution or of the description request,
    unchanged; the failing call is the last one and nothing was printed;
    the description is not asked for when the resolution failed. *)
Theorem describe_prints_resolved_app clients host cmd w :
  let filter := describe.Filter (describe.inputs cmd) in
  let '(r, _, _, tr) := prun (describe.Handler clients host cmd) tt w in
  match r with
  | Done None =>
      ∃ app desc,
        tr = [XHandler (EvResolveApp filter (inr app));
              XAppDescription (realm.GroupID app) (realm.ID app) (inr desc);
              XPrintJSON "App description" desc]
  | Done (Some e) =>
      tr = [XHandler (EvResolveApp filter (inl e))] ∨
      ∃ app,
        tr = [XHandler (EvResolveApp filter (inr app));
              XAppDescription (realm.GroupID app) (realm.ID app) (inl e)]
  | Exited _ => False
  end.
Proof.
  unfold describe.Handler; unfold_proc; simpl.
  destruct (ResolveApp clients _ w) as [[e|app] w1]; simpl; [by left|].
  destruct_host; [right|]; eauto.
Qed.

End DescribeProofs.

(** ** [diffInputs.Resolve] *)

Section ResolveProofs.
Context {W D Profile : Type}.
Variable host : Host W D Profile.
Variable Option : local.App → string.
Implicit Types (profile : user.Profile) (i : app.diffInputs) (w : W).

Ltac resolve_cases :=
  unfold diff.Resolve, diff.settle; unfold_proc; simpl;
  repeat first [destruct_host | destruct_empty].

(** X9. With a local path given, [diffInputs.Resolve] never prompts: it
    looks for the app configuration once, at that path. *)
Theorem resolve_given_path profile i w :
  app.LocalPath i ≠ "" →
  let tr := (prun (diff.Resolve host Option profile) i w).2 in
  prompts tr = [] ∧ loads tr = [app.LocalPath i].
Proof.
  intros Hne. destruct i as [lp ra pj dep hos]; simpl in *.
  resolve_cases; done.
Qed.

(** X10. Where [diffInputs.Resolve] searches.  The first search is at
    the local path, or at the working directory of the profile when no
    path was given.  The user is prompted, once and for "App filepath
    (local)", exactly when no path was given and that first search
    succeeded without finding a root directory; otherwise there is no
    prompt nor a second search.  When the prompt is answered, the answer
    is what is searched next, and last. *)
Theorem resolve_prompt profile i w :
  let tr := (prun (diff.Resolve host Option profile) i w).2 in
  let searched := if String.eqb (app.LocalPath i) ""
                  then user.WorkingDirectory profile else app.LocalPath i in
  head (loads tr) = Some searched ∧
  (prompts tr = [] ∧ loads tr = [searched] ∨
   prompts tr = [diff.promptLocalPath] ∧ app.LocalPath i = "" ∧
   ∃ app, head tr = Some (XLoadAppConfig searched (inr app)) ∧ local.RootDir app = "") ∧
  (∀ app, app.LocalPath i = "" →
     head tr = Some (XLoadAppConfig searched (inr app)) → local.RootDir app = "" →
     prompts tr = [diff.promptLocalPath]) ∧
  (∀ m answer, XAskOne m None answer ∈ tr → loads tr = [searched; answer]).
Proof.
  destruct i as [lp ra pj dep hos]; simpl.
  resolve_cases; subst; simpl in *;
    (split; [reflexivity|]); (split; [by eauto 6|]);
    (split; [intros a ? [= ->]; congruence|]);
    intros m a Hin; split_elem Hin; try discriminate;
    injection Hin as -> ->; reflexivity.
Qed.

(** X11. Whatever [diffInputs.Resolve] returns, it leaves Project,
    IncludeDependencies and IncludeHosting alone, it never overwrites a
    RemoteApp that was given, and it changes RemoteApp only when it
    returns nil. *)
Theorem resolve_keeps_flags profile i w :
  let '(r, i', _, _) := prun (diff.Resolve host Option profile) i w in
  app.Project i' = app.Project i ∧
  app.IncludeDependencies i' = app.IncludeDependencies i ∧
  app.IncludeHosting i' = app.IncludeHosting i ∧
  (app.RemoteApp i ≠ "" ∨ r ≠ Done None → app.RemoteApp i' = app.RemoteApp i).
Proof.
  destruct i as [lp ra pj dep hos]; simpl.
  resolve_cases; subst; simpl in *; repeat split; intros [?|?]; congruence.
Qed.

(** X12. When [diffInputs.Resolve] returns nil, an app configuration
    was loaded; with [app] the last one loaded: LocalPath is the root
    directory of [app] when it has one, and the path searched last
    otherwise; RemoteApp is the one given, or [app.Option()] when none
    was. *)
Theorem resolve_success profile i w i' w' tr :
  prun (diff.Resolve host Option profile) i w = (Done None, i', w', tr) →
  ∃ app, last (loaded tr) = Some app ∧
    (local.RootDir app ≠ "" → app.LocalPath i' = local.RootDir app) ∧
    (local.RootDir app = "" → last (loads tr) = Some (app.LocalPath i')) ∧
    app.RemoteApp i' = (if String.eqb (app.RemoteApp i) "" then Option app
                        else app.RemoteApp i).
Proof.
  destruct i as [lp ra pj dep hos]; simpl. revert i' w' tr.
  resolve_cases; intros i' w' tr [= <- <- <-]; subst; simpl in *;
    eexists; (split; [reflexivity|]);
    repeat split; try congruence; try (by rewrite ?String.eqb_refl);
    try (intros; match goal with H : ?x ≠ "" |- _ => by apply String.eqb_neq in H as -> end).
Qed.

(** X13. [diffInputs.Resolve] never exits the process, and an error it
    returns is the one of the last thing it did, unchanged: a search for
    the app configuration, or the prompt, in which case LocalPath holds
    whatever the prompt left in it. *)
Theorem resolve_error profile i w :
  let '(r, i', _, tr) := prun (diff.Resolve host Option profile) i w in
  match r with
  | Done None => True
  | Done (Some e) =>
      (∃ p, last tr = Some (XLoadAppConfig p (inl e))) ∨
      (∃ answer, last tr = Some (XAskOne diff.promptLocalPath (Some e) answer) ∧
         app.LocalPath i' = answer)
  | Exited _ => False
  end.
Proof.
  destruct i as [lp ra pj dep hos]; simpl.
  resolve_cases; subst; simpl in *; eauto.
Qed.

End ResolveProofs.

Lemma resolve_given_path_witness :
  let tr := (prun (diff.Resolve (script.host "" true) (λ _, "app-1") script.profile)
                  (app.mkDiffInputs "/home/dev/app" "" "" false false) tt).2 in
  prompts tr = [] ∧ loads tr = ["/home/dev/app"].
Proof.
  apply (resolve_given_path (script.host "" true) (λ _, "app-1") script.profile
           (app.mkDiffInputs "/home/dev/app" "" "" false false) tt).
  simpl. discriminate.
Defined.

Lemma resolve_prompt_witness :
  loads (prun (diff.Resolve (script.host "/home/dev/app" true) (λ _, "app-1")
                 script.profile)
              (app.mkDiffInputs "" "" "" false false) tt).2
  = ["/home/dev"; "/home/dev/app"].
Proof.
  apply (proj2 (proj2 (proj2
           (resolve_prompt (script.host "/home/dev/app" true) (λ _, "app-1")
              script.profile (app.mkDiffInputs "" "" "" false false) tt)))
           diff.promptLocalPath "/home/dev/app").
  vm_compute. find_elem.
Defined.

Lemma resolve_keeps_flags_witness :
  app.RemoteApp
    (prun (diff.Resolve (script.host "" true) (λ _, "app-1") script.profile)
          (app.mkDiffInputs "/home/dev/app" "other-app" "" false false) tt).1.1.2
  = "other-app".
Proof.
  apply (resolve_keeps_flags (script.host "" true) (λ _, "app-1") script.profile
           (app.mkDiffInputs "/home/dev/app" "other-app" "" false false) tt).
  left. simpl. discriminate.
Defined.

Lemma resolve_success_witness :
  let tr := [XLoadAppConfig (D:=string) "/home/dev" (inr (local.mkApp "" []));
             XAskOne diff.promptLocalPath None "/home/dev/app";
             XLoadAppConfig "/home/dev/app" (inr script.project)] in
  let i' := app.mkDiffInputs "/home/dev/app" "app-1" "" false false in
  ∃ app, last (loaded tr) = Some app ∧
    (local.RootDir app ≠ "" → app.LocalPath i' = local.RootDir app) ∧
    (local.RootDir app = "" → last (loads tr) = Some (app.LocalPath i')) ∧
    app.RemoteApp i' = (if String.eqb "" "" then "app-1" else "").
Proof.
  apply (resolve_success (script.host "/home/dev/app" true) (λ _, "app-1")
           script.profile (app.mkDiffInputs "" "" "" false false) tt _ tt).
  vm_compute. reflexivity.
Defined.

(** ** Reading the trace of a process *)

Section ProcessTraceLemmas.
Context {D : Type}.
Implicit Types (tr : list (xevent D)) (evs : list event).

Lemma handled_app tr1 tr2 : handled (tr1 ++ tr2) = handled tr1 ++ handled tr2.
Proof. apply omap_app. Qed.

Lemma usages_app tr1 tr2 : usages (tr1 ++ tr2) = usages tr1 ++ usages tr2.
Proof. apply omap_app. Qed.

Lemma shown_app tr1 tr2 : shown (tr1 ++ tr2) = shown tr1 ++ shown tr2.
Proof. apply omap_app. Qed.

Lemma fatals_app tr1 tr2 : fatals (tr1 ++ tr2) = fatals tr1 ++ fatals tr2.
Proof. apply omap_app. Qed.

Lemma exits_app tr1 tr2 : exits (tr1 ++ tr2) = exits tr1 ++ exits tr2.
Proof. apply omap_app. Qed.

Lemma handled_fmap evs : handled (D:=D) (XHandler <$> evs) = evs.
Proof. induction evs as [|ev evs IH]; [done|]. simpl. by f_equal. Qed.

Lemma usages_fmap evs : usages (D:=D) (XHandler <$> evs) = [].
Proof. by induction evs. Qed.

Lemma shown_fmap evs : shown (D:=D) (XHandler <$> evs) = [].
Proof. by induction evs. Qed.

Lemma fatals_fmap evs : fatals (D:=D) (XHandler <$> evs) = [].
Proof. by induction evs. Qed.

Lemma exits_fmap evs : exits (D:=D) (XHandler <$> evs) = [].
Proof. by induction evs. Qed.

End ProcessTraceLemmas.

Ltac read_trace :=
  rewrite ?handled_app, ?usages_app, ?shown_app, ?fatals_app, ?exits_app,
    ?handled_fmap, ?usages_fmap, ?shown_fmap, ?fatals_fmap, ?exits_fmap;
  simpl; rewrite ?app_nil_r.

(** ** The command factory *)

Section FactoryProofs.
Context {W D Profile Mode FlagSet : Type}.
Context `{EqDecision Mode}.
Variable clients : Clients W.
Variable host : Host W D Profile.
Variable ModeNil : Mode.
Variable GetTelemetryMode : Profile → Mode.
Variable SetTelemetryMode : Mode → Profile → Profile.
Variable PublicAPIKey : Profile → string.
Variable newFlagSet : FlagSet.

Local Abbreviation Factory := (factory.commandFactory Profile Mode).
Local Abbreviation Step := (P (F:=Factory) (W:=W) (D:=D)).
Local Abbreviation configureTelemetry :=
  (factory.configureTelemetry host ModeNil GetTelemetryMode SetTelemetryMode
     PublicAPIKey).
Local Abbreviation ensureUI := (factory.ensureUI (W:=W) (D:=D) (Profile:=Profile) (Mode:=Mode)).

Implicit Types (f : Factory) (w : W).

(** X14. When the configuration asks for no telemetry mode, or for the
    one the profile already has, [configureTelemetry] returns nil without
    saving the profile: it only draws an execution id and installs a
    telemetry service made of the stored mode, the profile's public API
    key, that id and the command name; nothing else of the factory
    changes. *)
Theorem configureTelemetry_keeps_mode name f w :
  let mode := factory.TelemetryMode (factory.commandConfig (factory.config f)) in
  let stored := GetTelemetryMode (factory.profile f) in
  mode = ModeNil ∨ mode = stored →
  let '(r, f', _, tr) := prun (configureTelemetry name) f w in
  r = Done None ∧ saves tr = [] ∧
  ∃ id, tr = [XNewObjectID id] ∧
    f' = factory.setTelemetryService
           (Some (factory.NewService stored (PublicAPIKey (factory.profile f)) id name)) f.
Proof.
  intros mode stored Hmode. unfold factory.configureTelemetry; unfold_proc; simpl.
  fold mode stored.
  destruct (decide (mode = ModeNil)) as [E|E]; simpl.
  - rewrite decide_True by done. simpl. destruct_host. eauto.
  - destruct Hmode as [?|Hmode]; [done|].
    rewrite decide_True by done. simpl. destruct_host. rewrite Hmode. eauto.
Qed.

(** X15. When the configuration asks for a telemetry mode other than
    the stored one, [configureTelemetry] sets it on the profile and saves
    the profile, once and before anything else.  If saving fails, that
    error is returned and no telemetry service is installed, while the
    profile in memory keeps the new mode; if it succeeds, the service is
    made of the new mode, the key of the updated profile, a fresh
    execution id and the command name.  The process is never exited. *)
Theorem configureTelemetry_changes_mode name f w :
  let mode := factory.TelemetryMode (factory.commandConfig (factory.config f)) in
  let updated := SetTelemetryMode mode (factory.profile f) in
  mode ≠ ModeNil → mode ≠ GetTelemetryMode (factory.profile f) →
  let '(r, f', _, tr) := prun (configureTelemetry name) f w in
  match r with
  | Done None =>
      ∃ id, tr = [XProfileSave None; XNewObjectID id] ∧
        f' = factory.setTelemetryService
               (Some (factory.NewService mode (PublicAPIKey updated) id name))
               (factory.setProfile updated f)
  | Done (Some e) =>
      tr = [XProfileSave (Some e)] ∧ f' = factory.setProfile updated f
  | Exited _ => False
  end.
Proof.
  intros mode updated Hnil Hne. unfold factory.configureTelemetry; unfold_proc; simpl.
  fold mode.
  rewrite (decide_False (P:=mode = ModeNil)) by done.
  rewrite decide_False by done. simpl. fold updated.
  destruct_host; [done|]. destruct_host. eauto.
Qed.

(** X16. [ensureUI] calls no collaborator and leaves the world alone,
    and running it a second time changes nothing. *)
Theorem ensureUI_idempotent f w :
  let '(r, f', w', tr) := prun ensureUI f w in
  r = Done tt ∧ w' = w ∧ tr = [] ∧
  prun ensureUI f' w = (Done tt, f', w, []).
Proof.
  destruct f as [cfg pr [u|] [i|] [o|] [e|] sv]; unfold factory.ensureUI; unfold_proc;
    simpl; try done; destruct_empty; done.
Qed.

(** X17. What [ensureUI] fills in.  It keeps the configuration, the
    profile and the telemetry service, and every stream and UI that was
    already set.  A missing input becomes stdin and a missing output
    stdout; a missing error stream becomes the output stream when an
    output target is configured and stderr otherwise; a missing UI is
    built from the UI configuration and the three streams as they are
    then. *)
Theorem ensureUI_streams f w :
  let f' := (prun ensureUI f w).1.1.2 in
  let target := OutputTarget (factory.uiConfig (factory.config f)) in
  factory.config f' = factory.config f ∧
  factory.profile f' = factory.profile f ∧
  factory.telemetryService f' = factory.telemetryService f ∧
  factory.inReader f' = Some (default Stdin (factory.inReader f)) ∧
  factory.outWriter f' = Some (default Stdout (factory.outWriter f)) ∧
  factory.errWriter f' =
    match factory.errWriter f with
    | Some e => Some e
    | None => if String.eqb target "" then Some Stderr else factory.outWriter f'
    end ∧
  factory.ui f' =
    match factory.ui f with
    | Some u => Some u
    | None => Some (NewUI (factory.uiConfig (factory.config f)) (factory.inReader f')
                      (factory.outWriter f') (factory.errWriter f'))
    end.
Proof.
  destruct f as [cfg pr [u|] [i|] [o|] [e|] sv]; unfold factory.ensureUI; unfold_proc;
    simpl; try done; destruct_empty; rewrite ?E; simpl; try done;
    by apply String.eqb_neq in E as ->.
Qed.

(** X18. When [Setup] returns, nothing was logged as fatal, the profile
    was loaded first and without error and is the one the load left, and
    the output target, if one is configured, was opened once and is the
    output stream; with no target no file is opened and the output
    stream is left alone.  The configuration, the UI, the input and the
    error stream are untouched. *)
Theorem Setup_done f w f' w' tr :
  prun (factory.Setup host) f w = (Done tt, f', w', tr) →
  let target := OutputTarget (factory.uiConfig (factory.config f)) in
  fatals tr = [] ∧
  opens tr = (if String.eqb target "" then [] else [target]) ∧
  factory.outWriter f' =
    (if String.eqb target "" then factory.outWriter f else last (opened tr)) ∧
  head tr = Some (XProfileLoad None) ∧
  factory.profile f' = (ProfileLoad host (factory.profile f) w).1.2 ∧
  factory.config f' = factory.config f ∧ factory.ui f' = factory.ui f ∧
  factory.inReader f' = factory.inReader f ∧ factory.errWriter f' = factory.errWriter f.
Proof.
  revert f' w' tr. unfold factory.Setup, factory.Fatal; unfold_proc; cbv zeta; simpl.
  destruct_host; [done|].
  destruct (String.eqb (OutputTarget _) "") eqn:E; simpl.
  - intros f' w' tr [= <- <- <-]. simpl. done.
  - destruct_host; [done|]. intros f' w' tr [= <- <- <-]. simpl. done.
Qed.

(** X19. [Setup] exits the process, with code 1, in two cases only.
    Either loading the profile failed: that error is logged as fatal and
    no file is opened.  Or the configured output target could not be
    opened: the error logged is "failed to open target file: " followed
    by the text of the cause, wrapping the cause.  In both cases the
    output stream of the factory is left as it was. *)
Theorem Setup_fatal f w code f' w' tr :
  prun (factory.Setup host) f w = (Exited code, f', w', tr) →
  let target := OutputTarget (factory.uiConfig (factory.config f)) in
  code = 1 ∧ factory.outWriter f' = factory.outWriter f ∧ opened tr = [] ∧
  ((∃ err, tr = [XProfileLoad (Some err); XFatal err]) ∨
   (∃ cause, target ≠ "" ∧
      tr = [XProfileLoad None; XOpenFile target (inl cause);
            XFatal (wrapError ("failed to open target file: " +:+ Error cause) cause)])).
Proof.
  revert f' w' tr. unfold factory.Setup, factory.Fatal; unfold_proc; cbv zeta; simpl.
  destruct_host.
  - intros f' w' tr [= <- <- <- <-]. eauto 10.
  - destruct_empty; [done|]. destruct_host; [|done].
    intros f' w' tr [= <- <- <- <-]. simpl. split; [done|]. split; [done|].
    split; [done|]. right. eauto.
Qed.

(** X20. [Setup] followed by [Close]: the files closed are exactly the
    files opened, at most one; with no output target no file is opened
    (nor closed, whatever the output stream is); a run that completes
    logged nothing as fatal; and when [Setup] exits, [Close] is not
    reached. *)
Theorem Setup_then_Close f w :
  let '(r, _, _, tr) := prun (factory.Setup host;; factory.Close host) f w in
  closed tr = opened tr ∧ (length (opens tr) ≤ 1)%nat ∧
  (OutputTarget (factory.uiConfig (factory.config f)) = "" → opens tr = []) ∧
  (r = Done tt → fatals tr = []) ∧
  (∀ code, r = Exited code → closed tr = [] ∧ ∃ err, last tr = Some (XFatal err)).
Proof.
  unfold factory.Setup, factory.Close, factory.Fatal; unfold_proc; simpl.
  destruct_host.
  - simpl. repeat split; try done; try lia. eauto.
  - destruct (String.eqb (OutputTarget _) "") eqn:E; simpl.
    + rewrite E. simpl. repeat split; try done; lia.
    + destruct_host.
      * repeat split; try done; try lia; [by apply String.eqb_neq in E|eauto].
      * rewrite E. simpl. repeat split; try done; try lia.
        by apply String.eqb_neq in E.
Qed.

(** X21. With an output target configured and no error stream nor UI
    set beforehand, [Setup] followed by [ensureUI] sends everything to
    the target: the output and the error stream of the factory, and of
    the UI that is built, are the one file that was opened. *)
Theorem Setup_then_ensureUI f w f' w' tr :
  OutputTarget (factory.uiConfig (factory.config f)) ≠ "" →
  factory.errWriter f = None → factory.ui f = None →
  prun (factory.Setup host;; ensureUI) f w = (Done tt, f', w', tr) →
  ∃ file, opened tr = [file] ∧
    factory.outWriter f' = Some file ∧ factory.errWriter f' = Some file ∧
    factory.ui f' = Some (NewUI (factory.uiConfig (factory.config f))
                            (Some (default Stdin (factory.inReader f)))
                            (Some file) (Some file)).
Proof.
  destruct f as [cfg pr u i o e sv]; simpl. intros Hne -> ->. revert f' w' tr.
  unfold factory.Setup, factory.ensureUI, factory.Fatal; unfold_proc; simpl.
  destruct_host; [done|]. destruct_empty; [done|].
  destruct_host; [done|].
  destruct i as [i|]; simpl; destruct_empty; try done;
    intros f' w' tr [= <- <- <-]; simpl; eauto.
Qed.

(** X22. [Run] around any execution of the command.  If the execution
    returns nil, [Run] adds nothing and returns.  If it returns an error,
    [Run] always ends the process with code 1: the usage text is printed
    first unless the error is a [suppressUsageError]; then, if a UI
    exists, the error is handed to it as an error log, once; the process
    ends by os.Exit(1) when that print succeeded, and by a fatal log of
    the original error (not of the print's error) when there is no UI or
    the print failed.  The factory is as the execution left it. *)
Theorem Run_outcomes (Execute : Step (option error)) usage f w :
  let '(e, f1, _, tr1) := prun Execute f w in
  let '(r, f', _, tr) := prun (factory.Run host Execute usage) f w in
  f' = f1 ∧
  match e with
  | Done None => r = Done tt ∧ tr = tr1
  | Done (Some err) =>
      r = Exited 1 ∧
      ∃ tail, tr = tr1 ++ tail ∧
        usages tail = (if factory.isSuppressUsageError err then [] else [usage]) ∧
        shown tail = match factory.ui f1 with
                     | Some u => [(u, terminal.NewErrorLog err)]
                     | None => []
                     end ∧
        (fatals tail = [err] ∧ exits tail = [] ∧
           (factory.ui f1 = None ∨
            ∃ u printErr, last (removelast tail)
                          = Some (XUIPrint u (terminal.NewErrorLog err) (Some printErr)))
         ∨ fatals tail = [] ∧ exits tail = [1] ∧
           ∃ u, tail = (if factory.isSuppressUsageError err then [] else [XPrintln usage])
                       ++ [XUIPrint u (terminal.NewErrorLog err) None; XExit 1])
  | Exited code => r = Exited code ∧ tr = tr1
  end.
Proof.
  unfold factory.Run, factory.Fatal; unfold_proc; simpl.
  destruct (Execute (f, w, [])) as [[[err|]|code] [[f1 w1] tr1]]; simpl; [|done..].
  destruct (factory.isSuppressUsageError err); simpl;
    (destruct (factory.ui f1) as [u|] eqn:Hui; simpl; [destruct_host|]);
    rewrite <- ?app_assoc; simpl;
    (split; [done|]); (split; [done|]); eexists; (split; [reflexivity|]); simpl;
    (split; [done|]); (split; [done|]); eauto 10.
Qed.

Local Abbreviation Build :=
  (factory.Build clients host ModeNil GetTelemetryMode SetTelemetryMode PublicAPIKey
     newFlagSet).

Implicit Types (provider : unit → factory.CommandDefinition W Profile Mode FlagSet).

(** What a closure makes of the handler it runs. *)
Lemma invoke_run (c : M (W:=W) unit) f w (tr : list (xevent D)) :
  factory.invoke (Profile:=Profile) (Mode:=Mode) c (f, w, tr) =
  let '(e, w', tr') := run c w in
  (Done e, (f, w', tr ++ (XHandler <$> tr'))).
Proof.
  unfold factory.invoke; unfold_proc; unfold run; simpl.
  by destruct (c (w, [])) as [r [w' tr']].
Qed.

(** The command [Build] returns, when it returns. *)
Lemma Build_inv provider f w cmd f1 w1 tr1 :
  prun (Build provider) f w = (Done cmd, f1, w1, tr1) →
  let definition := provider tt in
  let display := runner.displayOf (factory.Display definition) (factory.Use definition) in
  prun (configureTelemetry display) f w = (Done None, f1, w1, tr1) ∧
  factory.RunE cmd = (λ a,
    f ← receiver;
    factory.invoke (runner.RunE clients display
      (factory.commandHandler (factory.command definition) (factory.profile f)
         (factory.ui f) a))) ∧
  factory.PersistentPreRun cmd = (λ a,
    ensureUI;;
    f ← receiver;
    peffect (SetStreams host (factory.inReader f) (factory.outWriter f) (factory.errWriter f))
            (XSetStreams (factory.inReader f) (factory.outWriter f) (factory.errWriter f))) ∧
  factory.PreRunE cmd =
    match factory.commandSetup (factory.command definition) with
    | Some setup => Some (λ a,
        f ← receiver;
        e ← factory.invoke (setup (factory.profile f) (factory.ui f)
                              (factory.commandConfig (factory.config f)));
        match e with
        | Some err =>
            mret (Some (wrapError (display +:+ " setup failed: " +:+ Error err) err))
        | None => mret None
        end)
    | None => None
    end ∧
  factory.PostRunE cmd =
    match factory.commandFeedback (factory.command definition) with
    | Some feedback => Some (λ a,
        f ← receiver;
        e ← factory.invoke (feedback (factory.profile f) (factory.ui f));
        match e with
        | Some err =>
            mret (Some (suppressUsageError
              (wrapError (display +:+ " completed, but displaying results failed: "
                          +:+ Error err) err)))
        | None => mret None
        end)
    | None => None
    end.
Proof.
  unfold factory.Build, factory.Fatal, prun. unfold mbind at 1. unfold P_bind, pbind.
  destruct (configureTelemetry _ (f, w, [])) as [[[e|]|code] [[f2 w2] tr2]]; simpl;
    [done| |done].
  unfold mret, P_ret, pret. intros [= <- <- <- <-]. done.
Qed.

(** X23. The errors of the hooks [Build] installs, with [display] the
    Display of the definition or its Use when Display is blank.  The hooks
    never exit the process.  An error of RunE is a [suppressUsageError]
    around "<display> failed: <cause>", one of PostRunE a
    [suppressUsageError] around "<display> completed, but displaying
    results failed: <cause>", while one of PreRunE is "<display> setup
    failed: <cause>" and is not a [suppressUsageError]; each wraps its
    cause.  PreRunE and PostRunE are installed exactly when the command
    is a CommandPreparer, respectively a CommandResponder. *)
Theorem Build_closure_errors provider f w cmd f1 w1 tr1 :
  prun (Build provider) f w = (Done cmd, f1, w1, tr1) →
  let definition := provider tt in
  let display := runner.displayOf (factory.Display definition) (factory.Use definition) in
  (∀ a s,
     match (factory.RunE cmd a s).1 with
     | Done None => True
     | Done (Some err) =>
         factory.isSuppressUsageError err = true ∧
         ∃ cause, err = suppressUsageError
                          (wrapError (display +:+ " failed: " +:+ Error cause) cause)
     | Exited _ => False
     end) ∧
  (∀ pre a s, factory.PreRunE cmd = Some pre →
     match (pre a s).1 with
     | Done None => True
     | Done (Some err) =>
         factory.isSuppressUsageError err = false ∧
         ∃ cause, err = wrapError (display +:+ " setup failed: " +:+ Error cause) cause
     | Exited _ => False
     end) ∧
  (∀ post a s, factory.PostRunE cmd = Some post →
     match (post a s).1 with
     | Done None => True
     | Done (Some err) =>
         factory.isSuppressUsageError err = true ∧
         ∃ cause, err = suppressUsageError
                          (wrapError (display +:+ " completed, but displaying results failed: "
                                      +:+ Error cause) cause)
     | Exited _ => False
     end) ∧
  (factory.PreRunE cmd = None ↔
     factory.commandSetup (factory.command definition) = None) ∧
  (factory.PostRunE cmd = None ↔
     factory.commandFeedback (factory.command definition) = None).
Proof.
  intros HB. apply Build_inv in HB as (_ & HR & _ & Hpre & Hpost).
  cbv zeta in *. rewrite HR, Hpre, Hpost. clear HR Hpre Hpost.
  split; [|split; [|split; [|split]]].
  - intros a [[f0 w0] tr0]. unfold mbind, P_bind, pbind, receiver. simpl.
    rewrite invoke_run, RunE_run.
    destruct (factory.commandHandler _ _ _ _ _) as [[err|[]] [w2 tr2]]; simpl; eauto.
  - intros pre a [[f0 w0] tr0].
    destruct (factory.commandSetup _) as [setup|]; [|done].
    intros [= <-]. unfold mbind, P_bind, pbind, receiver. simpl.
    rewrite invoke_run.
    destruct (run _ w0) as [[[err|] w2] tr2]; simpl; eauto.
  - intros post a [[f0 w0] tr0].
    destruct (factory.commandFeedback _) as [feedback|]; [|done].
    intros [= <-]. unfold mbind, P_bind, pbind, receiver. simpl.
    rewrite invoke_run.
    destruct (run _ w0) as [[[err|] w2] tr2]; simpl; eauto.
  - by destruct (factory.commandSetup _).
  - by destruct (factory.commandFeedback _).
Qed.

(** X24. [Build] leaves the UI and the streams of the factory alone.
    When it returns a command, nothing was logged as fatal, every save of
    the profile succeeded, the telemetry service installed carries the
    display name of the command and the public API key of the profile as
    it is then, the Use, Short, Long and Aliases of the command are the
    Use, Description, Help and Aliases of the definition, and its flags
    are those the command registered, if it is a CommandFlagger.  When it
    exits instead, the code is 1, the one thing that happened is a failed
    save of the profile whose error was logged as fatal, and no
    telemetry service was installed. *)
Theorem Build_telemetry provider f w :
  let definition := provider tt in
  let display := runner.displayOf (factory.Display definition) (factory.Use definition) in
  let '(r, f', _, tr) := prun (Build provider) f w in
  factory.ui f' = factory.ui f ∧ factory.inReader f' = factory.inReader f ∧
  factory.outWriter f' = factory.outWriter f ∧
  factory.errWriter f' = factory.errWriter f ∧
  match r with
  | Done cmd =>
      fatals tr = [] ∧ Forall (λ saved, saved = None) (saves tr) ∧
      (∃ service, factory.telemetryService f' = Some service ∧
         factory.serviceCommand service = display ∧
         factory.servicePublicAPIKey service = PublicAPIKey (factory.profile f')) ∧
      factory.cobraUse cmd = factory.Use definition ∧
      factory.cobraShort cmd = factory.Description definition ∧
      factory.cobraLong cmd = factory.Help definition ∧
      factory.cobraAliases cmd = factory.Aliases definition ∧
      factory.Flags cmd =
        match factory.commandRegisterFlags (factory.command definition) with
        | Some register => register newFlagSet
        | None => newFlagSet
        end
  | Exited code =>
      code = 1 ∧ factory.telemetryService f' = factory.telemetryService f ∧
      ∃ e, tr = [XProfileSave (Some e); XFatal e]
  end.
Proof.
  unfold factory.Build, factory.configureTelemetry, factory.Fatal; unfold_proc; simpl.
  destruct (decide (_ = GetTelemetryMode _)); simpl.
  - destruct_host. repeat split; eauto.
  - destruct_host; [by eauto 10|]. destruct_host. repeat split; eauto.
Qed.

(** X25. [Run] around the persistent pre-run hook followed by RunE of
    a command from [Build].  The handler is run with the profile of the
    factory and a UI that is never nil, after the streams were set on the
    command, between the telemetry events of the runner; its events are
    the only handler events of the run, and the usage text is never
    printed.  If the handler returns nil, [Run] returns and the process
    goes on; otherwise the process ends with code 1 after the wrapped
    error, a [suppressUsageError], was handed to that UI once. *)
Theorem Run_handler provider f w cmd f1 w1 tr1 a usage :
  prun (Build provider) f w = (Done cmd, f1, w1, tr1) →
  let definition := provider tt in
  let display := runner.displayOf (factory.Display definition) (factory.Use definition) in
  let Execute := factory.PersistentPreRun cmd a;; factory.RunE cmd a in
  let '(r, f', w', tr) := prun (factory.Run host Execute usage) f1 w1 in
  ∃ u, factory.ui f' = Some u ∧
    let w2 := SetStreams host (factory.inReader f') (factory.outWriter f')
                (factory.errWriter f') w1 in
    let '(e, w3, trH) :=
      run (runner.RunE clients display
             (factory.commandHandler (factory.command definition) (factory.profile f1)
                (Some u) a)) w2 in
    handled tr = trH ∧ usages tr = [] ∧
    match e with
    | None => r = Done tt ∧ w' = w3 ∧ shown tr = [] ∧ fatals tr = [] ∧ exits tr = []
    | Some err =>
        r = Exited 1 ∧ factory.isSuppressUsageError err = true ∧
        shown tr = [(u, terminal.NewErrorLog err)] ∧
        (fatals tr = [] ∧ exits tr = [1] ∨ fatals tr = [err] ∧ exits tr = [])
    end.
Proof.
  intros HB. apply Build_inv in HB as (_ & HR & HP & _ & _).
  cbv zeta in *. rewrite HR, HP. clear HR HP.
  destruct f1 as [cfg pr u i o e sv].
  unfold factory.Run, factory.ensureUI, factory.Fatal.
  unfold prun, mbind, mret, P_bind, P_ret, pbind, pret, receiver, assign, peffect, Exit,
    pcall.
  destruct u as [u|], i as [i|], o as [o|], e as [e|]; simpl;
    try destruct_empty; rewrite invoke_run, RunE_run.
  all: destruct (factory.commandHandler _ _ _ _ _) as [[err|[]] [w4 tr4]] eqn:Hh; simpl.
  all: try destruct_host.
  all: eexists; (split; [reflexivity|]); simpl.
  all: rewrite RunE_run, Hh.
  all: rewrite <- ?app_assoc; simpl; read_trace; auto 10.
Qed.

(** X26. [Run] around the persistent pre-run hook followed by PreRunE
    of a command from [Build] that is a CommandPreparer.  The command's
    Setup is run with the profile, a UI that is never nil and the command
    configuration of the factory.  If it returns nil, [Run] returns; if it
    fails, the usage text is printed once, the error "<display> setup
    failed: <cause>" is handed to the UI once, and the process ends with
    code 1. *)
Theorem Run_setup provider f w cmd f1 w1 tr1 pre a usage :
  prun (Build provider) f w = (Done cmd, f1, w1, tr1) →
  factory.PreRunE cmd = Some pre →
  let definition := provider tt in
  let display := runner.displayOf (factory.Display definition) (factory.Use definition) in
  let Execute := factory.PersistentPreRun cmd a;; pre a in
  let '(r, f', w', tr) := prun (factory.Run host Execute usage) f1 w1 in
  ∃ u setup, factory.ui f' = Some u ∧
    factory.commandSetup (factory.command definition) = Some setup ∧
    let w2 := SetStreams host (factory.inReader f') (factory.outWriter f')
                (factory.errWriter f') w1 in
    let '(e, w3, trS) :=
      run (setup (factory.profile f1) (Some u)
             (factory.commandConfig (factory.config f1))) w2 in
    handled tr = trS ∧
    match e with
    | None =>
        r = Done tt ∧ w' = w3 ∧ usages tr = [] ∧ shown tr = [] ∧ fatals tr = [] ∧
        exits tr = []
    | Some cause =>
        let err := wrapError (display +:+ " setup failed: " +:+ Error cause) cause in
        r = Exited 1 ∧ usages tr = [usage] ∧
        shown tr = [(u, terminal.NewErrorLog err)] ∧
        (fatals tr = [] ∧ exits tr = [1] ∨ fatals tr = [err] ∧ exits tr = [])
    end.
Proof.
  intros HB. apply Build_inv in HB as (_ & _ & HP & Hpre & _).
  cbv zeta in *. rewrite HP, Hpre. clear HP Hpre.
  destruct (factory.commandSetup _) as [setup|]; [|done]. intros [= <-].
  destruct f1 as [cfg pr u i o e sv].
  unfold factory.Run, factory.ensureUI, factory.Fatal.
  unfold prun, mbind, mret, P_bind, P_ret, pbind, pret, receiver, assign, peffect, Exit,
    pcall.
  destruct u as [u|], i as [i|], o as [o|], e as [e|]; simpl;
    try destruct_empty; rewrite invoke_run.
  all: destruct (run _ _) as [[[cause|] w4] tr4] eqn:Hs; simpl.
  all: try destruct_host.
  all: eexists _, setup; (split; [reflexivity|]); (split; [reflexivity|]); simpl.
  all: rewrite Hs.
  all: rewrite <- ?app_assoc; simpl; read_trace; auto 10.
Qed.

End FactoryProofs.

(** ** The factory on the scripted machine *)

Lemma configureTelemetry_keeps_mode_witness :
  let '(r, f', _, tr) :=
    prun (factory.configureTelemetry (script.host "" true) "" script.telemetryMode
            script.setTelemetryMode script.publicAPIKey "whoami")
         (script.factoryOf "" "") tt in
  r = Done None ∧ saves tr = [] ∧
  ∃ id, tr = [XNewObjectID id] ∧
    f' = factory.setTelemetryService
           (Some (factory.NewService "on" "public-key" id "whoami"))
           (script.factoryOf "" "").
Proof.
  apply (configureTelemetry_keeps_mode (script.host "" true) "" script.telemetryMode
           script.setTelemetryMode script.publicAPIKey "whoami"
           (script.factoryOf "" "") tt).
  left. reflexivity.
Defined.

Lemma configureTelemetry_changes_mode_witness :
  let '(r, f', _, tr) :=
    prun (factory.configureTelemetry (script.host "" false) "" script.telemetryMode
            script.setTelemetryMode script.publicAPIKey "whoami")
         (script.factoryOf "off" "") tt in
  match r with
  | Done None =>
      ∃ id, tr = [XProfileSave None; XNewObjectID id] ∧
        f' = factory.setTelemetryService
               (Some (factory.NewService "off" "public-key" id "whoami"))
               (factory.setProfile (script.mkProfile "off" "public-key")
                  (script.factoryOf "off" ""))
  | Done (Some e) =>
      tr = [XProfileSave (Some e)] ∧
      f' = factory.setProfile (script.mkProfile "off" "public-key")
             (script.factoryOf "off" "")
  | Exited _ => False
  end.
Proof.
  apply (configureTelemetry_changes_mode (script.host "" false) "" script.telemetryMode
           script.setTelemetryMode script.publicAPIKey "whoami"
           (script.factoryOf "off" "") tt).
  - simpl. discriminate.
  - simpl. discriminate.
Defined.

Lemma Setup_done_witness :
  let f := script.factoryOf "" "/tmp/out.log" in
  let f' := factory.setOutWriter (Some (Opened "/tmp/out.log")) f in
  let tr := [XProfileLoad (D:=string) None;
             XOpenFile "/tmp/out.log" (inr (Opened "/tmp/out.log"))] in
  fatals tr = [] ∧
  opens tr = (if String.eqb "/tmp/out.log" "" then [] else ["/tmp/out.log"]) ∧
  factory.outWriter f' =
    (if String.eqb "/tmp/out.log" "" then factory.outWriter f else last (opened tr)) ∧
  head tr = Some (XProfileLoad None) ∧
  factory.profile f' =
    (ProfileLoad (script.host "" true) (factory.profile f) tt).1.2 ∧
  factory.config f' = factory.config f ∧ factory.ui f' = factory.ui f ∧
  factory.inReader f' = factory.inReader f ∧ factory.errWriter f' = factory.errWriter f.
Proof.
  apply (Setup_done (script.host "" true) (script.factoryOf "" "/tmp/out.log") tt _ tt).
  reflexivity.
Defined.

Lemma Setup_fatal_witness :
  let f := script.factoryOf "" "/tmp/out.log" in
  let tr := [XProfileLoad (D:=string) None;
             XOpenFile "/tmp/out.log" (inl (errorString "permission denied"));
             XFatal (wrapError "failed to open target file: permission denied"
                       (errorString "permission denied"))] in
  1 = 1 ∧ factory.outWriter f = factory.outWriter f ∧ opened tr = [] ∧
  ((∃ err, tr = [XProfileLoad (Some err); XFatal err]) ∨
   (∃ cause, "/tmp/out.log" ≠ "" ∧
      tr = [XProfileLoad None; XOpenFile "/tmp/out.log" (inl cause);
            XFatal (wrapError ("failed to open target file: " +:+ Error cause) cause)])).
Proof.
  apply (Setup_fatal (script.host "" false) (script.factoryOf "" "/tmp/out.log") tt 1
           (script.factoryOf "" "/tmp/out.log") tt).
  reflexivity.
Defined.

Lemma Setup_then_Close_witness :
  fatals (prun (factory.Setup (script.host "" true);;
                factory.Close (script.host "" true))
               (script.factoryOf "" "/tmp/out.log") tt).2 = [].
Proof.
  exact (proj1 (proj2 (proj2 (proj2
    (Setup_then_Close (script.host "" true) (script.factoryOf "" "/tmp/out.log") tt))))
    eq_refl).
Defined.

Lemma Setup_then_ensureUI_witness :
  let f := script.factoryOf "" "/tmp/out.log" in
  let run := prun (factory.Setup (script.host "" true);; factory.ensureUI) f tt in
  ∃ file, opened run.2 = [file] ∧
    factory.outWriter run.1.1.2 = Some file ∧ factory.errWriter run.1.1.2 = Some file ∧
    factory.ui run.1.1.2
      = Some (NewUI (factory.uiConfig (factory.config f)) (Some Stdin) (Some file)
                (Some file)).
Proof.
  apply (Setup_then_ensureUI (script.host "" true) (script.factoryOf "" "/tmp/out.log")
           tt _ tt).
  - simpl. discriminate.
  - reflexivity.
  - reflexivity.
  - reflexivity.
Defined.
Lemma Build_closure_errors_witness :
  ∃ cmd : factory.cobraCommand (W:=unit) (D:=string) (Profile:=script.Profile)
            (Mode:=string) (FlagSet:=list string),
  (∀ a s,
     match (factory.RunE cmd a s).1 with
     | Done None => True
     | Done (Some err) =>
         factory.isSuppressUsageError err = true ∧
         ∃ cause, err = suppressUsageError
                          (wrapError ("whoami" +:+ " failed: " +:+ Error cause) cause)
     | Exited _ => False
     end) ∧
  (∀ pre a s, factory.PreRunE cmd = Some pre →
     match (pre a s).1 with
     | Done None => True
     | Done (Some err) =>
         factory.isSuppressUsageError err = false ∧
         ∃ cause, err = wrapError ("whoami" +:+ " setup failed: " +:+ Error cause) cause
     | Exited _ => False
     end) ∧
  (∀ post a s, factory.PostRunE cmd = Some post →
     match (post a s).1 with
     | Done None => True
     | Done (Some err) =>
         factory.isSuppressUsageError err = true ∧
         ∃ cause, err = suppressUsageError
                          (wrapError ("whoami" +:+ " completed, but displaying results failed: "
                                      +:+ Error cause) cause)
     | Exited _ => False
     end) ∧
  (factory.PreRunE cmd = None ↔
     factory.commandSetup (script.whoami true) = None) ∧
  (factory.PostRunE cmd = None ↔
     factory.commandFeedback (script.whoami true) = None).
Proof.
  eexists.
  eapply (Build_closure_errors (script.clients false) (script.host "" true) ""
           script.telemetryMode script.setTelemetryMode script.publicAPIKey []
           (λ _, script.whoamiDefinition true) (script.factoryOf "" "") tt _ _ tt _).
  reflexivity.
Defined.

Lemma Run_handler_witness :
  ∃ (cmd : factory.cobraCommand (W:=unit) (D:=string) (Profile:=script.Profile)
             (Mode:=string) (FlagSet:=list string)) f1,
  let Execute := factory.PersistentPreRun cmd (@nil string);; factory.RunE cmd (@nil string) in
  let '(r, f', w', tr) :=
    prun (factory.Run (script.host "" true) Execute "Usage: whoami") f1 tt in
  ∃ u, factory.ui f' = Some u ∧
    let w2 := tt in
    let '(e, w3, trH) :=
      run (runner.RunE (script.clients false) "whoami"
             (factory.commandHandler (script.whoami true) (factory.profile f1)
                (Some u) (@nil string))) w2 in
    handled tr = trH ∧ usages tr = [] ∧
    match e with
    | None => r = Done tt ∧ w' = w3 ∧ shown tr = [] ∧ fatals tr = [] ∧ exits tr = []
    | Some err =>
        r = Exited 1 ∧ factory.isSuppressUsageError err = true ∧
        shown tr = [(u, terminal.NewErrorLog err)] ∧
        (fatals tr = [] ∧ exits tr = [1] ∨ fatals tr = [err] ∧ exits tr = [])
    end.
Proof.
  eexists _, _.
  eapply (Run_handler (script.clients false) (script.host "" true) ""
           script.telemetryMode script.setTelemetryMode script.publicAPIKey []
           (λ _, script.whoamiDefinition true) (script.factoryOf "" "") tt _ _ tt _ (@nil string)
           "Usage: whoami").
  reflexivity.
Defined.

Lemma Run_setup_witness :
  ∃ (cmd : factory.cobraCommand (W:=unit) (D:=string) (Profile:=script.Profile)
             (Mode:=string) (FlagSet:=list string)) f1 pre,
  let Execute := factory.PersistentPreRun cmd (@nil string);; pre (@nil string) in
  let '(r, f', w', tr) :=
    prun (factory.Run (script.host "" true) Execute "Usage: whoami") f1 tt in
  ∃ u setup, factory.ui f' = Some u ∧
    factory.commandSetup (script.whoami true) = Some setup ∧
    let '(e, w3, trS) :=
      run (setup (factory.profile f1) (Some u)
             (factory.commandConfig (factory.config f1))) tt in
    handled tr = trS ∧
    match e with
    | None =>
        r = Done tt ∧ w' = w3 ∧ usages tr = [] ∧ shown tr = [] ∧ fatals tr = [] ∧
        exits tr = []
    | Some cause =>
        let err := wrapError ("whoami" +:+ " setup failed: " +:+ Error cause) cause in
        r = Exited 1 ∧ usages tr = ["Usage: whoami"] ∧
        shown tr = [(u, terminal.NewErrorLog err)] ∧
        (fatals tr = [] ∧ exits tr = [1] ∨ fatals tr = [err] ∧ exits tr = [])
    end.
Proof.
  eexists _, _, _.
  eapply (Run_setup (script.clients false) (script.host "" true) ""
           script.telemetryMode script.setTelemetryMode script.publicAPIKey []
           (λ _, script.whoamiDefinition true) (script.factoryOf "" "") tt _ _ tt _ _ (@nil string)
           "Usage: whoami").
  - reflexivity.
  - reflexivity.
Defined.
